(** * Dividend scanner, health score, risk assessor and backtester

    A shallow embedding of [src/src/scanner/engine.py] and
    [src/risk_management.py].

    Conventions of the embedding:
    - Python floats and ints are exact rationals ([Q]); NaN and the
      infinities are not represented, and no operation rounds or
      overflows. The properties proved below are about comparisons,
      orders, counts, the presence of values and the bookkeeping of the
      loops, on which rounding does not bear; where a definition computes
      a number whose float value can differ from the exact one, its
      comment says so.
    - a Python [dict] with string keys is an association list, looked up
      by the first matching key; [d.get(k)] is [get d k].
    - a pandas DataFrame is the list of its rows, in row order.
    - a Python exception is the [Raise] branch of [result]; [try/except]
      is a match on it.
    - the ambient random generator is a stream of standard-normal draws
      together with the position of the next draw.
    - [datetime.now()] is one instant [now] for the whole call. *)

From Stdlib Require Import QArith Qround Qminmax ZArith NArith List String Ascii Bool.
From Stdlib Require Import Lia Lqa Sorting.Sorted Permutation OrdersEx.
Import ListNotations.

Open Scope string_scope.
Open Scope Q_scope.

(** ** Exceptions *)

Inductive exn : Type :=
| ValueError
| TypeError
| KeyError
| IndexError
| ZeroDivisionError
| OverflowError
| RetrievalError.

Inductive result (A : Type) : Type :=
| Ok (a : A)
| Raise (e : exn).

Arguments Ok {A} a.
Arguments Raise {A} e.

Definition bind {A B : Type} (c : result A) (k : A -> result B) : result B :=
  match c with
  | Ok a => k a
  | Raise e => Raise e
  end.

Notation "x <- c ;; k" := (bind c (fun x => k))
  (at level 61, c at next level, right associativity).

(** ** Python scalars *)

Inductive pyval : Type :=
| PNone
| PNum (q : Q)
| PStr (s : string).

(** [ScanFilter.value] is annotated [any]: a scalar or a sequence. *)
Inductive pyarg : Type :=
| Scalar (v : pyval)
| Seq (l : list pyval).

Definition Qlt_bool (x y : Q) : bool := negb (Qle_bool y x).

Definition is_empty {A : Type} (l : list A) : bool :=
  match l with
  | [] => true
  | _ :: _ => false
  end.

(** [bool(v)] *)
Definition truthy (v : pyval) : bool :=
  match v with
  | PNone => false
  | PNum q => negb (Qeq_bool q 0)
  | PStr s => negb (String.eqb s EmptyString)
  end.

(** [a or b] *)
Definition py_or (a b : pyval) : pyval := if truthy a then a else b.

(** [a == b] never raises. *)
Definition py_eq (a b : pyval) : bool :=
  match a, b with
  | PNone, PNone => true
  | PNum x, PNum y => Qeq_bool x y
  | PStr s, PStr t => String.eqb s t
  | _, _ => false
  end.

(** [a <= b]: numbers with numbers, strings with strings. *)
Definition py_le (a b : pyval) : result bool :=
  match a, b with
  | PNum x, PNum y => Ok (Qle_bool x y)
  | PStr s, PStr t => Ok (String.leb s t)
  | _, _ => Raise TypeError
  end.

Definition py_lt (a b : pyval) : result bool :=
  match a, b with
  | PNum x, PNum y => Ok (Qlt_bool x y)
  | PStr s, PStr t => Ok (String.ltb s t)
  | _, _ => Raise TypeError
  end.

Definition py_ge (a b : pyval) : result bool := py_le b a.
Definition py_gt (a b : pyval) : result bool := py_lt b a.

(** [t in s] on strings: [t] occurs in [s]. *)
Fixpoint contains (s t : string) : bool :=
  match s with
  | EmptyString => String.eqb t EmptyString
  | String _ s' => String.prefix t s || contains s' t
  end.

(** [a in b] *)
Definition py_in (a : pyval) (b : pyarg) : result bool :=
  match b with
  | Seq l => Ok (existsb (py_eq a) l)
  | Scalar (PStr s) =>
      match a with
      | PStr t => Ok (contains s t)
      | _ => Raise TypeError
      end
  | Scalar _ => Raise TypeError
  end.

(** [min(a, b)] and [max(a, b)] return the first argument on ties. *)
Definition py_min (a b : Q) : Q := if Qlt_bool b a then b else a.
Definition py_max (a b : Q) : Q := if Qlt_bool a b then b else a.

(** [int(x)] truncates toward zero. *)
Definition py_int (x : Q) : Z := Z.quot (Qnum x) (Zpos (Qden x)).

(** ** Dictionaries *)

Definition dict : Type := list (string * pyval).

Fixpoint get_default (d : dict) (k : string) (dflt : pyval) : pyval :=
  match d with
  | [] => dflt
  | (k', v) :: d' => if String.eqb k k' then v else get_default d' k dflt
  end.

Definition get (d : dict) (k : string) : pyval := get_default d k PNone.

(** ** Stable sort ([list.sort], [sorted]) *)

Section Sort.
Context {A : Type} (leb : A -> A -> bool).

Fixpoint insert (x : A) (l : list A) : list A :=
  match l with
  | [] => [x]
  | h :: t => if leb x h then x :: h :: t else h :: insert x t
  end.

Definition sort (l : list A) : list A := fold_right insert [] l.

End Sort.

(** ** Dividend history rows

    Times are seconds since an epoch. *)

Definition datetime : Type := Z.

Definition seconds_per_day : Z := 86400.

Record DividendRecord : Type := {
  ex_dividend_date : datetime;
  dividend_amount : Q;
  dividend_growth_rate : option Q
}.

Fixpoint dropna (l : list (option Q)) : list Q :=
  match l with
  | [] => []
  | Some q :: t => q :: dropna t
  | None :: t => dropna t
  end.

Definition Qsum (l : list Q) : Q := fold_left Qplus l 0.

Definition count_if {A : Type} (p : A -> bool) (l : list A) : nat :=
  List.length (filter p l).

Definition of_nat (n : nat) : Q := inject_Z (Z.of_nat n).

(** * The scan engine ([src/src/scanner/engine.py]) *)

Module Engine.

Inductive ScanCriteria : Type :=
| MIN_DIVIDEND_YIELD
| MAX_DIVIDEND_YIELD
| MIN_MARKET_CAP
| MAX_MARKET_CAP
| MIN_YEARS_DIVIDEND_GROWTH
| MAX_PAYOUT_RATIO
| MIN_DIVIDEND_COVERAGE
| SECTORS
| MIN_PE_RATIO
| MAX_PE_RATIO
| MIN_ROE
| MAX_DEBT_TO_EQUITY
| EX_DIVIDEND_WITHIN_DAYS.

(** The annotation [criteria: ScanCriteria] is not enforced by the
    dataclass: [Foreign] stands for any object that is not a member of the
    enumeration. *)
Inductive criteria_obj : Type :=
| Member (c : ScanCriteria)
| Foreign (tag : string).

Record ScanFilter : Type := {
  criteria : criteria_obj;
  value : pyarg;
  operator : string
}.

Record ScanConfiguration : Type := {
  name : string;
  filters : list ScanFilter;
  sort_by : string;
  sort_order : string;
  limit : option Z
}.

Section Calculator.

(** Python's [float(s)]; [None] is the [ValueError] of a string that is
    not a number. *)
Variable py_float : string -> option Q.

(** [s.replace('%', '')] *)
Fixpoint strip_percent (s : string) : string :=
  match s with
  | EmptyString => EmptyString
  | String c s' =>
      if Ascii.eqb c "%"%char then strip_percent s'
      else String c (strip_percent s')
  end.

(** [float(s.replace('%', '')) / 100] *)
Definition percent_string (s : string) : result Q :=
  match py_float (strip_percent s) with
  | Some q => Ok (q / 100)
  | None => Raise ValueError
  end.

(** The value after [if isinstance(v, str): v = float(...) / 100]. *)
Definition unstring (v : pyval) : result pyval :=
  match v with
  | PStr s => q <- percent_string s ;; Ok (PNum q)
  | _ => Ok v
  end.

(** [lo <= v <= hi] and its half-open variants, as Python chains them:
    the second comparison runs only when the first holds. *)
Definition chain (c1 : result bool) (c2 : result bool) : result bool :=
  b <- c1 ;; if b then c2 else Ok false.

(** 1. Dividend yield score (0-20 points) *)
Definition yield_score (stock_data : dict) : result Q :=
  dividend_yield <-
    unstring (py_or (get_default stock_data "dividend_yield" (PNum 0)) (PNum 0)) ;;
  b1 <- chain (py_le (PNum 0.02) dividend_yield) (py_le dividend_yield (PNum 0.06)) ;;
  if b1 then Ok 20 else
  b2 <- chain (py_le (PNum 0.01) dividend_yield) (py_lt dividend_yield (PNum 0.02)) ;;
  if b2 then Ok 15 else
  b3 <- chain (py_lt (PNum 0.06) dividend_yield) (py_le dividend_yield (PNum 0.08)) ;;
  if b3 then Ok 15 else
  b4 <- py_gt dividend_yield (PNum 0.08) ;;
  if b4 then Ok 5 else Ok 0.

(** 2. Payout ratio score (0-25 points) *)
Definition payout_score (stock_data financial_metrics : dict) : result Q :=
  let payout_ratio :=
    py_or (get stock_data "payout_ratio") (get financial_metrics "payout_ratio") in
  if truthy payout_ratio then
    payout_ratio <- unstring payout_ratio ;;
    b1 <- chain (py_le (PNum 0.3) payout_ratio) (py_le payout_ratio (PNum 0.6)) ;;
    if b1 then Ok 25 else
    b2 <- chain (py_le (PNum 0.2) payout_ratio) (py_lt payout_ratio (PNum 0.3)) ;;
    if b2 then Ok 20 else
    b3 <- chain (py_lt (PNum 0.6) payout_ratio) (py_le payout_ratio (PNum 0.8)) ;;
    if b3 then Ok 15 else
    b4 <- py_gt payout_ratio (PNum 0.8) ;;
    if b4 then Ok 5 else Ok 0
  else Ok 0.

(** 3. Dividend growth score (0-20 points) *)
Definition growth_score (dividend_data : list DividendRecord) : Q :=
  if negb (is_empty dividend_data) then
    let growth_rates := dropna (map dividend_growth_rate dividend_data) in
    if (3 <=? List.length growth_rates)%nat then
      let positive_growth_years := count_if (fun r => Qlt_bool 0 r) growth_rates in
      let growth_consistency :=
        of_nat positive_growth_years / of_nat (List.length growth_rates) in
      growth_consistency * 20
    else 0
  else 0.

(** [if v and test]: the test runs only on a truthy [v]. *)
Definition and_then (v : pyval) (test : result bool) : result bool :=
  if truthy v then test else Ok false.

(** 4. Financial health score (0-20 points) *)
Definition financial_health (financial_metrics : dict) : result Q :=
  let pe_ratio := get financial_metrics "pe_ratio" in
  let debt_to_equity := get financial_metrics "debt_to_equity" in
  let roe := get financial_metrics "return_on_equity" in
  let financial_health := 0 in
  b <- and_then pe_ratio (chain (py_le (PNum 10) pe_ratio) (py_le pe_ratio (PNum 25))) ;;
  let financial_health := if b then financial_health + 7 else financial_health in
  b <- and_then debt_to_equity (py_le debt_to_equity (PNum 0.5)) ;;
  let financial_health := if b then financial_health + 7 else financial_health in
  b <- and_then roe (py_ge roe (PNum 0.15)) ;;
  let financial_health := if b then financial_health + 6 else financial_health in
  Ok financial_health.

(** 5. Coverage ratio score (0-15 points) *)
Definition coverage_score (financial_metrics : dict) : result Q :=
  let coverage_ratio := get financial_metrics "dividend_coverage_ratio" in
  if truthy coverage_ratio then
    b1 <- py_ge coverage_ratio (PNum 2.0) ;;
    if b1 then Ok 15 else
    b2 <- py_ge coverage_ratio (PNum 1.5) ;;
    if b2 then Ok 12 else
    b3 <- py_ge coverage_ratio (PNum 1.2) ;;
    if b3 then Ok 8 else Ok 3
  else Ok 0.

Definition calculate_health_score (stock_data financial_metrics : dict)
    (dividend_data : list DividendRecord) : result Q :=
  let score := 0 in
  let max_score := 100 in
  s1 <- yield_score stock_data ;;
  let score := score + s1 in
  s2 <- payout_score stock_data financial_metrics ;;
  let score := score + s2 in
  let score := score + growth_score dividend_data in
  s4 <- financial_health financial_metrics ;;
  let score := score + s4 in
  s5 <- coverage_score financial_metrics ;;
  let score := score + s5 in
  Ok (py_min score max_score).

End Calculator.
(** ** Derived dividend-history fields *)

(** [df.sort_values('ex_dividend_date', ascending=False)]; pandas leaves
    the order of rows with equal dates open, here it is the stable one. *)
Definition by_date_desc (dividend_data : list DividendRecord) : list DividendRecord :=
  sort (fun a b => (ex_dividend_date b <=? ex_dividend_date a)%Z) dividend_data.

Definition _get_last_dividend_amount (dividend_data : list DividendRecord) : option Q :=
  if is_empty dividend_data then None
  else
    match by_date_desc dividend_data with
    | r :: _ => Some (dividend_amount r)
    | [] => None
    end.

(** [growth_rates.mean()] is the exact mean here; the float mean can
    differ from it by rounding. *)
Definition _get_avg_dividend_growth (dividend_data : list DividendRecord) : option Q :=
  if is_empty dividend_data then None
  else
    let growth_rates := dropna (map dividend_growth_rate dividend_data) in
    if (0 <? List.length growth_rates)%nat
    then Some (Qsum growth_rates / of_nat (List.length growth_rates))
    else None.

(** The [for rate in reversed(...)] loop of [_count_growth_years], on the
    already reversed list. *)
Fixpoint growth_loop (rates : list Q) (consecutive_growth : nat) : nat :=
  match rates with
  | [] => consecutive_growth
  | rate :: rest =>
      if Qlt_bool 0 rate then growth_loop rest (S consecutive_growth)
      else consecutive_growth
  end.

Definition _count_growth_years (dividend_data : list DividendRecord) : nat :=
  if is_empty dividend_data then 0%nat
  else
    let growth_rates := dropna (map dividend_growth_rate dividend_data) in
    growth_loop (rev growth_rates) 0%nat.

Section Scanner.

Variable py_float : string -> option Q.

(** [datetime.now()] *)
Variable now : datetime.

Definition _estimate_next_ex_dividend (dividend_data : list DividendRecord)
    : option datetime :=
  if is_empty dividend_data then None
  else
    match by_date_desc dividend_data with
    | r0 :: r1 :: _ =>
        let last_date := ex_dividend_date r0 in
        let prev_date := ex_dividend_date r1 in
        let interval := (last_date - prev_date)%Z in
        let estimated_next := (last_date + interval)%Z in
        if (now <? estimated_next)%Z then Some estimated_next else None
    | _ => None
    end.

Definition of_option (o : option Q) : pyval :=
  match o with
  | Some q => PNum q
  | None => PNone
  end.

Definition of_int (z : Z) : pyval := PNum (inject_Z z).

Definition _get_filter_value (criteria : criteria_obj)
    (stock_data financial_metrics : dict) (dividend_data : list DividendRecord)
    : result pyval :=
  match criteria with
  | Member MIN_DIVIDEND_YIELD | Member MAX_DIVIDEND_YIELD =>
      unstring py_float (get stock_data "dividend_yield")
  | Member MIN_MARKET_CAP | Member MAX_MARKET_CAP =>
      Ok (get stock_data "market_cap")
  | Member MAX_PAYOUT_RATIO =>
      unstring py_float (get stock_data "payout_ratio")
  | Member MIN_DIVIDEND_COVERAGE =>
      Ok (get financial_metrics "dividend_coverage_ratio")
  | Member SECTORS =>
      Ok (get stock_data "sector")
  | Member MIN_PE_RATIO | Member MAX_PE_RATIO =>
      Ok (get financial_metrics "pe_ratio")
  | Member MIN_ROE =>
      Ok (get financial_metrics "return_on_equity")
  | Member MAX_DEBT_TO_EQUITY =>
      Ok (get financial_metrics "debt_to_equity")
  | Member MIN_YEARS_DIVIDEND_GROWTH =>
      Ok (of_int (Z.of_nat (_count_growth_years dividend_data)))
  | Member EX_DIVIDEND_WITHIN_DAYS =>
      match _estimate_next_ex_dividend dividend_data with
      | Some next_ex_div =>
          let days_until := ((next_ex_div - now) / seconds_per_day)%Z in
          Ok (of_int days_until)
      | None => Ok PNone
      end
  | Foreign _ => Ok PNone
  end.

(** A scalar compared with a sequence by [<=] or [>=] is a [TypeError];
    by [==] it is [False]. *)
Definition _apply_filter (actual_value : pyval) (filter_value : pyarg)
    (operator : string) : result bool :=
  match actual_value with
  | PNone => Ok false
  | _ =>
      if String.eqb operator "gte" then
        match filter_value with
        | Scalar v => py_ge actual_value v
        | Seq _ => Raise TypeError
        end
      else if String.eqb operator "lte" then
        match filter_value with
        | Scalar v => py_le actual_value v
        | Seq _ => Raise TypeError
        end
      else if String.eqb operator "eq" then
        match filter_value with
        | Scalar v => Ok (py_eq actual_value v)
        | Seq _ => Ok false
        end
      else if String.eqb operator "in" then
        py_in actual_value filter_value
      else if String.eqb operator "not_in" then
        b <- py_in actual_value filter_value ;; Ok (negb b)
      else Ok false
  end.

Fixpoint _passes_filters (stock_data financial_metrics : dict)
    (dividend_data : list DividendRecord) (filters : list ScanFilter)
    : result bool :=
  match filters with
  | [] => Ok true
  | filter_obj :: rest =>
      actual_value <-
        _get_filter_value (criteria filter_obj) stock_data financial_metrics
          dividend_data ;;
      match actual_value with
      | PNone => Ok false
      | _ =>
          b <- _apply_filter actual_value (value filter_obj) (operator filter_obj) ;;
          if negb b then Ok false
          else _passes_filters stock_data financial_metrics dividend_data rest
      end
  end.

(** ** The scan loop *)

(** The external data collaborator. [get_stock_data] answers [None] for
    an unknown symbol. *)
Record DataPipeline : Type := {
  get_stock_data : string -> result (option dict);
  get_financial_metrics : string -> result dict;
  get_dividend_history : string -> result (list DividendRecord)
}.

Variable data_pipeline : DataPipeline.

(** The [result] dict compiled for a stock that passed. *)
Definition compile_result (symbol : string) (stock_data financial_metrics : dict)
    (dividend_data : list DividendRecord) (health_score : Q) : dict :=
  [ ("symbol", PStr symbol);
    ("name", get_default stock_data "name" (PStr EmptyString));
    ("sector", get_default stock_data "sector" (PStr EmptyString));
    ("current_price", get stock_data "current_price");
    ("market_cap", get stock_data "market_cap");
    ("dividend_yield", get stock_data "dividend_yield");
    ("payout_ratio", get stock_data "payout_ratio");
    ("pe_ratio", get financial_metrics "pe_ratio");
    ("debt_to_equity", get financial_metrics "debt_to_equity");
    ("return_on_equity", get financial_metrics "return_on_equity");
    ("dividend_coverage_ratio", get financial_metrics "dividend_coverage_ratio");
    ("dividend_health_score", PNum health_score);
    ("last_dividend_amount", of_option (_get_last_dividend_amount dividend_data));
    ("dividend_growth_rate", of_option (_get_avg_dividend_growth dividend_data));
    ("years_of_growth", of_int (Z.of_nat (_count_growth_years dividend_data)));
    ("next_ex_dividend_date",
      match _estimate_next_ex_dividend dividend_data with
      | Some d => of_int d
      | None => PNone
      end);
    ("scan_date", of_int now) ].

(** The body of the [try] block for one symbol: [Ok None] is [continue]
    or a stock that failed a filter. *)
Definition process_symbol (symbol : string) (config : ScanConfiguration)
    : result (option dict) :=
  stock_data <- get_stock_data data_pipeline symbol ;;
  financial_metrics <- get_financial_metrics data_pipeline symbol ;;
  dividend_data <- get_dividend_history data_pipeline symbol ;;
  match stock_data with
  | None => Ok None
  | Some stock_data =>
      if is_empty stock_data then Ok None
      else
        passes <-
          _passes_filters stock_data financial_metrics dividend_data (filters config) ;;
        if passes then
          health_score <-
            calculate_health_score py_float stock_data financial_metrics dividend_data ;;
          Ok (Some (compile_result symbol stock_data financial_metrics
                      dividend_data health_score))
        else Ok None
  end.

(** [for symbol in symbols: try: ... except Exception: continue] *)
Fixpoint scan_loop (symbols : list string) (config : ScanConfiguration)
    (results : list dict) : list dict :=
  match symbols with
  | [] => results
  | symbol :: rest =>
      match process_symbol symbol config with
      | Ok (Some r) => scan_loop rest config (results ++ [r])%list
      | Ok None => scan_loop rest config results
      | Raise _ => scan_loop rest config results
      end
  end.

(** ** [DataFrame.sort_values] and [DataFrame.head] *)

Definition has_key (d : dict) (k : string) : bool :=
  existsb (fun kv => String.eqb k (fst kv)) d.

Definition is_num (v : pyval) : bool :=
  match v with PNum _ => true | _ => false end.

Definition is_str (v : pyval) : bool :=
  match v with PStr _ => true | _ => false end.

Definition is_none (v : pyval) : bool :=
  match v with PNone => true | _ => false end.

(** The order on the cells of a column of one type. *)
Definition cell_leb (a b : pyval) : bool :=
  match a, b with
  | PNum x, PNum y => Qle_bool x y
  | PStr s, PStr t => String.leb s t
  | _, _ => true
  end.

(** A column that is no key of the rows is a [KeyError]; a column mixing
    numbers and strings cannot be ordered ([TypeError]); missing cells go
    last in both directions. Rows with equal keys keep their order (pandas
    leaves it open). *)
Definition sort_values (df : list dict) (by_ : string) (ascending : bool)
    : result (list dict) :=
  if negb (forallb (fun r => has_key r by_) df) then Raise KeyError
  else
    let cell := fun r => get r by_ in
    let present := filter (fun r => negb (is_none (cell r))) df in
    let missing := filter (fun r => is_none (cell r)) df in
    if existsb (fun r => is_num (cell r)) present
       && existsb (fun r => is_str (cell r)) present
    then Raise TypeError
    else
      let ordered :=
        if ascending
        then sort (fun a b => cell_leb (cell a) (cell b)) present
        else rev (sort (fun a b => cell_leb (cell a) (cell b)) (rev present)) in
      Ok (ordered ++ missing)%list.

(** [df.head(n)]: the first [n] rows, or all but the last [-n]. *)
Definition head (n : Z) (df : list dict) : list dict :=
  if (0 <=? n)%Z then firstn (Z.to_nat n) df
  else firstn (List.length df - Z.to_nat (- n)) df.

Definition scan_stocks (symbols : list string) (config : ScanConfiguration)
    : result (list dict) :=
  let results := scan_loop symbols config [] in
  let df := results in
  if is_empty df then Ok df
  else
    let ascending := String.eqb (sort_order config) "asc" in
    df <- sort_values df (sort_by config) ascending ;;
    let df :=
      match limit config with
      | Some n => if (n =? 0)%Z then df else head n df
      | None => df
      end in
    Ok df.

End Scanner.

(** ** Predefined scan configurations *)

Module PreDefinedScans.

Definition high_yield_scanner : ScanConfiguration :=
  {| name := "High Yield Scanner";
     filters :=
       [ {| criteria := Member MIN_DIVIDEND_YIELD; value := Scalar (PNum 0.04);
            operator := "gte" |};
         {| criteria := Member MAX_PAYOUT_RATIO; value := Scalar (PNum 0.8);
            operator := "lte" |};
         {| criteria := Member MIN_MARKET_CAP; value := Scalar (PNum 1000000000);
            operator := "gte" |} ];
     sort_by := "dividend_yield";
     sort_order := "desc";
     limit := None |}.

Definition dividend_aristocrats : ScanConfiguration :=
  {| name := "Dividend Aristocrats";
     filters :=
       [ {| criteria := Member MIN_YEARS_DIVIDEND_GROWTH; value := Scalar (PNum 25);
            operator := "gte" |};
         {| criteria := Member MAX_PAYOUT_RATIO; value := Scalar (PNum 0.7);
            operator := "lte" |} ];
     sort_by := "years_of_growth";
     sort_order := "desc";
     limit := None |}.

Definition safe_dividend_stocks : ScanConfiguration :=
  {| name := "Safe Dividend Stocks";
     filters :=
       [ {| criteria := Member MIN_DIVIDEND_YIELD; value := Scalar (PNum 0.02);
            operator := "gte" |};
         {| criteria := Member MAX_DIVIDEND_YIELD; value := Scalar (PNum 0.08);
            operator := "lte" |};
         {| criteria := Member MAX_PAYOUT_RATIO; value := Scalar (PNum 0.6);
            operator := "lte" |};
         {| criteria := Member MIN_DIVIDEND_COVERAGE; value := Scalar (PNum 1.5);
            operator := "gte" |};
         {| criteria := Member MAX_DEBT_TO_EQUITY; value := Scalar (PNum 0.5);
            operator := "lte" |};
         {| criteria := Member MIN_ROE; value := Scalar (PNum 0.15);
            operator := "gte" |} ];
     sort_by := "dividend_health_score";
     sort_order := "desc";
     limit := None |}.

Definition growth_dividend_stocks : ScanConfiguration :=
  {| name := "Growth Dividend Stocks";
     filters :=
       [ {| criteria := Member MIN_YEARS_DIVIDEND_GROWTH; value := Scalar (PNum 5);
            operator := "gte" |};
         {| criteria := Member MAX_PAYOUT_RATIO; value := Scalar (PNum 0.7);
            operator := "lte" |};
         {| criteria := Member MIN_ROE; value := Scalar (PNum 0.12);
            operator := "gte" |} ];
     sort_by := "dividend_growth_rate";
     sort_order := "desc";
     limit := None |}.

Definition sector_focused_scan (sectors : list string) : ScanConfiguration :=
  {| name := "Sector Focused: " ++ String.concat ", " sectors;
     filters :=
       [ {| criteria := Member SECTORS; value := Seq (map PStr sectors);
            operator := "in" |};
         {| criteria := Member MIN_DIVIDEND_YIELD; value := Scalar (PNum 0.01);
            operator := "gte" |};
         {| criteria := Member MAX_PAYOUT_RATIO; value := Scalar (PNum 0.8);
            operator := "lte" |} ];
     sort_by := "dividend_yield";
     sort_order := "desc";
     limit := None |}.

End PreDefinedScans.

(** ** Vocabulary of the properties, and sample inputs *)

(** The operators [_apply_filter] knows. *)
Definition operators : list string := ["gte"; "lte"; "eq"; "in"; "not_in"].

(** A filter whose operator is none of the five, or whose criterion is no
    member of [ScanCriteria]. *)
Definition invalid_filter (f : ScanFilter) : Prop :=
  ~ In (operator f) operators \/ exists tag, criteria f = Foreign tag.

(** The stock's data has the value the filter asks for, and the value
    passes the filter's comparison. *)
Definition satisfies (py_float : string -> option Q) (now : datetime)
    (f : ScanFilter) (stock_data financial_metrics : dict)
    (dividend_data : list DividendRecord) : Prop :=
  exists actual_value,
    _get_filter_value py_float now (criteria f) stock_data financial_metrics
      dividend_data = Ok actual_value
    /\ actual_value <> PNone
    /\ _apply_filter actual_value (value f) (operator f) = Ok true.

(** What the collaborator returned for a symbol that has a snapshot. *)
Definition retrieved (data_pipeline : DataPipeline) (symbol : string)
    (stock_data financial_metrics : dict) (dividend_data : list DividendRecord)
    : Prop :=
  get_stock_data data_pipeline symbol = Ok (Some stock_data)
  /\ get_financial_metrics data_pipeline symbol = Ok financial_metrics
  /\ get_dividend_history data_pipeline symbol = Ok dividend_data.

(** *** A row that satisfies a filter

    Satisfaction as a reader of the scan output understands it: stated on
    the cells of the row, with the order of the rationals and of the
    dictionary, and without the engine's own comparison. *)

(** Dictionary order on strings, characters by their code. *)
Inductive str_le : string -> string -> Prop :=
| str_le_empty (t : string) : str_le EmptyString t
| str_le_head (a b : ascii) (s t : string) :
    (N_of_ascii a < N_of_ascii b)%N -> str_le (String a s) (String b t)
| str_le_tail (a : ascii) (s t : string) :
    str_le s t -> str_le (String a s) (String a t).

(** [v] is at most [w]: two numbers by size, two strings in dictionary
    order. *)
Definition at_most (v w : pyval) : Prop :=
  match v, w with
  | PNum a, PNum b => a <= b
  | PStr s, PStr t => str_le s t
  | _, _ => False
  end.

(** [v] and [w] are the same number or the same string. *)
Definition same (v w : pyval) : Prop :=
  match v, w with
  | PNum a, PNum b => a == b
  | PStr s, PStr t => s = t
  | _, _ => False
  end.

(** [t] occurs in [s]. *)
Definition piece (t s : string) : Prop :=
  exists before after : string, s = (before ++ t ++ after)%string.

(** The value [actual] meets the comparison [operator] against the
    filter's value: at least, at most or equal to a scalar; one (or none)
    of the elements of a sequence; a piece (or no piece) of a string. *)
Inductive meets (actual : pyval) : string -> pyarg -> Prop :=
| meets_gte (w : pyval) :
    at_most w actual -> meets actual "gte" (Scalar w)
| meets_lte (w : pyval) :
    at_most actual w -> meets actual "lte" (Scalar w)
| meets_eq (w : pyval) :
    same actual w -> meets actual "eq" (Scalar w)
| meets_in (l : list pyval) (w : pyval) :
    In w l -> same actual w -> meets actual "in" (Seq l)
| meets_in_string (t s : string) :
    actual = PStr t -> piece t s -> meets actual "in" (Scalar (PStr s))
| meets_not_in (l : list pyval) :
    (forall w, In w l -> ~ same actual w) -> meets actual "not_in" (Seq l)
| meets_not_in_string (t s : string) :
    actual = PStr t -> ~ piece t s -> meets actual "not_in" (Scalar (PStr s)).

(** The column that holds what a criterion is about, in the snapshot or
    the metrics of a stock and in the output row alike. *)
Definition column (c : ScanCriteria) : string :=
  match c with
  | MIN_DIVIDEND_YIELD | MAX_DIVIDEND_YIELD => "dividend_yield"
  | MIN_MARKET_CAP | MAX_MARKET_CAP => "market_cap"
  | MIN_YEARS_DIVIDEND_GROWTH => "years_of_growth"
  | MAX_PAYOUT_RATIO => "payout_ratio"
  | MIN_DIVIDEND_COVERAGE => "dividend_coverage_ratio"
  | SECTORS => "sector"
  | MIN_PE_RATIO | MAX_PE_RATIO => "pe_ratio"
  | MIN_ROE => "return_on_equity"
  | MAX_DEBT_TO_EQUITY => "debt_to_equity"
  | EX_DIVIDEND_WITHIN_DAYS => "next_ex_dividend_date"
  end.

(** The criteria on a fraction, which a cell may hold as a percentage
    string. *)
Definition on_fraction (c : ScanCriteria) : bool :=
  match c with
  | MIN_DIVIDEND_YIELD | MAX_DIVIDEND_YIELD | MAX_PAYOUT_RATIO => true
  | _ => false
  end.

(** The value of an output row that a criterion is about: the cell of its
    column, a percentage string of a yield or a payout read as the
    fraction it writes; for the ex-dividend criterion the whole days from
    the row's scan date to its next ex-dividend date. *)
Definition row_value (py_float : string -> option Q) (c : ScanCriteria)
    (row : dict) (actual : pyval) : Prop :=
  match c with
  | EX_DIVIDEND_WITHIN_DAYS =>
      exists next_ex_div scan_date : Z,
        get row "next_ex_dividend_date" = PNum (inject_Z next_ex_div)
        /\ get row "scan_date" = PNum (inject_Z scan_date)
        /\ actual = PNum (inject_Z ((next_ex_div - scan_date) / seconds_per_day))
  | _ =>
      match get row (column c) with
      | PStr s =>
          if on_fraction c
          then exists percent : Q,
                 py_float (strip_percent s) = Some percent
                 /\ actual = PNum (percent / 100)
          else actual = PStr s
      | cell => actual = cell
      end
  end.

(** The row satisfies the filter: the filter names a criterion of the
    enumeration, the row has a value for it, and the value meets the
    filter's comparison. *)
Definition row_satisfies (py_float : string -> option Q) (f : ScanFilter)
    (row : dict) : Prop :=
  exists (c : ScanCriteria) (actual : pyval),
    criteria f = Member c
    /\ row_value py_float c row actual
    /\ actual <> PNone
    /\ meets actual (operator f) (value f).


(** A field that is absent or a number. *)
Definition numeric (v : pyval) : Prop :=
  match v with
  | PStr _ => False
  | _ => True
  end.

(** A field that is absent, a number, or a string that is empty or that
    [float] accepts once its percent signs are removed. *)
Definition fractional (py_float : string -> option Q) (v : pyval) : Prop :=
  match v with
  | PStr s => truthy v = true -> py_float (strip_percent s) <> None
  | _ => True
  end.

(** The inputs of the health score, typed as the data model has them. *)
Definition well_typed (py_float : string -> option Q)
    (stock_data financial_metrics : dict) : Prop :=
  fractional py_float (get_default stock_data "dividend_yield" (PNum 0))
  /\ fractional py_float (get stock_data "payout_ratio")
  /\ fractional py_float (get financial_metrics "payout_ratio")
  /\ numeric (get financial_metrics "pe_ratio")
  /\ numeric (get financial_metrics "debt_to_equity")
  /\ numeric (get financial_metrics "return_on_equity")
  /\ numeric (get financial_metrics "dividend_coverage_ratio").

(** The specification's reading of consecutive growth years: walk the
    growth-rate entries most recent first, count the strictly positive
    ones, stop at the first entry that is non-positive or missing. *)
Fixpoint positive_run (entries : list (option Q)) : nat :=
  match entries with
  | Some rate :: rest => if Qlt_bool 0 rate then S (positive_run rest) else 0%nat
  | _ => 0%nat
  end.

Definition consecutive_growth_years_spec (dividend_data : list DividendRecord)
    : nat :=
  positive_run (rev (map dividend_growth_rate dividend_data)).

(** A [float] that accepts no string. *)
Definition no_float : string -> option Q := fun _ => None.

Definition record (day : Z) (amount : Q) (growth : option Q) : DividendRecord :=
  {| ex_dividend_date := (day * seconds_per_day)%Z;
     dividend_amount := amount;
     dividend_growth_rate := growth |}.

(** Four yearly dividends; the growth rate of the third is missing. *)
Definition history_with_gap : list DividendRecord :=
  [ record 0 1 None;
    record 365 1.05 (Some 5);
    record 730 0 None;
    record 1095 1.1 (Some 3) ].

(** Three dividends growing every time (scenario B). *)
Definition growing_history : list DividendRecord :=
  [ record 0 1 (Some 0.02);
    record 90 1.03 (Some 0.03);
    record 180 1.04 (Some 0.01) ].

(** Scenario B of the specification, with the debt/equity ratio left
    open. *)
Definition scenario_b_stock : dict :=
  [ ("dividend_yield", PNum 0.04); ("payout_ratio", PNum 0.45) ].

Definition scenario_b_metrics (debt_to_equity : Q) : dict :=
  [ ("pe_ratio", PNum 18);
    ("debt_to_equity", PNum debt_to_equity);
    ("return_on_equity", PNum 0.20);
    ("dividend_coverage_ratio", PNum 2.5) ].

(** The stocks of the demo's mock provider; any other symbol gets the
    empty dict. *)
Definition jnj : dict :=
  [ ("symbol", PStr "JNJ"); ("name", PStr "Johnson & Johnson");
    ("sector", PStr "Healthcare"); ("market_cap", PNum 450000000000);
    ("current_price", PNum 175); ("dividend_yield", PNum 0.0290);
    ("payout_ratio", PNum 0.47) ].

Definition ko : dict :=
  [ ("symbol", PStr "KO"); ("name", PStr "The Coca-Cola Company");
    ("sector", PStr "Consumer Staples"); ("market_cap", PNum 260000000000);
    ("current_price", PNum 60.5); ("dividend_yield", PNum 0.0315);
    ("payout_ratio", PNum 0.75) ].

Definition att : dict :=
  [ ("symbol", PStr "T"); ("name", PStr "AT&T Inc.");
    ("sector", PStr "Telecommunications"); ("market_cap", PNum 130000000000);
    ("current_price", PNum 18); ("dividend_yield", PNum 0.0611);
    ("payout_ratio", PNum 0.85) ].

(** A stock whose payout ratio is not known. *)
Definition realty : dict :=
  [ ("symbol", PStr "REALTY"); ("name", PStr "Realty Income Corporation");
    ("sector", PStr "Real Estate"); ("market_cap", PNum 45000000000);
    ("current_price", PNum 55); ("dividend_yield", PNum 0.0520) ].

Definition mock_pipeline : DataPipeline :=
  {| get_stock_data := fun symbol =>
       if String.eqb symbol "JNJ" then Ok (Some jnj)
       else if String.eqb symbol "KO" then Ok (Some ko)
       else if String.eqb symbol "T" then Ok (Some att)
       else if String.eqb symbol "REALTY" then Ok (Some realty)
       else Ok (Some []);
     get_financial_metrics := fun symbol =>
       if String.eqb symbol "KO" then Ok (scenario_b_metrics 1.45)
       else Ok (scenario_b_metrics 0.47);
     get_dividend_history := fun symbol => Ok growing_history |}.

Definition universe : list string := ["JNJ"; "KO"; "T"; "REALTY"; "XYZ"].

Definition yield_and_payout (yield_operator : string) : ScanConfiguration :=
  {| name := "Yield and payout";
     filters :=
       [ {| criteria := Member MIN_DIVIDEND_YIELD; value := Scalar (PNum 0.03);
            operator := yield_operator |};
         {| criteria := Member MAX_PAYOUT_RATIO; value := Scalar (PNum 0.8);
            operator := "lte" |} ];
     sort_by := "dividend_yield";
     sort_order := "desc";
     limit := None |}.

(** The same scan with a criterion that is a bare string. *)
Definition foreign_criterion : ScanConfiguration :=
  {| name := "Foreign criterion";
     filters :=
       [ {| criteria := Foreign "min_dividend_yield"; value := Scalar (PNum 0.03);
            operator := "gte" |} ];
     sort_by := "dividend_yield";
     sort_order := "desc";
     limit := None |}.

(** The rows the sample scan returns. *)
Definition sample_rows : list dict :=
  Eval vm_compute in
    match scan_stocks no_float 0%Z mock_pipeline universe (yield_and_payout "gte") with
    | Ok rows => rows
    | Raise _ => []
    end.

(** The columns of a compiled row. *)
Definition columns : list string :=
  [ "symbol"; "name"; "sector"; "current_price"; "market_cap";
    "dividend_yield"; "payout_ratio"; "pe_ratio"; "debt_to_equity";
    "return_on_equity"; "dividend_coverage_ratio"; "dividend_health_score";
    "last_dividend_amount"; "dividend_growth_rate"; "years_of_growth";
    "next_ex_dividend_date"; "scan_date" ].

(** A symbol the scan loop passes over before any filter runs: one of its
    three retrievals raises, or it has no snapshot ([None] or the empty
    dict). *)
Definition unavailable (data_pipeline : DataPipeline) (symbol : string) : Prop :=
  (exists e, get_stock_data data_pipeline symbol = Raise e)
  \/ (exists e, get_financial_metrics data_pipeline symbol = Raise e)
  \/ (exists e, get_dividend_history data_pipeline symbol = Raise e)
  \/ get_stock_data data_pipeline symbol = Ok None
  \/ get_stock_data data_pipeline symbol = Ok (Some []).

(** The mock provider with a retrieval that fails for one symbol. *)
Definition flaky_pipeline : DataPipeline :=
  {| get_stock_data := fun symbol =>
       if String.eqb symbol "T" then Raise RetrievalError
       else get_stock_data mock_pipeline symbol;
     get_financial_metrics := get_financial_metrics mock_pipeline;
     get_dividend_history := get_dividend_history mock_pipeline |}.

(** The scan of everything, best yield first, cut to two rows. *)
Definition top_two : ScanConfiguration :=
  {| name := "Top two";
     filters := [];
     sort_by := "dividend_yield";
     sort_order := "desc";
     limit := Some 2%Z |}.

Definition top_two_rows : list dict :=
  Eval vm_compute in
    match scan_stocks no_float 0%Z mock_pipeline universe top_two with
    | Ok rows => rows
    | Raise _ => []
    end.

(** The columns the engine computes itself; they hold a number in every
    row. *)
Definition computed_columns : list string :=
  ["dividend_health_score"; "years_of_growth"].

(** Row [a] may stand before row [b] under the order of a numeric column. *)
Definition in_order (by_ : string) (ascending : bool) (a b : dict) : Prop :=
  exists x y,
    get a by_ = PNum x /\ get b by_ = PNum y
    /\ (if ascending then x <= y else y <= x).

(** The scan of everything, best health score first. *)
Definition by_score : ScanConfiguration :=
  {| name := "By score";
     filters := [];
     sort_by := "dividend_health_score";
     sort_order := "desc";
     limit := None |}.

Definition by_score_rows : list dict :=
  Eval vm_compute in
    match scan_stocks no_float 0%Z mock_pipeline universe by_score with
    | Ok rows => rows
    | Raise _ => []
    end.

(** A [float] that reads the one string "4". *)
Definition float_of_four : string -> option Q :=
  fun s => if String.eqb s "4" then Some 4 else None.

End Engine.

(** * The risk assessor ([src/risk_management.py], [DividendRiskManager]) *)

Module DividendRiskManager.

(** One holding of the portfolio. [allocation_amount] and
    [allocation_percentage] are read with [holding[...]]; the two optional
    keys are read with [holding.get(key, default)], [None] is the absent
    key. *)
Record Holding : Type := {
  symbol : string;
  allocation_amount : Q;
  allocation_percentage : Q;
  predicted_yield : option Q;
  sustainability : option Q
}.

Inductive level : Type := HIGH | MEDIUM | LOW.

Inductive recommendation : Type :=
| Reduce_concentration (symbol : string) (allocation_percentage : Q)
| Add_more_holdings (holdings : nat)
| Review_sustainability (symbol : string) (sustainability : Q)
| Investigate_yield (symbol : string) (predicted_yield : Q)
| Well_balanced.

(** The returned dict. Numbers that the source renders with an f-string
    (["{x:.1f}%"], ["₹{x:,.0f}"]) are kept as numbers. *)
Record RiskAssessment : Type := {
  overall_risk : level;
  risk_score : Q;
  concentration_risk : level;
  max_concentration : Q;
  diversification_score : Q;
  sustainability_risk : level;
  avg_sustainability : Q;
  yield_risk : level;
  avg_yield : Q;
  var_95 : Q;
  var_99 : Q;
  max_1day_loss_95 : Q;
  max_1day_loss_99 : Q;
  recommendations : list recommendation
}.

Definition get_or (o : option Q) (dflt : Q) : Q :=
  match o with
  | Some q => q
  | None => dflt
  end.

(** [max(l)] and [min(l)] of a list: [ValueError] on the empty list. *)
Definition max_list (l : list Q) : result Q :=
  match l with
  | [] => Raise ValueError
  | h :: t => Ok (fold_left py_max t h)
  end.

Definition min_list (l : list Q) : result Q :=
  match l with
  | [] => Raise ValueError
  | h :: t => Ok (fold_left py_min t h)
  end.

(** [np.mean(l)] of a non-empty list. *)
Definition mean (l : list Q) : Q := Qsum l / of_nat (List.length l).

(** ** Monte Carlo Value at Risk *)

(** The random source: the standard-normal draws the global generator
    hands out, by position. *)
Definition draws : Type := N -> Q.

(** [np.random.normal(loc, scale)] consumes one draw; a negative [scale]
    is a [ValueError]. *)
Definition normal (loc scale : Q) (z : draws) (pos : N) : result (Q * N) :=
  if Qlt_bool scale 0 then Raise ValueError
  else Ok (loc + scale * z pos, N.succ pos).

Definition num_simulations : nat := Z.to_nat 10000.

(** The volatility estimated for one holding. *)
Definition holding_volatility (holding : Holding) : Q :=
  let base_volatility := 0.02 in
  let yield_factor := get_or (predicted_yield holding) 4 / 100 in
  let volatility := base_volatility * (1 + yield_factor) in
  let sustainability_factor := get_or (sustainability holding) 70 / 100 in
  volatility * (1.5 - sustainability_factor * 0.5).

(** [for holding in portfolio: ...] of one trial. *)
Fixpoint trial (portfolio : list Holding) (daily_return : Q) (z : draws) (pos : N)
    : result (Q * N) :=
  match portfolio with
  | [] => Ok (daily_return, pos)
  | holding :: rest =>
      let volatility := holding_volatility holding in
      let weight := allocation_percentage holding / 100 in
      r <- normal 0 volatility z pos ;;
      let '(stock_return, pos) := r in
      trial rest (daily_return + weight * stock_return) z pos
  end.

(** [for _ in range(n): ... portfolio_values.append(portfolio_value)]; the
    list is produced in the order of the appends. *)
Fixpoint simulate (n : nat) (portfolio : list Holding) (total_investment : Q)
    (z : draws) (pos : N) : result (list Q * N) :=
  match n with
  | O => Ok ([], pos)
  | S n' =>
      r <- trial portfolio 0 z pos ;;
      let '(daily_return, pos) := r in
      let portfolio_value := total_investment * (1 + daily_return) in
      r <- simulate n' portfolio total_investment z pos ;;
      let '(portfolio_values, pos) := r in
      Ok (portfolio_value :: portfolio_values, pos)
  end.

(** [l[i]]: a negative index counts from the end. *)
Definition index (l : list Q) (i : Z) : result Q :=
  let n := Z.of_nat (List.length l) in
  if ((0 <=? i) && (i <? n))%Z then Ok (nth (Z.to_nat i) l 0)
  else if ((- n <=? i) && (i <? 0))%Z then Ok (nth (Z.to_nat (n + i)) l 0)
  else Raise IndexError.

(** The position [int((1 - confidence) * num_simulations)] is computed on
    exact rationals. It is the position the float computation selects at
    the confidences 0.95 and 0.99 of [assess_portfolio_risk] (500 and
    100) and at confidences that are short binary fractions (0.5,
    0.875); elsewhere the float product can fall just below a whole number and
    select the position before it (999 for 1000 at 0.9). In both
    computations a higher confidence selects no later position. *)
Definition _calculate_var (portfolio : list Holding) (confidence : Q)
    (z : draws) (pos : N) : result (Q * N) :=
  let total_investment := Qsum (map allocation_amount portfolio) in
  r <- simulate num_simulations portfolio total_investment z pos ;;
  let '(portfolio_values, pos) := r in
  let portfolio_values := sort Qle_bool portfolio_values in
  let var_index := py_int ((1 - confidence) * of_nat num_simulations) in
  at_index <- index portfolio_values var_index ;;
  let var_value := total_investment - at_index in
  Ok (py_max 0 var_value, pos).

(** ** Recommendations *)

(** [max(portfolio, key=...)] of a non-empty portfolio: the first holding
    with the largest percentage. *)
Definition max_holding (first : Holding) (rest : list Holding) : Holding :=
  fold_left
    (fun best h =>
       if Qlt_bool (allocation_percentage best) (allocation_percentage h)
       then h else best)
    rest first.

(** The [risk_factors] dict, with its keys ['concentration'],
    ['diversification'], ['sustainability'] and ['yield']. *)
Record RiskFactors : Type := {
  concentration : Q;
  diversification : Q;
  sustainability_ : Q;
  yield_ : Q
}.

Definition _generate_risk_recommendations (risk_factors : RiskFactors)
    (portfolio : list Holding) : result (list recommendation) :=
  first <-
    (if Qlt_bool 30 (concentration risk_factors) then
       match portfolio with
       | [] => Raise ValueError
       | h :: t =>
           let m := max_holding h t in
           Ok [Reduce_concentration (symbol m) (allocation_percentage m)]
       end
     else Ok []) ;;
  let second :=
    if Qlt_bool 20 (diversification risk_factors)
    then [Add_more_holdings (List.length portfolio)] else [] in
  let third :=
    if Qlt_bool 20 (sustainability_ risk_factors) then
      let low_sustainability :=
        filter (fun h => Qlt_bool (get_or (sustainability h) 70) 60) portfolio in
      map (fun h => Review_sustainability (symbol h) (get_or (sustainability h) 0))
        (firstn 2 low_sustainability)
    else [] in
  let fourth :=
    if Qlt_bool 20 (yield_ risk_factors) then
      let high_yield :=
        filter (fun h => Qlt_bool 10 (get_or (predicted_yield h) 4)) portfolio in
      map (fun h => Investigate_yield (symbol h) (get_or (predicted_yield h) 0))
        (firstn 2 high_yield)
    else [] in
  let recommendations := (first ++ second ++ third ++ fourth)%list in
  Ok (if is_empty recommendations then [Well_balanced] else recommendations).

(** ** The assessment *)

Definition risk_of_concentration (max_concentration : Q) : level :=
  if Qlt_bool 25 max_concentration then HIGH
  else if Qlt_bool 15 max_concentration then MEDIUM
  else LOW.

Definition risk_of_sustainability (min_sustainability : Q) : level :=
  if Qlt_bool 70 min_sustainability then LOW
  else if Qlt_bool 50 min_sustainability then MEDIUM
  else HIGH.

Definition risk_of_yield (max_yield avg_yield : Q) : level :=
  if Qlt_bool 12 max_yield then HIGH
  else if Qlt_bool 8 avg_yield then MEDIUM
  else LOW.

Definition pick (l : level) (high medium low : Q) : Q :=
  match l with
  | HIGH => high
  | MEDIUM => medium
  | LOW => low
  end.

(** [a / b] on Python numbers *)
Definition py_div (a b : Q) : result Q :=
  if Qeq_bool b 0 then Raise ZeroDivisionError else Ok (a / b).

Definition assess_portfolio_risk (portfolio : list Holding) (z : draws) (pos : N)
    : result (RiskAssessment * N) :=
  let total_value := Qsum (map allocation_amount portfolio) in
  let concentrations := map allocation_percentage portfolio in
  max_concentration <- max_list concentrations ;;
  let concentration_risk := risk_of_concentration max_concentration in
  let num_holdings := List.length portfolio in
  let diversification_score := py_min 100 (of_nat num_holdings / 15 * 100) in
  let sustainability_scores := map (fun h => get_or (sustainability h) 70) portfolio in
  let avg_sustainability := mean sustainability_scores in
  min_sustainability <- min_list sustainability_scores ;;
  let sustainability_risk := risk_of_sustainability min_sustainability in
  let yields := map (fun h => get_or (predicted_yield h) 4) portfolio in
  let avg_yield := mean yields in
  max_yield <- max_list yields ;;
  let yield_risk := risk_of_yield max_yield avg_yield in
  r <- _calculate_var portfolio 0.95 z pos ;;
  let '(var_95, pos) := r in
  r <- _calculate_var portfolio 0.99 z pos ;;
  let '(var_99, pos) := r in
  let risk_factors :=
    {| concentration := pick concentration_risk 40 20 10;
       diversification := py_max 0 (40 - diversification_score / 2);
       sustainability_ := pick sustainability_risk 30 15 5;
       yield_ := pick yield_risk 25 12 5 |} in
  let overall_risk_score :=
    0 + concentration risk_factors + diversification risk_factors
    + sustainability_ risk_factors + yield_ risk_factors in
  let overall_risk :=
    if Qlt_bool 80 overall_risk_score then HIGH
    else if Qlt_bool 50 overall_risk_score then MEDIUM
    else LOW in
  loss_95 <- py_div var_95 total_value ;;
  loss_99 <- py_div var_99 total_value ;;
  recommendations <- _generate_risk_recommendations risk_factors portfolio ;;
  Ok ({| overall_risk := overall_risk;
         risk_score := overall_risk_score;
         concentration_risk := concentration_risk;
         max_concentration := max_concentration;
         diversification_score := diversification_score;
         sustainability_risk := sustainability_risk;
         avg_sustainability := avg_sustainability;
         yield_risk := yield_risk;
         avg_yield := avg_yield;
         var_95 := var_95;
         var_99 := var_99;
         max_1day_loss_95 := loss_95 * 100;
         max_1day_loss_99 := loss_99 * 100;
         recommendations := recommendations |}, pos).

(** ** Vocabulary of the properties, and sample inputs *)

(** Every holding's estimated volatility can be handed to the generator. *)
Definition volatilities_ok (portfolio : list Holding) : Prop :=
  Forall (fun h => 0 <= holding_volatility h) portfolio.

(** The sustainability scores the assessor reads, defaults included. *)
Definition scores (portfolio : list Holding) : list Q :=
  map (fun h => get_or (sustainability h) 70) portfolio.

Definition total (portfolio : list Holding) : Q :=
  Qsum (map allocation_amount portfolio).

(** The portfolio of [demo_risk_management]. *)
Definition sample_portfolio : list Holding :=
  [ {| symbol := "RELIANCE"; allocation_amount := 150000;
       allocation_percentage := 30; predicted_yield := Some 5.2;
       sustainability := Some 75 |};
    {| symbol := "TCS"; allocation_amount := 100000;
       allocation_percentage := 20; predicted_yield := Some 3.8;
       sustainability := Some 85 |};
    {| symbol := "HDFCBANK"; allocation_amount := 80000;
       allocation_percentage := 16; predicted_yield := Some 2.1;
       sustainability := Some 80 |};
    {| symbol := "ITC"; allocation_amount := 70000;
       allocation_percentage := 14; predicted_yield := Some 6.8;
       sustainability := Some 65 |};
    {| symbol := "COALINDIA"; allocation_amount := 60000;
       allocation_percentage := 12; predicted_yield := Some 8.5;
       sustainability := Some 55 |};
    {| symbol := "INFY"; allocation_amount := 40000;
       allocation_percentage := 8; predicted_yield := Some 4.2;
       sustainability := Some 90 |} ].

(** A single holding with a given sustainability score. *)
Definition single_holding (score : Q) : Holding :=
  {| symbol := "TCS"; allocation_amount := 100000;
     allocation_percentage := 100; predicted_yield := Some 4;
     sustainability := Some score |}.

(** A generator that draws zero every time. *)
Definition calm : draws := fun _ => 0.

(** A generator whose first 10000 draws are one standard deviation down
    and whose later draws are zero. *)
Definition storm_then_calm : draws :=
  fun i => if (i <? 10000)%N then -1 else 0.

(** A generator whose first 2000 draws are one standard deviation down
    and whose later draws are zero. *)
Definition brief_storm : draws :=
  fun i => if (i <? 2000)%N then -1 else 0.

(** The allocation percentages and the predicted yields the assessor
    reads, defaults included. *)
Definition percentages (portfolio : list Holding) : list Q :=
  map allocation_percentage portfolio.

Definition yields (portfolio : list Holding) : list Q :=
  map (fun h => get_or (predicted_yield h) 4) portfolio.

(** A holding whose sustainability score is out of range: its estimated
    volatility is negative. *)
Definition impossible_holding : Holding :=
  {| symbol := "XYZ"; allocation_amount := 1000; allocation_percentage := 100;
     predicted_yield := Some 4; sustainability := Some 400 |}.

End DividendRiskManager.

(** * The backtester ([src/risk_management.py], [DividendBacktester]) *)

Module DividendBacktester.

(** One row of [historical_data]. *)
Record Quote : Type := {
  date : datetime;
  symbol : string;
  price : Q;
  dividend_yield : Q;
  dividend_amount : Q;
  annual_dividend : Q
}.

Inductive action : Type := SELL | BUY.

Record Transaction : Type := {
  tx_date : datetime;
  tx_symbol : string;
  tx_action : action;
  tx_shares : Z;
  tx_price : Q
}.

Record ValuePoint : Type := {
  vp_date : datetime;
  portfolio_value : Q;
  vp_cash : Q;
  invested : Q
}.

(** The variables the rebalancing loop updates. [portfolio] is a dict from
    symbol to share count, in insertion order. *)
Record State : Type := {
  portfolio : list (string * Z);
  cash : Q;
  transactions : list Transaction;
  portfolio_values : list ValuePoint
}.

(** [portfolio[k] = v] *)
Fixpoint dict_set (d : list (string * Z)) (k : string) (v : Z) : list (string * Z) :=
  match d with
  | [] => [(k, v)]
  | (k', v') :: t =>
      if String.eqb k k' then (k, v) :: t else (k', v') :: dict_set t k v
  end.

(** [groupby('symbol').last().reset_index()]: the last row of every
    symbol, symbols in ascending order. *)
Fixpoint upsert (q : Quote) (acc : list Quote) : list Quote :=
  match acc with
  | [] => [q]
  | h :: t =>
      match String.compare (symbol q) (symbol h) with
      | Eq => q :: t
      | Lt => q :: h :: t
      | Gt => h :: upsert q t
      end
  end.

Definition groupby_symbol_last (rows : list Quote) : list Quote :=
  fold_left (fun acc q => upsert q acc) rows [].

Definition current_data (historical_data : list Quote) (rebalance_date : datetime)
    : list Quote :=
  groupby_symbol_last
    (filter (fun q => (date q <=? rebalance_date)%Z) historical_data).

Definition qualified_stocks (current : list Quote) (min_yield : Q) : list Quote :=
  filter (fun q => Qle_bool min_yield (dividend_yield q)) current.

(** [qualified_stocks[qualified_stocks['symbol'] == symbol]['price'].iloc[0]],
    guarded by [symbol in qualified_stocks['symbol'].values]. *)
Definition price_in (qualified : list Quote) (sym : string) : option Q :=
  option_map price (find (fun q => String.eqb (symbol q) sym) qualified).

(** [for symbol, shares in portfolio.items(): if symbol in ...: value += ...] *)
Fixpoint holdings_value (qualified : list Quote) (items : list (string * Z))
    (value : Q) : Q :=
  match items with
  | [] => value
  | (sym, shares) :: rest =>
      match price_in qualified sym with
      | Some current_price =>
          holdings_value qualified rest (value + inject_Z shares * current_price)
      | None => holdings_value qualified rest value
      end
  end.

(** The "Sell current holdings" loop. *)
Fixpoint sell_holdings (qualified : list Quote) (rebalance_date : datetime)
    (items : list (string * Z)) (cash : Q) (transactions : list Transaction)
    : Q * list Transaction :=
  match items with
  | [] => (cash, transactions)
  | (sym, shares) :: rest =>
      match price_in qualified sym with
      | Some current_price =>
          sell_holdings qualified rebalance_date rest
            (cash + inject_Z shares * current_price)
            (transactions ++
               [ {| tx_date := rebalance_date; tx_symbol := sym; tx_action := SELL;
                    tx_shares := shares; tx_price := current_price |} ])%list
      | None => sell_holdings qualified rebalance_date rest cash transactions
      end
  end.

Definition is_sell (t : Transaction) : bool :=
  match tx_action t with
  | SELL => true
  | BUY => false
  end.

(** [target_allocation / stock['price']] at a zero price. The price of a
    row of [iterrows] is a Python float, and [cash] starts as the Python
    number [initial_capital]: dividing it by zero is a
    [ZeroDivisionError]. A sale adds [shares * current_price] to [cash],
    a numpy float taken with [.iloc[0]], and from then on [cash] and the
    target allocation are numpy floats: dividing them by zero gives an
    infinity or a NaN, which [int] refuses with an [OverflowError] or a
    [ValueError]. The sales made so far are those of the log. *)
Definition division_by_zero_price (target_allocation : Q)
    (transactions : list Transaction) : exn :=
  if existsb is_sell transactions then
    if Qeq_bool target_allocation 0 then ValueError else OverflowError
  else ZeroDivisionError.

(** The "Buy new holdings" loop. [int(target_allocation / price)] is the
    whole part of the exact quotient; the float quotient can round up to
    the next whole number, and overflows at a price small enough. *)
Fixpoint buy_holdings (stocks : list Quote) (rebalance_date : datetime)
    (target_allocation : Q) (portfolio : list (string * Z)) (cash : Q)
    (transactions : list Transaction)
    : result (list (string * Z) * Q * list Transaction) :=
  match stocks with
  | [] => Ok (portfolio, cash, transactions)
  | stock :: rest =>
      if Qeq_bool (price stock) 0 then
        Raise (division_by_zero_price target_allocation transactions)
      else
        let shares_to_buy := py_int (target_allocation / price stock) in
        let cost := inject_Z shares_to_buy * price stock in
        if Qle_bool cost cash then
          buy_holdings rest rebalance_date target_allocation
            (dict_set portfolio (symbol stock) shares_to_buy)
            (cash - cost)
            (transactions ++
               [ {| tx_date := rebalance_date; tx_symbol := symbol stock;
                    tx_action := BUY; tx_shares := shares_to_buy;
                    tx_price := price stock |} ])%list
        else
          buy_holdings rest rebalance_date target_allocation portfolio cash
            transactions
  end.

(** The body of [for rebalance_date in rebalance_dates]. *)
Definition rebalance (historical_data : list Quote) (min_yield : Q)
    (rebalance_date : datetime) (st : State) : result State :=
  let current := current_data historical_data rebalance_date in
  let qualified := qualified_stocks current min_yield in
  if (List.length qualified =? 0)%nat then Ok st
  else
    let value := holdings_value qualified (portfolio st) (cash st) in
    let target_allocation := value / of_nat (List.length qualified) in
    let '(cash1, transactions1) :=
      sell_holdings qualified rebalance_date (portfolio st) (cash st)
        (transactions st) in
    r <- buy_holdings qualified rebalance_date target_allocation [] cash1
           transactions1 ;;
    let '(portfolio2, cash2, transactions2) := r in
    let current_portfolio_value := holdings_value qualified portfolio2 cash2 in
    Ok {| portfolio := portfolio2;
          cash := cash2;
          transactions := transactions2;
          portfolio_values :=
            (portfolio_values st ++
               [ {| vp_date := rebalance_date;
                    portfolio_value := current_portfolio_value;
                    vp_cash := cash2;
                    invested := current_portfolio_value - cash2 |} ])%list |}.

Definition initial_state (initial_capital : Q) : State :=
  {| portfolio := []; cash := initial_capital; transactions := [];
     portfolio_values := [] |}.

(** The rebalancing loop of [backtest_strategy], on the historical data
    and the rebalance dates it is run with. *)
Fixpoint rebalance_loop (historical_data : list Quote) (min_yield : Q)
    (rebalance_dates : list datetime) (st : State) : result State :=
  match rebalance_dates with
  | [] => Ok st
  | rebalance_date :: rest =>
      st' <- rebalance historical_data min_yield rebalance_date st ;;
      rebalance_loop historical_data min_yield rest st'
  end.

(** The rows of [historical_data] that pay a dividend on [sym] after
    [buy_date]. *)
Definition dividends_after (historical_data : list Quote) (sym : string)
    (buy_date : datetime) : list Quote :=
  filter
    (fun q => String.eqb (symbol q) sym && (buy_date <? date q)%Z
              && Qlt_bool 0 (dividend_amount q))
    historical_data.

(** The "Calculate dividends received" loop of [backtest_strategy]. *)
Fixpoint dividends_received (historical_data : list Quote)
    (transactions : list Transaction) (total_dividends : Q) : Q :=
  match transactions with
  | [] => total_dividends
  | transaction :: rest =>
      match tx_action transaction with
      | BUY =>
          let sym := tx_symbol transaction in
          let shares := tx_shares transaction in
          let buy_date := tx_date transaction in
          let dividend_data := dividends_after historical_data sym buy_date in
          dividends_received historical_data rest
            (fold_left
               (fun total dividend_row =>
                  total + inject_Z shares * dividend_amount dividend_row)
               dividend_data total_dividends)
      | SELL => dividends_received historical_data rest total_dividends
      end
  end.

(** ** Vocabulary of the properties, and sample inputs *)

Definition is_buy (t : Transaction) : bool :=
  match tx_action t with
  | BUY => true
  | SELL => false
  end.

(** Cash is not overdrawn and no position is short. *)
Definition solvent (st : State) : Prop :=
  0 <= cash st /\ Forall (fun kv => (0 <= snd kv)%Z) (portfolio st).

Definition positive_prices (historical_data : list Quote) : Prop :=
  Forall (fun q => 0 < price q) historical_data.

(** Row [a] stands before row [b] in the ascending order of symbols. *)
Definition by_symbol (a b : Quote) : Prop :=
  String.compare (symbol a) (symbol b) = Lt.

(** The lookup of a symbol's row, as [price_in] does it. *)
Definition row_of (sym : string) (rows : list Quote) : option Quote :=
  find (fun q => String.eqb (symbol q) sym) rows.

(** The position a transaction trades: its symbol and its shares. *)
Definition position (t : Transaction) : string * Z :=
  (tx_symbol t, tx_shares t).

(** The symbol has a row among [rows]. *)
Definition listed (rows : list Quote) (sym : string) : bool :=
  existsb (fun q => String.eqb (symbol q) sym) rows.

(** The transaction is dated [rebalance_date] and trades a symbol of
    [rows] at the price of its row. *)
Definition traded_at (rows : list Quote) (rebalance_date : datetime)
    (t : Transaction) : Prop :=
  tx_date t = rebalance_date
  /\ exists q, In q rows /\ symbol q = tx_symbol t /\ price q = tx_price t.

(** A row as [generate_historical_data] makes it: the yield is the annual
    dividend over the price. *)
Definition quote (day : datetime) (sym : string) (p annual : Q) : Quote :=
  {| date := day; symbol := sym; price := p; dividend_yield := annual / p;
     dividend_amount := 0; annual_dividend := annual |}.

(** Two symbols over two dates, sorted by symbol and date. ITC yields 5%
    on the first date and 1% on the second, after its price went from 100
    to 500; TCS yields 1% and then 5%. *)
Definition two_dates : list Quote :=
  [ quote 1%Z "ITC" 100 5; quote 2%Z "ITC" 500 5;
    quote 1%Z "TCS" 50 0.5; quote 2%Z "TCS" 10 0.5 ].

(** Ten shares of ITC bought on the first date with all the cash. *)
Definition holding_itc : State :=
  {| portfolio := [("ITC", 10%Z)];
     cash := 0;
     transactions :=
       [ {| tx_date := 1%Z; tx_symbol := "ITC"; tx_action := BUY;
            tx_shares := 10; tx_price := 100 |} ];
     portfolio_values :=
       [ {| vp_date := 1%Z; portfolio_value := 1000; vp_cash := 0;
            invested := 1000 |} ] |}.

(** A buy followed by a sale of the same shares, with dividends paid in
    between and afterwards. *)
Definition bought_then_sold : list Transaction :=
  [ {| tx_date := 1%Z; tx_symbol := "ITC"; tx_action := BUY; tx_shares := 10;
       tx_price := 100 |};
    {| tx_date := 3%Z; tx_symbol := "ITC"; tx_action := SELL; tx_shares := 10;
       tx_price := 110 |} ].

Definition paying_history : list Quote :=
  [ {| date := 2%Z; symbol := "ITC"; price := 105; dividend_yield := 0.05;
       dividend_amount := 1.25; annual_dividend := 5 |};
    {| date := 4%Z; symbol := "ITC"; price := 110; dividend_yield := 0.05;
       dividend_amount := 1.3; annual_dividend := 5.2 |} ].

End DividendBacktester.

(** * Properties *)

(** ** Facts on Python arithmetic and on the stable sort *)

Lemma Qlt_bool_iff (x y : Q) : Qlt_bool x y = true <-> x < y.
Proof.
  unfold Qlt_bool. rewrite negb_true_iff. split.
  - intros H. apply Qnot_le_lt. intros Hle.
    apply Qle_bool_iff in Hle. congruence.
  - intros H. destruct (Qle_bool y x) eqn:E; [|reflexivity].
    apply Qle_bool_iff in E. exfalso. exact (Qlt_not_le _ _ H E).
Qed.

Lemma Qlt_bool_false_iff (x y : Q) : Qlt_bool x y = false <-> y <= x.
Proof.
  unfold Qlt_bool. rewrite negb_false_iff. apply Qle_bool_iff.
Qed.

Lemma Qle_bool_false_iff (x y : Q) : Qle_bool x y = false <-> y < x.
Proof.
  rewrite <- Qlt_bool_iff. unfold Qlt_bool.
  destruct (Qle_bool x y); simpl; intuition congruence.
Qed.

Lemma py_max_lower (a b : Q) : a <= py_max a b.
Proof.
  unfold py_max. destruct (Qlt_bool a b) eqn:E.
  - apply Qlt_bool_iff in E. apply Qlt_le_weak, E.
  - apply Qle_refl.
Qed.

Lemma py_max_mono (a b c : Q) : b <= c -> py_max a b <= py_max a c.
Proof.
  intros Hbc. unfold py_max.
  destruct (Qlt_bool a b) eqn:Eb, (Qlt_bool a c) eqn:Ec.
  - exact Hbc.
  - apply Qlt_bool_iff in Eb. apply Qlt_bool_false_iff in Ec.
    exfalso. apply (Qlt_not_le _ _ Eb). eapply Qle_trans; eassumption.
  - apply Qlt_bool_iff in Ec. apply Qlt_le_weak, Ec.
  - apply Qle_refl.
Qed.

Lemma py_min_upper (a b : Q) : py_min a b <= b.
Proof.
  unfold py_min. destruct (Qlt_bool b a) eqn:E.
  - apply Qle_refl.
  - apply Qlt_bool_false_iff in E. exact E.
Qed.

Lemma py_min_lower (a b c : Q) : c <= a -> c <= b -> c <= py_min a b.
Proof.
  intros Ha Hb. unfold py_min. destruct (Qlt_bool b a); assumption.
Qed.

Section SortFacts.
Context {A : Type} (leb : A -> A -> bool).

Lemma insert_perm (x : A) (l : list A) : Permutation (x :: l) (insert leb x l).
Proof.
  induction l as [|h t IH]; simpl.
  - apply Permutation_refl.
  - destruct (leb x h).
    + apply Permutation_refl.
    + eapply perm_trans; [apply perm_swap|]. apply perm_skip, IH.
Qed.

Lemma sort_perm (l : list A) : Permutation l (sort leb l).
Proof.
  induction l as [|h t IH]; simpl.
  - apply perm_nil.
  - eapply perm_trans; [apply perm_skip, IH|]. apply insert_perm.
Qed.

Lemma sort_length (l : list A) : List.length (sort leb l) = List.length l.
Proof. symmetry. apply Permutation_length, sort_perm. Qed.


End SortFacts.

Lemma insert_sorted (x : Q) (l : list Q) :
  StronglySorted Qle l -> StronglySorted Qle (insert Qle_bool x l).
Proof.
  induction 1 as [|h t Hs IH Hall]; simpl.
  - constructor; constructor.
  - destruct (Qle_bool x h) eqn:E.
    + apply Qle_bool_iff in E. constructor.
      * constructor; assumption.
      * constructor; [exact E|].
        eapply Forall_impl; [|exact Hall].
        intros y Hy. eapply Qle_trans; eassumption.
    + apply Qle_bool_false_iff in E. constructor; [exact IH|].
      eapply Permutation_Forall; [apply insert_perm|].
      constructor; [apply Qlt_le_weak, E|exact Hall].
Qed.

Lemma sort_sorted (l : list Q) : StronglySorted Qle (sort Qle_bool l).
Proof.
  induction l as [|h t IH]; simpl.
  - constructor.
  - apply insert_sorted, IH.
Qed.

Lemma sorted_nth (l : list Q) :
  StronglySorted Qle l ->
  forall i j : nat, (i <= j)%nat -> (j < List.length l)%nat ->
  nth i l 0 <= nth j l 0.
Proof.
  induction 1 as [|h t Hs IH Hall]; intros i j Hij Hj; simpl in Hj.
  - lia.
  - destruct i as [|i], j as [|j]; simpl.
    + apply Qle_refl.
    + rewrite Forall_forall in Hall. apply Hall, nth_In. lia.
    + lia.
    + apply IH; lia.
Qed.

(** ** The risk assessor *)

Module RiskFacts.
Import DividendRiskManager.

Lemma normal_ok (scale : Q) (z : draws) (pos : N) :
  0 <= scale -> normal 0 scale z pos = Ok (0 + scale * z pos, N.succ pos).
Proof.
  intros H. unfold normal.
  destruct (Qlt_bool scale 0) eqn:E; [|reflexivity].
  apply Qlt_bool_iff in E. exfalso. exact (Qlt_not_le _ _ E H).
Qed.

Lemma trial_ok (portfolio : list Holding) :
  volatilities_ok portfolio ->
  forall (daily_return : Q) (z : draws) (pos : N),
  exists r,
    trial portfolio daily_return z pos
      = Ok (r, (pos + N.of_nat (List.length portfolio))%N).
Proof.
  induction 1 as [|h t Hh Ht IH]; intros daily_return z pos.
  - exists daily_return. simpl. rewrite N.add_0_r. reflexivity.
  - cbn [trial]. rewrite (normal_ok _ z pos Hh). cbn [bind].
    destruct (IH (daily_return + allocation_percentage h / 100
                    * (0 + holding_volatility h * z pos)) z (N.succ pos))
      as [r Hr].
    exists r. rewrite Hr. f_equal. f_equal. cbn [List.length]. lia.
Qed.

Lemma simulate_ok (portfolio : list Holding) (total_investment : Q) (z : draws) :
  volatilities_ok portfolio ->
  forall (n : nat) (pos : N),
  exists l,
    simulate n portfolio total_investment z pos
      = Ok (l, (pos + N.of_nat (n * List.length portfolio))%N)
    /\ List.length l = n.
Proof.
  intros Hvol. induction n as [|n IH]; intros pos.
  - exists []. simpl. rewrite N.add_0_r. split; reflexivity.
  - cbn [simulate].
    destruct (trial_ok portfolio Hvol 0 z pos) as [r Hr]. rewrite Hr. cbn [bind].
    destruct (IH (pos + N.of_nat (List.length portfolio))%N) as [l [Hl Hlen]].
    rewrite Hl. cbn [bind].
    eexists. split.
    + f_equal. f_equal. lia.
    + simpl. f_equal. exact Hlen.
Qed.

Lemma index_nth (l : list Q) (i : nat) :
  (i < List.length l)%nat -> index l (Z.of_nat i) = Ok (nth i l 0).
Proof.
  intros H. unfold index.
  replace ((0 <=? Z.of_nat i)%Z && (Z.of_nat i <? Z.of_nat (List.length l))%Z)
    with true.
  - rewrite Nat2Z.id. reflexivity.
  - symmetry. apply andb_true_iff. split.
    + apply Z.leb_le. lia.
    + apply Z.ltb_lt. lia.
Qed.

(** The value at risk is read off the sorted outcomes of one run, at the
    position the confidence selects. *)
Lemma calculate_var_quantile (portfolio : list Holding) (confidence : Q)
    (z : draws) (pos : N) (i : nat) :
  volatilities_ok portfolio ->
  py_int ((1 - confidence) * of_nat num_simulations) = Z.of_nat i ->
  (i < num_simulations)%nat ->
  exists l,
    simulate num_simulations portfolio (total portfolio) z pos
      = Ok (l, (pos + N.of_nat (num_simulations * List.length portfolio))%N)
    /\ List.length l = num_simulations
    /\ _calculate_var portfolio confidence z pos
       = Ok (py_max 0 (total portfolio - nth i (sort Qle_bool l) 0),
             (pos + N.of_nat (num_simulations * List.length portfolio))%N).
Proof.
  intros Hvol Hidx Hlt.
  destruct (simulate_ok portfolio (total portfolio) z Hvol num_simulations pos)
    as [l [Hl Hlen]].
  exists l. split; [exact Hl|]. split; [exact Hlen|].
  unfold _calculate_var. fold (total portfolio). rewrite Hl. cbn [bind].
  rewrite Hidx, index_nth.
  - reflexivity.
  - rewrite sort_length, Hlen. exact Hlt.
Qed.

Lemma var_index_95 : py_int ((1 - 0.95) * of_nat num_simulations) = Z.of_nat 500.
Proof. vm_compute. reflexivity. Qed.

Lemma var_index_99 : py_int ((1 - 0.99) * of_nat num_simulations) = Z.of_nat 100.
Proof. vm_compute. reflexivity. Qed.

Lemma below_num_simulations (i : nat) :
  (Z.of_nat i <? 10000)%Z = true -> (i < num_simulations)%nat.
Proof.
  intros H. apply Z.ltb_lt in H. unfold num_simulations. lia.
Qed.

(** Both confidence levels over one and the same run. *)
Lemma calculate_var_same_run (portfolio : list Holding) (z : draws) (pos : N) :
  volatilities_ok portfolio ->
  exists l pos',
    List.length l = num_simulations
    /\ _calculate_var portfolio 0.95 z pos
       = Ok (py_max 0 (total portfolio - nth 500 (sort Qle_bool l) 0), pos')
    /\ _calculate_var portfolio 0.99 z pos
       = Ok (py_max 0 (total portfolio - nth 100 (sort Qle_bool l) 0), pos').
Proof.
  intros Hvol.
  destruct (calculate_var_quantile portfolio 0.95 z pos 500 Hvol var_index_95
              (below_num_simulations 500 eq_refl)) as [l [Hl [Hlen H95]]].
  destruct (calculate_var_quantile portfolio 0.99 z pos 100 Hvol var_index_99
              (below_num_simulations 100 eq_refl)) as [l' [Hl' [_ H99]]].
  assert (l' = l) by congruence. subst l'.
  exists l. eexists. split; [exact Hlen|]. split; [exact H95|exact H99].
Qed.

Lemma py_min_le_l (a b : Q) : py_min a b <= a.
Proof.
  unfold py_min. destruct (Qlt_bool b a) eqn:E.
  - apply Qlt_bool_iff in E. apply Qlt_le_weak, E.
  - apply Qle_refl.
Qed.

Lemma fold_min_In (l : list Q) :
  forall a, fold_left py_min l a = a \/ In (fold_left py_min l a) l.
Proof.
  induction l as [|x l IH]; intros a; simpl.
  - left. reflexivity.
  - destruct (IH (py_min a x)) as [E|Hin].
    + rewrite E. unfold py_min. destruct (Qlt_bool x a); auto.
    + right. right. exact Hin.
Qed.

Lemma fold_min_le (l : list Q) :
  forall a, fold_left py_min l a <= a
            /\ Forall (Qle (fold_left py_min l a)) l.
Proof.
  induction l as [|x l IH]; intros a; simpl.
  - split; [apply Qle_refl|constructor].
  - destruct (IH (py_min a x)) as [Hle Hall]. split.
    + eapply Qle_trans; [exact Hle|apply py_min_le_l].
    + constructor; [|exact Hall].
      eapply Qle_trans; [exact Hle|apply py_min_upper].
Qed.

(** [min(l)] is an element of [l] below all the others. *)
Lemma min_list_spec (l : list Q) (m : Q) :
  min_list l = Ok m -> In m l /\ Forall (Qle m) l.
Proof.
  destruct l as [|h t]; simpl; intros H; [discriminate|].
  injection H as <-. split.
  - destruct (fold_min_In t h) as [E|Hin]; [left; symmetry; exact E|right; exact Hin].
  - destruct (fold_min_le t h) as [Hle Hall]. constructor; assumption.
Qed.

Lemma risk_of_sustainability_spec (m : Q) :
  (risk_of_sustainability m = HIGH <-> m <= 50)
  /\ (risk_of_sustainability m = MEDIUM <-> 50 < m /\ m <= 70)
  /\ (risk_of_sustainability m = LOW <-> 70 < m).
Proof.
  unfold risk_of_sustainability.
  destruct (Qlt_bool 70 m) eqn:E70; [|destruct (Qlt_bool 50 m) eqn:E50];
    repeat match goal with
           | H : Qlt_bool _ _ = true |- _ => apply Qlt_bool_iff in H
           | H : Qlt_bool _ _ = false |- _ => apply Qlt_bool_false_iff in H
           end;
    repeat split; intros; try discriminate; try reflexivity; lra.
Qed.

Lemma recommendations_ok (risk_factors : RiskFactors) (h : Holding)
    (t : list Holding) :
  exists l, _generate_risk_recommendations risk_factors (h :: t) = Ok l.
Proof.
  unfold _generate_risk_recommendations.
  destruct (Qlt_bool 30 (concentration risk_factors)); cbn [bind];
    eexists; reflexivity.
Qed.

Lemma py_div_ok (a b : Q) : ~ b == 0 -> py_div a b = Ok (a / b).
Proof.
  intros H. unfold py_div. destruct (Qeq_bool b 0) eqn:E; [|reflexivity].
  apply Qeq_bool_iff in E. contradiction.
Qed.

(** On a non-empty portfolio of non-zero total, whose volatilities the
    generator accepts, the assessment is returned; its sustainability
    label is the one of the minimum score, and its two values at risk
    are quantiles of two consecutive simulation runs. *)
Lemma assess_portfolio_risk_returns (portfolio : list Holding) (z : draws)
    (pos : N) :
  portfolio <> [] ->
  ~ total portfolio == 0 ->
  volatilities_ok portfolio ->
  exists r pos' m,
    assess_portfolio_risk portfolio z pos = Ok (r, pos')
    /\ min_list (scores portfolio) = Ok m
    /\ sustainability_risk r = risk_of_sustainability m.
Proof.
  intros Hne Htot Hvol.
  destruct portfolio as [|h t]; [contradiction|].
  destruct (calculate_var_quantile (h :: t) 0.95 z pos 500 Hvol var_index_95
              (below_num_simulations 500 eq_refl)) as [l [_ [_ H95]]].
  destruct (calculate_var_quantile (h :: t) 0.99 z
              (pos + N.of_nat (num_simulations * List.length (h :: t)))%N 100
              Hvol var_index_99 (below_num_simulations 100 eq_refl))
    as [l' [_ [_ H99]]].
  unfold assess_portfolio_risk.
  cbn [map max_list min_list bind].
  rewrite H95. cbn [bind]. rewrite H99. cbn [bind].
  fold (total (h :: t)).
  rewrite !(py_div_ok _ _ Htot). cbn [bind].
  match goal with
  | |- context [_generate_risk_recommendations ?rf (h :: t)] =>
      destruct (recommendations_ok rf h t) as [recs Hrecs]; rewrite Hrecs
  end.
  cbn [bind].
  eexists. eexists. eexists. split; [reflexivity|]. split; reflexivity.
Qed.

End RiskFacts.

(** *** Claims on the risk assessor *)

Module RiskClaims.
Import DividendRiskManager RiskFacts.

(** C3, as the code has it: on every non-empty portfolio the assessor
    accepts, the sustainability label is HIGH exactly when the minimum
    sustainability score (70 standing in for a holding without one) is at
    most 50, MEDIUM exactly when it is above 50 and at most 70, and LOW
    exactly when it is above 70. *)
Theorem c3_sustainability_label_thresholds (portfolio : list Holding)
    (z : draws) (pos : N) :
  portfolio <> [] ->
  ~ total portfolio == 0 ->
  volatilities_ok portfolio ->
  exists r pos' m,
    assess_portfolio_risk portfolio z pos = Ok (r, pos')
    /\ In m (scores portfolio)
    /\ Forall (Qle m) (scores portfolio)
    /\ (sustainability_risk r = HIGH <-> m <= 50)
    /\ (sustainability_risk r = MEDIUM <-> 50 < m /\ m <= 70)
    /\ (sustainability_risk r = LOW <-> 70 < m).
Proof.
  intros Hne Htot Hvol.
  destruct (assess_portfolio_risk_returns portfolio z pos Hne Htot Hvol)
    as (r & pos' & m & Hr & Hm & Hlabel).
  destruct (min_list_spec _ _ Hm) as [Hin Hall].
  exists r, pos', m. rewrite Hlabel.
  split; [exact Hr|]. split; [exact Hin|]. split; [exact Hall|].
  apply risk_of_sustainability_spec.
Qed.

Lemma sample_portfolio_accepted :
  sample_portfolio <> []
  /\ ~ total sample_portfolio == 0
  /\ volatilities_ok sample_portfolio.
Proof.
  split; [discriminate|]. split.
  - intros H. vm_compute in H. discriminate.
  - unfold volatilities_ok, sample_portfolio.
    repeat constructor; vm_compute; discriminate.
Defined.

Lemma c3_sustainability_label_thresholds_witness :
  (sample_portfolio <> []
   /\ ~ total sample_portfolio == 0
   /\ volatilities_ok sample_portfolio)
  /\ exists r pos' m,
       assess_portfolio_risk sample_portfolio calm 0 = Ok (r, pos')
       /\ In m (scores sample_portfolio)
       /\ Forall (Qle m) (scores sample_portfolio)
       /\ (sustainability_risk r = HIGH <-> m <= 50)
       /\ (sustainability_risk r = MEDIUM <-> 50 < m /\ m <= 70)
       /\ (sustainability_risk r = LOW <-> 70 < m).
Proof.
  split; [exact sample_portfolio_accepted|].
  destruct sample_portfolio_accepted as (Hne & Htot & Hvol).
  exact (c3_sustainability_label_thresholds sample_portfolio calm 0 Hne Htot Hvol).
Defined.

(** C3 as stated fails at a minimum of exactly 50: the label is HIGH, not
    MEDIUM. *)
Lemma c3_minimum_50_is_high :
  exists r pos',
    assess_portfolio_risk [single_holding 50] calm 0 = Ok (r, pos')
    /\ min_list (scores [single_holding 50]) = Ok 50
    /\ sustainability_risk r = HIGH
    /\ sustainability_risk r <> MEDIUM.
Proof.
  assert (Hne : [single_holding 50] <> []) by discriminate.
  assert (Htot : ~ total [single_holding 50] == 0)
    by (intros H; vm_compute in H; discriminate).
  assert (Hvol : volatilities_ok [single_holding 50])
    by (repeat constructor; vm_compute; discriminate).
  destruct (assess_portfolio_risk_returns _ calm 0%N Hne Htot Hvol)
    as (r & pos' & m & Hr & Hm & Hlabel).
  exists r, pos'. split; [exact Hr|].
  simpl in Hm. injection Hm as <-.
  split; [reflexivity|]. rewrite Hlabel.
  split; [reflexivity|discriminate].
Qed.

(** C8, as the code has it: the value at risk at 99% confidence is at
    least the value at risk at 95% confidence when both are computed
    from the same simulation run, that is from the same draws. *)
Theorem c8_var_99_ge_var_95_on_one_run (portfolio : list Holding) (z : draws)
    (pos : N) :
  volatilities_ok portfolio ->
  exists v95 v99 pos',
    _calculate_var portfolio 0.95 z pos = Ok (v95, pos')
    /\ _calculate_var portfolio 0.99 z pos = Ok (v99, pos')
    /\ v95 <= v99.
Proof.
  intros Hvol.
  destruct (calculate_var_same_run portfolio z pos Hvol)
    as (l & pos' & Hlen & H95 & H99).
  eexists. eexists. exists pos'.
  split; [exact H95|]. split; [exact H99|].
  apply py_max_mono.
  assert (Hq : nth 100 (sort Qle_bool l) 0 <= nth 500 (sort Qle_bool l) 0).
  { apply sorted_nth.
    - apply sort_sorted.
    - lia.
    - rewrite sort_length, Hlen. apply below_num_simulations. reflexivity. }
  lra.
Qed.

Lemma c8_var_99_ge_var_95_on_one_run_witness :
  volatilities_ok sample_portfolio
  /\ exists v95 v99 pos',
       _calculate_var sample_portfolio 0.95 storm_then_calm 0 = Ok (v95, pos')
       /\ _calculate_var sample_portfolio 0.99 storm_then_calm 0 = Ok (v99, pos')
       /\ v95 <= v99.
Proof.
  destruct sample_portfolio_accepted as (_ & _ & Hvol).
  split; [exact Hvol|].
  exact (c8_var_99_ge_var_95_on_one_run sample_portfolio storm_then_calm 0 Hvol).
Defined.

(** C8 as stated fails: the assessor runs one simulation per confidence
    level, and on draws that are bad during the first run only the
    reported 99% value is below the reported 95% value. *)
Lemma c8_reported_var_99_below_var_95 :
  exists r pos',
    assess_portfolio_risk [single_holding 50] storm_then_calm 0 = Ok (r, pos')
    /\ var_95 r == 2600
    /\ var_99 r == 0
    /\ ~ var_95 r <= var_99 r.
Proof.
  eexists. eexists. split; [vm_compute; reflexivity|].
  split; [vm_compute; reflexivity|].
  split; [vm_compute; reflexivity|].
  intros H. vm_compute in H. apply H. reflexivity.
Qed.

(** C10: on the empty portfolio the assessor raises the [ValueError] of
    [max] of an empty list; no assessment is returned. *)
Theorem c10_empty_portfolio_raises (z : draws) (pos : N) :
  assess_portfolio_risk [] z pos = Raise ValueError.
Proof. reflexivity. Qed.

End RiskClaims.

(** ** The health score *)

Module ScoreFacts.
Import Engine.

Ltac reduce_tests :=
  unfold and_then, chain, bind, py_ge, py_gt;
  cbn [truthy negb py_le py_lt].

Ltac split_tests :=
  repeat (match goal with
          | |- context [Qeq_bool ?a ?b] => destruct (Qeq_bool a b)
          | |- context [Qle_bool ?a ?b] => destruct (Qle_bool a b)
          | |- context [Qlt_bool ?a ?b] => destruct (Qlt_bool a b)
          end;
          reduce_tests).

Ltac bounded := eexists; split; [reflexivity|split; lra].

Lemma of_nat_nonneg (n : nat) : 0 <= of_nat n.
Proof. unfold of_nat, Qle. simpl. lia. Qed.

Lemma fractional_py_or (py_float : string -> option Q) (a b : pyval) :
  fractional py_float a -> fractional py_float b ->
  fractional py_float (py_or a b).
Proof. intros Ha Hb. unfold py_or. destruct (truthy a); assumption. Qed.

(** A fractional field that is not [None] becomes a number. *)
Lemma unstring_fractional (py_float : string -> option Q) (v : pyval) :
  fractional py_float v ->
  truthy v = true \/ (exists q, v = PNum q) ->
  exists q, unstring py_float v = Ok (PNum q).
Proof.
  intros Hf Hv. destruct v as [|q|s].
  - destruct Hv as [Ht|[q Hq]]; discriminate.
  - exists q. reflexivity.
  - destruct Hv as [Ht|[q Hq]]; [|discriminate].
    specialize (Hf Ht). unfold unstring, percent_string.
    destruct (py_float (strip_percent s)) as [q|]; [|contradiction].
    eexists. reflexivity.
Qed.

Lemma yield_score_bounds (py_float : string -> option Q) (stock_data : dict) :
  fractional py_float (get_default stock_data "dividend_yield" (PNum 0)) ->
  exists s, yield_score py_float stock_data = Ok s /\ 0 <= s /\ s <= 20.
Proof.
  intros Hf. unfold yield_score.
  destruct (unstring_fractional py_float
              (py_or (get_default stock_data "dividend_yield" (PNum 0)) (PNum 0)))
    as [q Hq].
  - apply fractional_py_or; [exact Hf|exact I].
  - unfold py_or.
    destruct (truthy (get_default stock_data "dividend_yield" (PNum 0))) eqn:E.
    + left. exact E.
    + right. eexists. reflexivity.
  - rewrite Hq. reduce_tests. split_tests; bounded.
Qed.

Lemma payout_score_bounds (py_float : string -> option Q)
    (stock_data financial_metrics : dict) :
  fractional py_float (get stock_data "payout_ratio") ->
  fractional py_float (get financial_metrics "payout_ratio") ->
  exists s,
    payout_score py_float stock_data financial_metrics = Ok s
    /\ 0 <= s /\ s <= 25.
Proof.
  intros Hs Hm. unfold payout_score.
  set (payout_ratio :=
         py_or (get stock_data "payout_ratio") (get financial_metrics "payout_ratio")).
  assert (Hf : fractional py_float payout_ratio)
    by (apply fractional_py_or; assumption).
  destruct (truthy payout_ratio) eqn:E; [|bounded].
  destruct (unstring_fractional py_float payout_ratio Hf (or_introl E)) as [q Hq].
  rewrite Hq. reduce_tests. split_tests; bounded.
Qed.

Lemma growth_score_bounds (dividend_data : list DividendRecord) :
  0 <= growth_score dividend_data.
Proof.
  unfold growth_score.
  destruct (negb (is_empty dividend_data)); [|apply Qle_refl].
  destruct (3 <=? _)%nat; [|apply Qle_refl].
  apply Qmult_le_0_compat; [|lra].
  apply Qmult_le_0_compat; [apply of_nat_nonneg|].
  apply Qinv_le_0_compat, of_nat_nonneg.
Qed.

Lemma financial_health_bounds (financial_metrics : dict) :
  numeric (get financial_metrics "pe_ratio") ->
  numeric (get financial_metrics "debt_to_equity") ->
  numeric (get financial_metrics "return_on_equity") ->
  exists s, financial_health financial_metrics = Ok s /\ 0 <= s /\ s <= 20.
Proof.
  intros Hpe Hde Hroe. unfold financial_health.
  destruct (get financial_metrics "pe_ratio") as [|pe|]; [| |contradiction];
    destruct (get financial_metrics "debt_to_equity") as [|de|]; [| |contradiction| | |contradiction];
    destruct (get financial_metrics "return_on_equity") as [|roe|];
    try contradiction;
    reduce_tests; split_tests; bounded.
Qed.

Lemma coverage_score_bounds (financial_metrics : dict) :
  numeric (get financial_metrics "dividend_coverage_ratio") ->
  exists s, coverage_score financial_metrics = Ok s /\ 0 <= s /\ s <= 15.
Proof.
  intros Hc. unfold coverage_score.
  destruct (get financial_metrics "dividend_coverage_ratio") as [|c|];
    [| |contradiction];
    reduce_tests; split_tests; bounded.
Qed.

(** Whatever the fields hold, a component that is returned is not
    negative. *)
Ltac returned_nonneg H :=
  unfold and_then, chain, bind, py_ge, py_gt in H;
  cbn [truthy negb py_le py_lt] in H;
  repeat (match type of H with
          | context [Qeq_bool ?a ?b] => destruct (Qeq_bool a b)
          | context [Qle_bool ?a ?b] => destruct (Qle_bool a b)
          | context [Qlt_bool ?a ?b] => destruct (Qlt_bool a b)
          | context [String.eqb ?a ?b] => destruct (String.eqb a b)
          end;
          cbn [negb] in H);
  try discriminate H;
  injection H as <-; lra.

Lemma yield_score_nonneg (py_float : string -> option Q) (stock_data : dict)
    (s : Q) :
  yield_score py_float stock_data = Ok s -> 0 <= s.
Proof.
  unfold yield_score. intros H.
  destruct (unstring py_float _) as [[|q|str]|e]; cbn [bind] in H;
    returned_nonneg H.
Qed.

Lemma payout_score_nonneg (py_float : string -> option Q)
    (stock_data financial_metrics : dict) (s : Q) :
  payout_score py_float stock_data financial_metrics = Ok s -> 0 <= s.
Proof.
  unfold payout_score. intros H.
  destruct (truthy _); [|injection H as <-; lra].
  destruct (unstring py_float _) as [[|q|str]|e]; cbn [bind] in H;
    returned_nonneg H.
Qed.

Lemma financial_health_nonneg (financial_metrics : dict) (s : Q) :
  financial_health financial_metrics = Ok s -> 0 <= s.
Proof.
  unfold financial_health. intros H.
  destruct (get financial_metrics "pe_ratio") as [|pe|pe];
    destruct (get financial_metrics "debt_to_equity") as [|de|de];
    destruct (get financial_metrics "return_on_equity") as [|roe|roe];
    returned_nonneg H.
Qed.

Lemma coverage_score_nonneg (financial_metrics : dict) (s : Q) :
  coverage_score financial_metrics = Ok s -> 0 <= s.
Proof.
  unfold coverage_score. intros H.
  destruct (get financial_metrics "dividend_coverage_ratio") as [|c|c];
    returned_nonneg H.
Qed.

(** On any input at all, a score that is returned lies between 0 and 100. *)
Lemma returned_health_score_in_range (py_float : string -> option Q)
    (stock_data financial_metrics : dict) (dividend_data : list DividendRecord)
    (score : Q) :
  calculate_health_score py_float stock_data financial_metrics dividend_data
    = Ok score ->
  0 <= score /\ score <= 100.
Proof.
  unfold calculate_health_score. intros H.
  destruct (yield_score py_float stock_data) as [s1|] eqn:E1;
    cbn [bind] in H; [|discriminate].
  destruct (payout_score py_float stock_data financial_metrics) as [s2|] eqn:E2;
    cbn [bind] in H; [|discriminate].
  destruct (financial_health financial_metrics) as [s4|] eqn:E4;
    cbn [bind] in H; [|discriminate].
  destruct (coverage_score financial_metrics) as [s5|] eqn:E5;
    cbn [bind] in H; [|discriminate].
  injection H as <-.
  apply yield_score_nonneg in E1. apply payout_score_nonneg in E2.
  apply financial_health_nonneg in E4. apply coverage_score_nonneg in E5.
  pose proof (growth_score_bounds dividend_data) as L3.
  split; [apply py_min_lower; lra|apply py_min_upper].
Qed.

End ScoreFacts.

(** *** Claims on the health score *)

Module ScoreClaims.
Import Engine ScoreFacts.

(** C7: on every snapshot, metrics and history typed as the data model has
    them, the calculator returns a score, and the score lies in the closed
    interval from 0 to 100. *)
Theorem c7_health_score_in_range (py_float : string -> option Q)
    (stock_data financial_metrics : dict) (dividend_data : list DividendRecord) :
  well_typed py_float stock_data financial_metrics ->
  exists score,
    calculate_health_score py_float stock_data financial_metrics dividend_data
      = Ok score
    /\ 0 <= score /\ score <= 100.
Proof.
  intros (Hy & Hps & Hpm & Hpe & Hde & Hroe & Hcov).
  destruct (yield_score_bounds py_float stock_data Hy) as (s1 & E1 & L1 & _).
  destruct (payout_score_bounds py_float stock_data financial_metrics Hps Hpm)
    as (s2 & E2 & L2 & _).
  destruct (financial_health_bounds financial_metrics Hpe Hde Hroe)
    as (s4 & E4 & L4 & _).
  destruct (coverage_score_bounds financial_metrics Hcov) as (s5 & E5 & L5 & _).
  pose proof (growth_score_bounds dividend_data) as L3.
  unfold calculate_health_score. rewrite E1, E2, E4, E5. cbn [bind].
  eexists. split; [reflexivity|]. split.
  - apply py_min_lower; lra.
  - apply py_min_upper.
Qed.

Lemma c7_health_score_in_range_witness :
  well_typed no_float scenario_b_stock (scenario_b_metrics 0.3)
  /\ exists score,
       calculate_health_score no_float scenario_b_stock (scenario_b_metrics 0.3)
         growing_history = Ok score
       /\ 0 <= score /\ score <= 100.
Proof.
  assert (H : well_typed no_float scenario_b_stock (scenario_b_metrics 0.3))
    by (repeat split).
  split; [exact H|].
  exact (c7_health_score_in_range no_float scenario_b_stock
           (scenario_b_metrics 0.3) growing_history H).
Defined.

(** C4 at a debt/equity ratio of zero: the ratio is present, yet the
    financial-health component holds the points of the price/earnings
    ratio and of the return on equity only (13 instead of 20), and
    scenario B scores 93 instead of 100; at a ratio of 0.3 the same inputs
    score 100. *)
Theorem c4_zero_debt_earns_no_bonus :
  get (scenario_b_metrics 0) "debt_to_equity" = PNum 0
  /\ (exists s, financial_health (scenario_b_metrics 0) = Ok s /\ s == 13)
  /\ (exists s, financial_health (scenario_b_metrics 0.3) = Ok s /\ s == 20)
  /\ (exists s,
        calculate_health_score no_float scenario_b_stock (scenario_b_metrics 0)
          growing_history = Ok s /\ s == 93)
  /\ (exists s,
        calculate_health_score no_float scenario_b_stock (scenario_b_metrics 0.3)
          growing_history = Ok s /\ s == 100).
Proof.
  split; [reflexivity|].
  repeat split; eexists; (split; [vm_compute; reflexivity|reflexivity]).
Qed.

End ScoreClaims.

(** ** Consecutive growth years *)

Module GrowthFacts.
Import Engine.

Lemma count_growth_years_loop (dividend_data : list DividendRecord) :
  _count_growth_years dividend_data
  = growth_loop (rev (dropna (map dividend_growth_rate dividend_data))) 0.
Proof. destruct dividend_data; reflexivity. Qed.

(** The loop counts a run of positive rates and stops at the end of the
    list or in front of a rate that is not positive. *)
Lemma growth_loop_run (rates : list Q) :
  forall acc : nat,
  exists run rest,
    rates = (run ++ rest)%list
    /\ growth_loop rates acc = (acc + List.length run)%nat
    /\ Forall (fun r => 0 < r) run
    /\ (rest = [] \/ exists r rest', rest = r :: rest' /\ r <= 0).
Proof.
  induction rates as [|rate rates IH]; intros acc.
  - exists [], []. simpl.
    split; [reflexivity|]. split; [lia|]. split; [constructor|].
    left. reflexivity.
  - cbn [growth_loop]. destruct (Qlt_bool 0 rate) eqn:E.
    + apply Qlt_bool_iff in E.
      destruct (IH (S acc)) as (run & rest & Hsplit & Hcount & Hpos & Hstop).
      exists (rate :: run), rest. subst rates.
      split; [reflexivity|]. split; [rewrite Hcount; simpl; lia|].
      split; [constructor; assumption|exact Hstop].
    + apply Qlt_bool_false_iff in E.
      exists [], (rate :: rates). simpl.
      split; [reflexivity|]. split; [lia|]. split; [constructor|].
      right. exists rate, rates. split; [reflexivity|exact E].
Qed.

End GrowthFacts.

(** *** Claims on consecutive growth years *)

Module GrowthClaims.
Import Engine GrowthFacts.

(** C5, as the code has it: the growth rates that are not missing split
    into older rates and a trailing run; the run is as long as the count,
    every rate in it is strictly positive, and the older rates are none or
    end with a rate that is not positive. Missing rates are dropped before
    the count and do not end the run. *)
Theorem c5_count_growth_years_skips_missing (dividend_data : list DividendRecord) :
  exists older run,
    dropna (map dividend_growth_rate dividend_data) = (older ++ run)%list
    /\ List.length run = _count_growth_years dividend_data
    /\ Forall (fun r => 0 < r) run
    /\ (older = [] \/ exists older' r, older = (older' ++ [r])%list /\ r <= 0).
Proof.
  rewrite count_growth_years_loop.
  set (g := dropna (map dividend_growth_rate dividend_data)).
  destruct (growth_loop_run (rev g) 0%nat)
    as (run & rest & Hsplit & Hcount & Hpos & Hstop).
  exists (rev rest), (rev run).
  split; [|split; [|split]].
  - rewrite <- rev_app_distr, <- Hsplit, rev_involutive. reflexivity.
  - rewrite length_rev, Hcount. reflexivity.
  - apply Forall_rev, Hpos.
  - destruct Hstop as [->|(r & rest' & -> & Hr)].
    + left. reflexivity.
    + right. exists (rev rest'), r. split; [reflexivity|exact Hr].
Qed.

(** C5 as stated fails on a history with a missing growth rate between two
    positive ones: the code counts 2, the stated rule counts 1. *)
Lemma c5_missing_rate_does_not_stop_count :
  map dividend_growth_rate history_with_gap = [None; Some 5; None; Some 3]
  /\ _count_growth_years history_with_gap = 2%nat
  /\ consecutive_growth_years_spec history_with_gap = 1%nat
  /\ _count_growth_years history_with_gap
     <> consecutive_growth_years_spec history_with_gap.
Proof.
  split; [reflexivity|]. split; [reflexivity|]. split; [reflexivity|].
  vm_compute. discriminate.
Qed.

End GrowthClaims.

(** ** The scan engine *)

Module ScanFacts.
Import Engine.










Section Scan.
Variable py_float : string -> option Q.
Variable now : datetime.
Variable data_pipeline : DataPipeline.

Lemma apply_filter_unknown_operator (actual_value : pyval) (filter_value : pyarg)
    (op : string) :
  ~ In op operators -> _apply_filter actual_value filter_value op = Ok false.
Proof.
  intros Hop. unfold _apply_filter.
  assert (Hneq : forall known, In known operators -> String.eqb op known = false).
  { intros known Hin. apply String.eqb_neq. intros ->. contradiction. }
  destruct actual_value; [reflexivity| |];
    rewrite !Hneq by (simpl; tauto); reflexivity.
Qed.

Lemma invalid_not_satisfied (f : ScanFilter) (stock_data financial_metrics : dict)
    (dividend_data : list DividendRecord) :
  invalid_filter f ->
  ~ satisfies py_float now f stock_data financial_metrics dividend_data.
Proof.
  intros [Hop|[tag Htag]] (v & Hv & Hnone & Happly).
  - rewrite (apply_filter_unknown_operator _ _ _ Hop) in Happly. discriminate.
  - rewrite Htag in Hv. simpl in Hv. injection Hv as <-. contradiction.
Qed.

(** [_passes_filters] answers [True] only when every filter is satisfied. *)
Lemma passes_filters_sound (stock_data financial_metrics : dict)
    (dividend_data : list DividendRecord) (fs : list ScanFilter) :
  _passes_filters py_float now stock_data financial_metrics dividend_data fs
    = Ok true ->
  Forall (fun f => satisfies py_float now f stock_data financial_metrics
                     dividend_data) fs.
Proof.
  induction fs as [|f fs IH]; intros H.
  - constructor.
  - cbn [_passes_filters] in H.
    destruct (_get_filter_value py_float now (criteria f) stock_data
                financial_metrics dividend_data) as [v|e] eqn:Ev;
      cbn [bind] in H; [|discriminate].
    assert (Hv : v <> PNone) by (intros ->; discriminate).
    assert (H' :
      (b <- _apply_filter v (value f) (operator f) ;;
       if negb b then Ok false
       else _passes_filters py_float now stock_data financial_metrics
              dividend_data fs) = Ok true)
      by (destruct v; [contradiction|exact H|exact H]).
    destruct (_apply_filter v (value f) (operator f)) as [b|e] eqn:Ea;
      cbn [bind] in H'; [|discriminate].
    destruct b; cbn [negb] in H'; [|discriminate].
    constructor.
    + exists v. repeat split; assumption.
    + apply IH, H'.
Qed.

(** A row is compiled only for a symbol that was retrieved and that
    passed the filters. *)
Lemma process_symbol_row (symbol : string) (config : ScanConfiguration)
    (row : dict) :
  process_symbol py_float now data_pipeline symbol config = Ok (Some row) ->
  exists stock_data financial_metrics dividend_data,
    retrieved data_pipeline symbol stock_data financial_metrics dividend_data
    /\ _passes_filters py_float now stock_data financial_metrics dividend_data
         (filters config) = Ok true
    /\ get row "symbol" = PStr symbol.
Proof.
  unfold process_symbol, retrieved. intros H.
  destruct (get_stock_data data_pipeline symbol) as [sd|] eqn:Esd;
    cbn [bind] in H; [|discriminate].
  destruct (get_financial_metrics data_pipeline symbol) as [fm|] eqn:Efm;
    cbn [bind] in H; [|discriminate].
  destruct (get_dividend_history data_pipeline symbol) as [dd|] eqn:Edd;
    cbn [bind] in H; [|discriminate].
  destruct sd as [sd|]; [|discriminate].
  destruct (is_empty sd); [discriminate|].
  destruct (_passes_filters py_float now sd fm dd (filters config))
    as [passes|] eqn:Ep; cbn [bind] in H; [|discriminate].
  destruct passes; [|discriminate].
  destruct (calculate_health_score py_float sd fm dd) as [hs|];
    cbn [bind] in H; [|discriminate].
  injection H as <-.
  exists sd, fm, dd. repeat split; try assumption; reflexivity.
Qed.

Lemma scan_loop_In (config : ScanConfiguration) (symbols : list string) :
  forall (results : list dict) (row : dict),
  In row (scan_loop py_float now data_pipeline symbols config results) ->
  In row results
  \/ exists symbol,
       In symbol symbols
       /\ process_symbol py_float now data_pipeline symbol config = Ok (Some row).
Proof.
  induction symbols as [|symbol symbols IH]; intros results row H.
  - left. exact H.
  - cbn [scan_loop] in H.
    destruct (process_symbol py_float now data_pipeline symbol config)
      as [[r|]|e] eqn:E.
    + destruct (IH _ _ H) as [Hin|(s & Hs & Hp)].
      * apply in_app_or in Hin. destruct Hin as [Hin|[<-|[]]].
        -- left. exact Hin.
        -- right. exists symbol. split; [left; reflexivity|exact E].
      * right. exists s. split; [right; exact Hs|exact Hp].
    + destruct (IH _ _ H) as [Hin|(s & Hs & Hp)].
      * left. exact Hin.
      * right. exists s. split; [right; exact Hs|exact Hp].
    + destruct (IH _ _ H) as [Hin|(s & Hs & Hp)].
      * left. exact Hin.
      * right. exists s. split; [right; exact Hs|exact Hp].
Qed.

Lemma scan_loop_nothing (config : ScanConfiguration) (symbols : list string) :
  (forall symbol row,
     process_symbol py_float now data_pipeline symbol config <> Ok (Some row)) ->
  forall results,
  scan_loop py_float now data_pipeline symbols config results = results.
Proof.
  intros Hnone. induction symbols as [|symbol symbols IH]; intros results.
  - reflexivity.
  - cbn [scan_loop].
    destruct (process_symbol py_float now data_pipeline symbol config)
      as [[r|]|e] eqn:E.
    + exfalso. exact (Hnone _ _ E).
    + apply IH.
    + apply IH.
Qed.





(** What the comparisons of the presets mean on numbers and on sectors. *)
Lemma apply_filter_gte (a b : Q) :
  _apply_filter (PNum a) (Scalar (PNum b)) "gte" = Ok true <-> b <= a.
Proof.
  cbn. rewrite <- Qle_bool_iff. split; [intros H; injection H; auto|intros ->; reflexivity].
Qed.

Lemma apply_filter_lte (a b : Q) :
  _apply_filter (PNum a) (Scalar (PNum b)) "lte" = Ok true <-> a <= b.
Proof.
  cbn. rewrite <- Qle_bool_iff. split; [intros H; injection H; auto|intros ->; reflexivity].
Qed.

Lemma apply_filter_in (sector : string) (sectors : list string) :
  _apply_filter (PStr sector) (Seq (map PStr sectors)) "in" = Ok true
  <-> In sector sectors.
Proof.
  cbn. split.
  - intros H. injection H as H. apply existsb_exists in H.
    destruct H as (v & Hv & Heq). apply in_map_iff in Hv.
    destruct Hv as (t & <- & Ht). simpl in Heq.
    apply String.eqb_eq in Heq. subst t. exact Ht.
  - intros H. f_equal. apply existsb_exists. exists (PStr sector). split.
    + apply in_map, H.
    + simpl. apply String.eqb_refl.
Qed.





End Scan.

(** On the sample universe the filters tell the rows apart as the scan
    does: among the rows of the unfiltered scan, the rows that satisfy
    both filters of the sample scan are the rows the sample scan returns.
    JNJ yields less than 3%, T pays out more than 80%, and REALTY has no
    payout ratio. *)
Lemma sample_rows_are_the_satisfying_rows (row : dict) :
  In row by_score_rows ->
  (forall f, In f (filters (yield_and_payout "gte")) ->
             row_satisfies no_float f row)
  <-> In row sample_rows.
Proof.
  intros Hin. split.
  - intros Hall.
    destruct (Hall _ (or_introl eq_refl)) as (c1 & a1 & Hc1 & Hv1 & _ & Hm1).
    destruct (Hall _ (or_intror (or_introl eq_refl)))
      as (c2 & a2 & Hc2 & Hv2 & Hn2 & Hm2).
    injection Hc1 as <-. injection Hc2 as <-.
    cbn [value operator yield_and_payout] in Hm1, Hm2.
    destruct Hin as [<-|[<-|[<-|[<-|[]]]]]; cbn in Hv1, Hv2; subst a1 a2.
    all: try (left; reflexivity).
    all: try (exfalso; inversion Hm1 as [w H| | | | | |]; vm_compute in H;
              apply H; reflexivity).
    all: try (exfalso; inversion Hm2 as [|w H| | | | |]; vm_compute in H;
              apply H; reflexivity).
    all: try (exfalso; apply Hn2; reflexivity).
  - intros [<-|[]] f [<-|[<-|[]]].
    + exists MIN_DIVIDEND_YIELD, (PNum 0.0315).
      split; [reflexivity|]. split; [reflexivity|]. split; [discriminate|].
      apply meets_gte. vm_compute. discriminate.
    + exists MAX_PAYOUT_RATIO, (PNum 0.75).
      split; [reflexivity|]. split; [reflexivity|]. split; [discriminate|].
      apply meets_lte. vm_compute. discriminate.
Qed.

End ScanFacts.

(** *** Claims on the scan engine *)

Module ScanClaims.
Import Engine ScanFacts.



(** C2, as the code has it: a filter with an operator outside the five or
    with a criterion outside the enumeration is never satisfied and raises
    nothing; with such a filter in the configuration no stock passes and
    the scan returns the empty result. *)
Theorem c2_invalid_filter_gives_empty_scan (py_float : string -> option Q)
    (now : datetime) (data_pipeline : DataPipeline) (symbols : list string)
    (config : ScanConfiguration) :
  (exists f, In f (filters config) /\ invalid_filter f) ->
  scan_stocks py_float now data_pipeline symbols config = Ok [].
Proof.
  intros (f & Hf & Hinvalid).
  assert (Hnone : forall symbol row,
            process_symbol py_float now data_pipeline symbol config
            <> Ok (Some row)).
  { intros symbol row Hp. apply process_symbol_row in Hp.
    destruct Hp as (sd & fm & dd & _ & Hpass & _).
    apply passes_filters_sound in Hpass. rewrite Forall_forall in Hpass.
    exact (invalid_not_satisfied py_float now f sd fm dd Hinvalid (Hpass f Hf)). }
  unfold scan_stocks.
  rewrite (scan_loop_nothing py_float now data_pipeline config symbols Hnone).
  reflexivity.
Qed.

Lemma c2_invalid_filter_gives_empty_scan_witness :
  (exists f, In f (filters (yield_and_payout "between")) /\ invalid_filter f)
  /\ scan_stocks no_float 0%Z mock_pipeline universe (yield_and_payout "between")
     = Ok [].
Proof.
  assert (H : exists f,
            In f (filters (yield_and_payout "between")) /\ invalid_filter f).
  { eexists. split; [left; reflexivity|]. left. simpl.
    intros [E|[E|[E|[E|[E|[]]]]]]; discriminate. }
  split; [exact H|].
  exact (c2_invalid_filter_gives_empty_scan no_float 0%Z mock_pipeline universe
           (yield_and_payout "between") H).
Defined.

(** C2 as stated fails: a scan whose filter has the operator "between",
    and a scan whose criterion is a bare string, return the empty result
    and raise nothing, where the same scan with the operator "gte" returns
    a row. *)
Lemma c2_invalid_filter_is_not_raised :
  scan_stocks no_float 0%Z mock_pipeline universe (yield_and_payout "between")
    = Ok []
  /\ scan_stocks no_float 0%Z mock_pipeline universe foreign_criterion = Ok []
  /\ scan_stocks no_float 0%Z mock_pipeline universe (yield_and_payout "gte")
     = Ok sample_rows
  /\ List.length sample_rows = 1%nat
  /\ forall e,
       scan_stocks no_float 0%Z mock_pipeline universe (yield_and_payout "between")
       <> Raise e.
Proof.
  split; [vm_compute; reflexivity|].
  split; [vm_compute; reflexivity|].
  split; [vm_compute; reflexivity|].
  split; [reflexivity|].
  intros e H. vm_compute in H. discriminate.
Qed.

End ScanClaims.

(** ** The backtester *)

Module BacktestFacts.
Import DividendBacktester.

Lemma filter_nothing {A : Type} (f : A -> bool) (l : list A) :
  (forall x, In x l -> f x = false) -> filter f l = [].
Proof.
  induction l as [|x l IH]; intros H; simpl.
  - reflexivity.
  - rewrite (H x (or_introl eq_refl)). apply IH.
    intros y Hy. apply H. right. exact Hy.
Qed.

(** Selling credits the cash with exactly what the valuation counted: both
    loops look at the same holdings, those with a qualified quote. *)
Lemma sell_cash_is_holdings_value (qualified : list Quote)
    (rebalance_date : datetime) (items : list (string * Z)) :
  forall (cash : Q) (transactions : list Transaction),
  fst (sell_holdings qualified rebalance_date items cash transactions)
  = holdings_value qualified items cash.
Proof.
  induction items as [|[sym shares] items IH]; intros cash transactions.
  - reflexivity.
  - cbn [sell_holdings holdings_value].
    destruct (price_in qualified sym); apply IH.
Qed.

(** A holding without a qualified quote adds nothing to the value and
    logs no sale. *)
Lemma unqualified_holding_ignored (qualified : list Quote)
    (rebalance_date : datetime) (sym : string) (shares : Z)
    (items : list (string * Z)) (cash : Q) (transactions : list Transaction) :
  price_in qualified sym = None ->
  holdings_value qualified ((sym, shares) :: items) cash
  = holdings_value qualified items cash
  /\ sell_holdings qualified rebalance_date ((sym, shares) :: items) cash
       transactions
     = sell_holdings qualified rebalance_date items cash transactions.
Proof.
  intros H. cbn [holdings_value sell_holdings]. rewrite H. split; reflexivity.
Qed.

End BacktestFacts.

(** *** Claims on the backtester *)

Module BacktestClaims.
Import DividendBacktester BacktestFacts.

(** C9: at a rebalance date where the latest yield of every symbol is
    below [min_yield], the rebalance returns the state it was given: cash,
    holdings, transaction log and value series are unchanged. *)
Theorem c9_no_qualifying_symbol_no_trade (historical_data : list Quote)
    (min_yield : Q) (rebalance_date : datetime) (st : State) :
  (forall q, In q (current_data historical_data rebalance_date) ->
             dividend_yield q < min_yield) ->
  rebalance historical_data min_yield rebalance_date st = Ok st.
Proof.
  intros Hbelow. unfold rebalance, qualified_stocks.
  rewrite filter_nothing; [reflexivity|].
  intros q Hq. apply Qle_bool_false_iff, Hbelow, Hq.
Qed.

Lemma c9_no_qualifying_symbol_no_trade_witness :
  (forall q, In q (current_data two_dates 2%Z) -> dividend_yield q < 0.10)
  /\ rebalance two_dates 0.10 2%Z holding_itc = Ok holding_itc.
Proof.
  assert (H : forall q, In q (current_data two_dates 2%Z) ->
                        dividend_yield q < 0.10).
  { intros q Hq. vm_compute in Hq.
    destruct Hq as [<-|[<-|[]]]; vm_compute; reflexivity. }
  split; [exact H|].
  exact (c9_no_qualifying_symbol_no_trade two_dates 0.10 2%Z holding_itc H).
Defined.

(** C1 at a holding whose yield fell below [min_yield] while another
    symbol qualifies: ten shares of ITC, bought on the first date and worth
    500 each on the second, count for nothing in the portfolio value, are
    not sold, and are gone from the holdings after the rebalance. *)
Theorem c1_unqualified_holding_is_dropped :
  exists st1 st2,
    rebalance two_dates 0.03 1%Z (initial_state 1000) = Ok st1
    /\ portfolio st1 = [("ITC", 10%Z)]
    /\ cash st1 == 0
    /\ map (fun q => (symbol q, price q)) (current_data two_dates 2%Z)
       = [("ITC", 500); ("TCS", 10)]
    /\ map symbol (qualified_stocks (current_data two_dates 2%Z) 0.03) = ["TCS"]
    /\ holdings_value (qualified_stocks (current_data two_dates 2%Z) 0.03)
         (portfolio st1) (cash st1) == 0
    /\ rebalance two_dates 0.03 2%Z st1 = Ok st2
    /\ filter is_sell (transactions st2) = []
    /\ portfolio st2 = [("TCS", 0%Z)]
    /\ cash st2 == 0
    /\ map portfolio_value (portfolio_values st2) = [1000; 0].
Proof.
  eexists. eexists.
  split; [vm_compute; reflexivity|].
  split; [reflexivity|].
  split; [vm_compute; reflexivity|].
  split; [vm_compute; reflexivity|].
  split; [vm_compute; reflexivity|].
  split; [vm_compute; reflexivity|].
  split; [vm_compute; reflexivity|].
  split; [reflexivity|].
  split; [reflexivity|].
  split; [vm_compute; reflexivity|].
  vm_compute. reflexivity.
Qed.

End BacktestClaims.

(** ** More on the scan engine *)

Module ScanMore.
Import Engine ScanFacts ScoreFacts.

(** On well-typed inputs the calculator returns, within its range. *)
Lemma health_score_returned (py_float : string -> option Q)
    (stock_data financial_metrics : dict) (dividend_data : list DividendRecord) :
  well_typed py_float stock_data financial_metrics ->
  exists score,
    calculate_health_score py_float stock_data financial_metrics dividend_data
      = Ok score
    /\ 0 <= score /\ score <= 100.
Proof.
  intros (Hy & Hps & Hpm & Hpe & Hde & Hroe & Hcov).
  destruct (yield_score_bounds py_float stock_data Hy) as (s1 & E1 & _).
  destruct (payout_score_bounds py_float stock_data financial_metrics Hps Hpm)
    as (s2 & E2 & _).
  destruct (financial_health_bounds financial_metrics Hpe Hde Hroe)
    as (s4 & E4 & _).
  destruct (coverage_score_bounds financial_metrics Hcov) as (s5 & E5 & _).
  assert (E : exists score,
            calculate_health_score py_float stock_data financial_metrics
              dividend_data = Ok score).
  { unfold calculate_health_score. rewrite E1, E2, E4, E5. cbn [bind].
    eexists. reflexivity. }
  destruct E as [score E]. exists score. split; [exact E|].
  exact (returned_health_score_in_range _ _ _ _ _ E).
Qed.

Section Scan.
Variable py_float : string -> option Q.
Variable now : datetime.
Variable data_pipeline : DataPipeline.

Lemma passes_filters_complete (stock_data financial_metrics : dict)
    (dividend_data : list DividendRecord) (fs : list ScanFilter) :
  Forall (fun f => satisfies py_float now f stock_data financial_metrics
                     dividend_data) fs ->
  _passes_filters py_float now stock_data financial_metrics dividend_data fs
    = Ok true.
Proof.
  induction 1 as [|f fs (v & Hv & Hnone & Happly) Hall IH].
  - reflexivity.
  - cbn [_passes_filters]. rewrite Hv. cbn [bind].
    destruct v; [contradiction| |]; rewrite Happly; cbn [bind negb]; exact IH.
Qed.

(** What a compiled row is made of. *)
Lemma process_symbol_compiled (symbol : string) (config : ScanConfiguration)
    (row : dict) :
  process_symbol py_float now data_pipeline symbol config = Ok (Some row) ->
  exists stock_data financial_metrics dividend_data health_score,
    retrieved data_pipeline symbol stock_data financial_metrics dividend_data
    /\ is_empty stock_data = false
    /\ _passes_filters py_float now stock_data financial_metrics dividend_data
         (filters config) = Ok true
    /\ calculate_health_score py_float stock_data financial_metrics
         dividend_data = Ok health_score
    /\ row = compile_result now symbol stock_data financial_metrics
               dividend_data health_score.
Proof.
  unfold process_symbol, retrieved. intros H.
  destruct (get_stock_data data_pipeline symbol) as [sd|] eqn:Esd;
    cbn [bind] in H; [|discriminate].
  destruct (get_financial_metrics data_pipeline symbol) as [fm|] eqn:Efm;
    cbn [bind] in H; [|discriminate].
  destruct (get_dividend_history data_pipeline symbol) as [dd|] eqn:Edd;
    cbn [bind] in H; [|discriminate].
  destruct sd as [sd|]; [|discriminate].
  destruct (is_empty sd) eqn:Eempty; [discriminate|].
  destruct (_passes_filters py_float now sd fm dd (filters config))
    as [passes|] eqn:Ep; cbn [bind] in H; [|discriminate].
  destruct passes; [|discriminate].
  destruct (calculate_health_score py_float sd fm dd) as [hs|] eqn:Ehs;
    cbn [bind] in H; [|discriminate].
  injection H as <-.
  exists sd, fm, dd, hs. repeat split; try assumption; reflexivity.
Qed.

Lemma process_symbol_passes (symbol : string) (config : ScanConfiguration)
    (stock_data financial_metrics : dict) (dividend_data : list DividendRecord)
    (health_score : Q) :
  retrieved data_pipeline symbol stock_data financial_metrics dividend_data ->
  is_empty stock_data = false ->
  _passes_filters py_float now stock_data financial_metrics dividend_data
    (filters config) = Ok true ->
  calculate_health_score py_float stock_data financial_metrics dividend_data
    = Ok health_score ->
  process_symbol py_float now data_pipeline symbol config
  = Ok (Some (compile_result now symbol stock_data financial_metrics
                dividend_data health_score)).
Proof.
  intros (Hsd & Hfm & Hdd) Hne Hpass Hscore. unfold process_symbol.
  rewrite Hsd, Hfm, Hdd. cbn [bind]. rewrite Hne, Hpass. cbn [bind].
  rewrite Hscore. reflexivity.
Qed.

Lemma unavailable_not_processed (symbol : string) (config : ScanConfiguration) :
  unavailable data_pipeline symbol ->
  forall row,
  process_symbol py_float now data_pipeline symbol config <> Ok (Some row).
Proof.
  intros Hu row Hp. apply process_symbol_compiled in Hp.
  destruct Hp as (sd & fm & dd & hs & (Hsd & Hfm & Hdd) & Hne & _).
  destruct Hu as [[e H]|[[e H]|[[e H]|[H|H]]]]; try congruence.
  rewrite H in Hsd. injection Hsd as <-. discriminate.
Qed.

Lemma scan_loop_results (config : ScanConfiguration) (symbols : list string) :
  forall results,
  scan_loop py_float now data_pipeline symbols config results
  = (results ++ scan_loop py_float now data_pipeline symbols config [])%list.
Proof.
  induction symbols as [|symbol symbols IH]; intros results.
  - cbn [scan_loop]. rewrite app_nil_r. reflexivity.
  - cbn [scan_loop].
    destruct (process_symbol py_float now data_pipeline symbol config)
      as [[r|]|e].
    + rewrite (IH (results ++ [r])%list), (IH ([] ++ [r])%list).
      rewrite <- app_assoc. reflexivity.
    + apply IH.
    + apply IH.
Qed.

Lemma scan_loop_app (config : ScanConfiguration) (l1 l2 : list string) :
  forall results,
  scan_loop py_float now data_pipeline (l1 ++ l2) config results
  = scan_loop py_float now data_pipeline l2 config
      (scan_loop py_float now data_pipeline l1 config results).
Proof.
  induction l1 as [|symbol l1 IH]; intros results.
  - reflexivity.
  - cbn [scan_loop app].
    destruct (process_symbol py_float now data_pipeline symbol config)
      as [[r|]|e]; apply IH.
Qed.

Lemma scan_loop_length (config : ScanConfiguration) (symbols : list string) :
  forall results,
  (List.length (scan_loop py_float now data_pipeline symbols config results)
   <= List.length results + List.length symbols)%nat.
Proof.
  induction symbols as [|symbol symbols IH]; intros results.
  - cbn [scan_loop]. simpl. lia.
  - cbn [scan_loop].
    destruct (process_symbol py_float now data_pipeline symbol config)
      as [[r|]|e].
    + specialize (IH (results ++ [r])%list). rewrite length_app in IH.
      simpl in *. lia.
    + specialize (IH results). simpl. lia.
    + specialize (IH results). simpl. lia.
Qed.

(** A symbol that passes leaves its row in the results of the loop. *)
Lemma scan_loop_keeps (config : ScanConfiguration) (symbols : list string)
    (symbol : string) (row : dict) :
  In symbol symbols ->
  process_symbol py_float now data_pipeline symbol config = Ok (Some row) ->
  forall results,
  In row (scan_loop py_float now data_pipeline symbols config results).
Proof.
  intros Hin Hp results. apply in_split in Hin.
  destruct Hin as (l1 & l2 & ->).
  rewrite scan_loop_app. cbn [scan_loop]. rewrite Hp.
  rewrite scan_loop_results. apply in_or_app. left.
  apply in_or_app. right. left. reflexivity.
Qed.

Lemma sort_values_perm (df df' : list dict) (by_ : string) (ascending : bool) :
  sort_values df by_ ascending = Ok df' -> Permutation df df'.
Proof.
  unfold sort_values. intros H.
  destruct (negb (forallb _ df)); [discriminate|].
  destruct (existsb _ _ && existsb _ _); [discriminate|].
  injection H as <-.
  set (cell := fun r => get r by_).
  assert (Hsplit : Permutation df
            (filter (fun r => negb (is_none (cell r))) df
             ++ filter (fun r => is_none (cell r)) df)).
  { clear. induction df as [|r df IH]; simpl.
    - apply perm_nil.
    - destruct (is_none (cell r)); simpl.
      + apply Permutation_cons_app, IH.
      + apply perm_skip, IH. }
  eapply perm_trans; [exact Hsplit|].
  apply Permutation_app_tail.
  destruct ascending.
  - apply sort_perm.
  - eapply perm_trans; [apply Permutation_rev|].
    eapply perm_trans; [apply sort_perm|]. apply Permutation_rev.
Qed.

Lemma head_length (n : Z) (df : list dict) :
  (List.length (head n df) <= List.length df)%nat
  /\ ((0 < n)%Z -> (Z.of_nat (List.length (head n df)) <= n)%Z).
Proof.
  unfold head. destruct (0 <=? n)%Z eqn:E.
  - rewrite length_firstn. split; [lia|]. intros Hn. lia.
  - apply Z.leb_gt in E. rewrite length_firstn. split; [lia|]. intros Hn. lia.
Qed.

Lemma scan_loop_compiled (config : ScanConfiguration) (symbols : list string)
    (row : dict) :
  In row (scan_loop py_float now data_pipeline symbols config []) ->
  exists symbol stock_data financial_metrics dividend_data health_score,
    In symbol symbols
    /\ process_symbol py_float now data_pipeline symbol config = Ok (Some row)
    /\ row = compile_result now symbol stock_data financial_metrics
               dividend_data health_score.
Proof.
  intros H. apply scan_loop_In in H. destruct H as [[]|(symbol & Hs & Hp)].
  destruct (process_symbol_compiled symbol config row Hp)
    as (sd & fm & dd & hs & _ & _ & _ & _ & Hrow).
  exists symbol, sd, fm, dd, hs. repeat split; assumption.
Qed.

Lemma compiled_has_key (symbol : string) (stock_data financial_metrics : dict)
    (dividend_data : list DividendRecord) (health_score : Q) (k : string) :
  has_key (compile_result now symbol stock_data financial_metrics dividend_data
             health_score) k
  = existsb (String.eqb k) columns.
Proof. reflexivity. Qed.

Lemma compiled_computed_column (symbol : string)
    (stock_data financial_metrics : dict) (dividend_data : list DividendRecord)
    (health_score : Q) (k : string) :
  In k computed_columns ->
  exists x,
    get (compile_result now symbol stock_data financial_metrics dividend_data
           health_score) k = PNum x.
Proof.
  intros [<-|[<-|[]]]; eexists; reflexivity.
Qed.

End Scan.

End ScanMore.

(** ** The stable sort under an order that is total and transitive on the
    elements of the list *)

Section SortOn.
Context {A : Type} (leb : A -> A -> bool) (P : A -> Prop).
Hypothesis leb_total :
  forall a b, P a -> P b -> leb a b = false -> leb b a = true.
Hypothesis leb_trans :
  forall a b c, P a -> P b -> P c ->
  leb a b = true -> leb b c = true -> leb a c = true.

Lemma insert_sorted_on (x : A) (l : list A) :
  P x -> Forall P l ->
  StronglySorted (fun a b => leb a b = true) l ->
  StronglySorted (fun a b => leb a b = true) (insert leb x l).
Proof.
  intros Hx HP Hs. induction Hs as [|h t Hs IH Hall]; simpl.
  - constructor; constructor.
  - inversion HP as [|h' t' Hh Ht]; subst.
    destruct (leb x h) eqn:E.
    + constructor; [constructor; assumption|].
      constructor; [exact E|].
      rewrite Forall_forall in *. intros y Hy.
      apply (leb_trans x h y); auto.
    + constructor; [apply IH, Ht|].
      eapply Permutation_Forall; [apply insert_perm|].
      constructor; [apply leb_total; assumption|exact Hall].
Qed.

Lemma sort_sorted_on (l : list A) :
  Forall P l -> StronglySorted (fun a b => leb a b = true) (sort leb l).
Proof.
  induction 1 as [|h t Hh Ht IH]; simpl.
  - constructor.
  - apply insert_sorted_on; [exact Hh| |exact IH].
    eapply Permutation_Forall; [apply sort_perm|exact Ht].
Qed.

End SortOn.

Lemma StronglySorted_impl_on {A : Type} (R R' : A -> A -> Prop) (P : A -> Prop)
    (l : list A) :
  (forall a b, P a -> P b -> R a b -> R' a b) ->
  Forall P l -> StronglySorted R l -> StronglySorted R' l.
Proof.
  intros Himpl HP Hs. induction Hs as [|h t Hs IH Hall].
  - constructor.
  - inversion HP as [|h' t' Hh Ht]; subst.
    constructor; [apply IH, Ht|].
    rewrite Forall_forall in *. intros y Hy. apply Himpl; auto.
Qed.

Lemma StronglySorted_snoc {A : Type} (R : A -> A -> Prop) (l : list A) (x : A) :
  StronglySorted R l -> Forall (fun y => R y x) l ->
  StronglySorted R (l ++ [x]).
Proof.
  induction 1 as [|h t Hs IH Hall]; intros Hx; simpl.
  - constructor; constructor.
  - inversion Hx as [|h' t' Hhx Htx]; subst.
    constructor; [apply IH, Htx|].
    apply Forall_app. split; [exact Hall|]. constructor; [exact Hhx|constructor].
Qed.

Lemma StronglySorted_rev {A : Type} (R : A -> A -> Prop) (l : list A) :
  StronglySorted R l -> StronglySorted (fun a b => R b a) (rev l).
Proof.
  induction 1 as [|h t Hs IH Hall]; simpl.
  - constructor.
  - apply StronglySorted_snoc; [exact IH|].
    apply Forall_rev. exact Hall.
Qed.

Lemma StronglySorted_firstn {A : Type} (R : A -> A -> Prop) (n : nat)
    (l : list A) :
  StronglySorted R l -> StronglySorted R (firstn n l).
Proof.
  intros Hs. revert n. induction Hs as [|h t Hs IH Hall]; intros [|n]; simpl;
    try constructor.
  - apply IH.
  - rewrite Forall_forall in *. intros y Hy. apply Hall.
    rewrite <- (firstn_skipn n t). apply in_or_app. left. exact Hy.
Qed.

(** *** Further properties of the scan engine *)

Module ScanExtras.
Import Engine ScanFacts ScoreFacts ScanMore.

(** X1: [_passes_filters] answers [True] exactly when every filter of the
    list is satisfied: the filters are a conjunction, and no filter that
    is satisfied can make the check raise or fail. *)
Theorem x1_passes_filters_iff_all_satisfied (py_float : string -> option Q)
    (now : datetime) (stock_data financial_metrics : dict)
    (dividend_data : list DividendRecord) (fs : list ScanFilter) :
  _passes_filters py_float now stock_data financial_metrics dividend_data fs
    = Ok true
  <-> Forall (fun f => satisfies py_float now f stock_data financial_metrics
                         dividend_data) fs.
Proof.
  split; [apply passes_filters_sound|apply passes_filters_complete].
Qed.

(** X2: no false negatives. In a scan without a limit, a symbol of the
    universe that was retrieved with a non-empty snapshot, whose data
    satisfies every filter and is typed as the data model has it, has a
    row in the output, and the row carries a health score between 0 and
    100. *)
Theorem x2_passing_stock_is_in_the_output (py_float : string -> option Q)
    (now : datetime) (data_pipeline : DataPipeline) (symbols : list string)
    (config : ScanConfiguration) (rows : list dict) (symbol : string)
    (stock_data financial_metrics : dict) (dividend_data : list DividendRecord) :
  scan_stocks py_float now data_pipeline symbols config = Ok rows ->
  limit config = None ->
  In symbol symbols ->
  retrieved data_pipeline symbol stock_data financial_metrics dividend_data ->
  stock_data <> [] ->
  Forall (fun f => satisfies py_float now f stock_data financial_metrics
                     dividend_data) (filters config) ->
  well_typed py_float stock_data financial_metrics ->
  exists row score,
    In row rows
    /\ get row "symbol" = PStr symbol
    /\ get row "dividend_health_score" = PNum score
    /\ 0 <= score /\ score <= 100.
Proof.
  intros Hscan Hlimit Hin Hret Hne Hall Htyped.
  destruct (health_score_returned py_float stock_data financial_metrics
              dividend_data Htyped) as (score & Hscore & Hlo & Hhi).
  assert (Hempty : is_empty stock_data = false)
    by (destruct stock_data; [contradiction|reflexivity]).
  pose proof (process_symbol_passes py_float now data_pipeline symbol config
                stock_data financial_metrics dividend_data score Hret Hempty
                (passes_filters_complete _ _ _ _ _ _ Hall) Hscore) as Hp.
  pose proof (scan_loop_keeps py_float now data_pipeline config symbols symbol
                _ Hin Hp []) as Hloop.
  exists (compile_result now symbol stock_data financial_metrics dividend_data
            score), score.
  split; [|repeat split; assumption].
  unfold scan_stocks in Hscan. rewrite Hlimit in Hscan.
  destruct (is_empty _) eqn:E.
  - injection Hscan as <-. exact Hloop.
  - destruct (sort_values _ (sort_by config) _) as [df|] eqn:Es;
      cbn [bind] in Hscan; [|discriminate].
    injection Hscan as <-.
    eapply Permutation_in; [apply (sort_values_perm _ _ _ _ Es)|exact Hloop].
Qed.

Lemma x2_passing_stock_is_in_the_output_witness :
  (scan_stocks no_float 0%Z mock_pipeline universe (yield_and_payout "gte")
     = Ok sample_rows
   /\ limit (yield_and_payout "gte") = None
   /\ In "KO" universe
   /\ retrieved mock_pipeline "KO" ko (scenario_b_metrics 1.45) growing_history
   /\ ko <> []
   /\ Forall (fun f => satisfies no_float 0%Z f ko (scenario_b_metrics 1.45)
                         growing_history)
        (filters (yield_and_payout "gte"))
   /\ well_typed no_float ko (scenario_b_metrics 1.45))
  /\ exists row score,
       In row sample_rows
       /\ get row "symbol" = PStr "KO"
       /\ get row "dividend_health_score" = PNum score
       /\ 0 <= score /\ score <= 100.
Proof.
  assert (H1 : scan_stocks no_float 0%Z mock_pipeline universe
                 (yield_and_payout "gte") = Ok sample_rows)
    by (vm_compute; reflexivity).
  assert (H3 : In "KO" universe) by (right; left; reflexivity).
  assert (H4 : retrieved mock_pipeline "KO" ko (scenario_b_metrics 1.45)
                 growing_history) by (repeat split).
  assert (H5 : ko <> []) by discriminate.
  assert (H6 : Forall (fun f => satisfies no_float 0%Z f ko
                                  (scenario_b_metrics 1.45) growing_history)
                 (filters (yield_and_payout "gte"))).
  { repeat constructor; eexists;
      (split; [reflexivity|split; [discriminate|vm_compute; reflexivity]]). }
  assert (H7 : well_typed no_float ko (scenario_b_metrics 1.45))
    by (repeat split).
  split; [repeat split; assumption|].
  exact (x2_passing_stock_is_in_the_output no_float 0%Z mock_pipeline universe
           (yield_and_payout "gte") sample_rows "KO" ko
           (scenario_b_metrics 1.45) growing_history H1 eq_refl H3 H4 H5 H6 H7).
Defined.

(** X3: partial-failure tolerance. A symbol whose retrieval raises, or
    that has no snapshot, changes nothing: the scan of a universe with the
    symbol is the scan of the universe without it. *)
Theorem x3_unavailable_symbol_is_skipped (py_float : string -> option Q)
    (now : datetime) (data_pipeline : DataPipeline) (before after : list string)
    (symbol : string) (config : ScanConfiguration) :
  unavailable data_pipeline symbol ->
  scan_stocks py_float now data_pipeline (before ++ symbol :: after) config
  = scan_stocks py_float now data_pipeline (before ++ after) config.
Proof.
  intros Hu. unfold scan_stocks.
  rewrite !scan_loop_app. cbn [scan_loop].
  pose proof (unavailable_not_processed py_float now data_pipeline symbol
                config Hu) as Hnone.
  destruct (process_symbol py_float now data_pipeline symbol config)
    as [[r|]|e]; [exfalso; exact (Hnone r eq_refl)|reflexivity|reflexivity].
Qed.

Lemma x3_unavailable_symbol_is_skipped_witness :
  unavailable flaky_pipeline "T"
  /\ scan_stocks no_float 0%Z flaky_pipeline (["JNJ"; "KO"] ++ "T" :: ["REALTY"])
       top_two
     = scan_stocks no_float 0%Z flaky_pipeline (["JNJ"; "KO"] ++ ["REALTY"])
         top_two.
Proof.
  assert (H : unavailable flaky_pipeline "T")
    by (left; exists RetrievalError; reflexivity).
  split; [exact H|].
  exact (x3_unavailable_symbol_is_skipped no_float 0%Z flaky_pipeline
           ["JNJ"; "KO"] ["REALTY"] "T" top_two H).
Defined.

(** X4: the output never has more rows than the universe has symbols, and
    with a positive limit never more rows than the limit. *)
Theorem x4_scan_output_size (py_float : string -> option Q) (now : datetime)
    (data_pipeline : DataPipeline) (symbols : list string)
    (config : ScanConfiguration) (rows : list dict) :
  scan_stocks py_float now data_pipeline symbols config = Ok rows ->
  (List.length rows <= List.length symbols)%nat
  /\ (forall n, limit config = Some n -> (0 < n)%Z ->
                (Z.of_nat (List.length rows) <= n)%Z).
Proof.
  unfold scan_stocks. intros H.
  pose proof (scan_loop_length py_float now data_pipeline config symbols [])
    as Hlen. simpl in Hlen.
  destruct (is_empty _) eqn:E.
  - injection H as <-.
    destruct (scan_loop py_float now data_pipeline symbols config []);
      [|discriminate].
    simpl. split; [lia|]. intros n _ Hn. lia.
  - destruct (sort_values _ (sort_by config) _) as [df|] eqn:Es;
      cbn [bind] in H; [|discriminate].
    injection H as <-.
    pose proof (Permutation_length (sort_values_perm _ _ _ _ Es)) as Hperm.
    destruct (limit config) as [n|].
    + destruct (n =? 0)%Z eqn:En.
      * apply Z.eqb_eq in En. split; [lia|]. intros m Hm Hpos.
        injection Hm as <-. lia.
      * destruct (head_length n df) as [Hle Hcut]. split; [lia|].
        intros m Hm Hpos. injection Hm as <-. apply Hcut, Hpos.
    + split; [lia|]. intros m Hm. discriminate.
Qed.

Lemma x4_scan_output_size_witness :
  scan_stocks no_float 0%Z mock_pipeline universe top_two = Ok top_two_rows
  /\ (List.length top_two_rows <= List.length universe)%nat
  /\ (forall n, limit top_two = Some n -> (0 < n)%Z ->
                (Z.of_nat (List.length top_two_rows) <= n)%Z).
Proof.
  assert (H : scan_stocks no_float 0%Z mock_pipeline universe top_two
              = Ok top_two_rows) by (vm_compute; reflexivity).
  split; [exact H|].
  exact (x4_scan_output_size no_float 0%Z mock_pipeline universe top_two
           top_two_rows H).
Defined.

Lemma in_columns (k : string) :
  existsb (String.eqb k) columns = true <-> In k columns.
Proof.
  rewrite existsb_exists. split.
  - intros (c & Hc & E). apply String.eqb_eq in E. subst c. exact Hc.
  - intros H. exists k. split; [exact H|apply String.eqb_refl].
Qed.

(** X5: a [sort_by] that names no column of the rows raises [KeyError]
    exactly when at least one stock passed: with no passing stock the
    scan returns before it sorts, and the bad column goes unnoticed. *)
Theorem x5_unknown_sort_column_raises_when_rows_exist
    (py_float : string -> option Q) (now : datetime)
    (data_pipeline : DataPipeline) (symbols : list string)
    (config : ScanConfiguration) :
  scan_stocks py_float now data_pipeline symbols config = Raise KeyError
  <-> ~ In (sort_by config) columns
      /\ exists symbol row,
           In symbol symbols
           /\ process_symbol py_float now data_pipeline symbol config
              = Ok (Some row).
Proof.
  unfold scan_stocks.
  set (results := scan_loop py_float now data_pipeline symbols config []).
  assert (Hkey : forall row, In row results ->
            has_key row (sort_by config)
            = existsb (String.eqb (sort_by config)) columns).
  { intros row Hrow.
    destruct (scan_loop_compiled py_float now data_pipeline config symbols row
                Hrow) as (s & sd & fm & dd & hs & _ & _ & ->).
    apply compiled_has_key. }
  split.
  - intros H. destruct results as [|r0 rest] eqn:Eres; [discriminate|].
    cbn [is_empty] in H. unfold sort_values in H.
    destruct (forallb _ (r0 :: rest)) eqn:Eall; cbn [negb] in H.
    + exfalso.
      destruct (existsb _ _ && existsb _ _); cbn [bind] in H; discriminate.
    + split.
      * intros Hin. apply in_columns in Hin.
        assert (forallb (fun r => has_key r (sort_by config)) (r0 :: rest) = true).
        { apply forallb_forall. intros r Hr. rewrite Hkey by exact Hr.
          exact Hin. }
        congruence.
      * assert (Hr0 : In r0 results) by (rewrite Eres; left; reflexivity).
        destruct (scan_loop_compiled py_float now data_pipeline config symbols
                    r0 Hr0) as (s & _ & _ & _ & _ & Hs & Hp & _).
        exists s, r0. split; assumption.
  - intros (Hcol & s & row & Hs & Hp).
    pose proof (scan_loop_keeps py_float now data_pipeline config symbols s row
                  Hs Hp []) as Hrow.
    fold results in Hrow.
    destruct results as [|r0 rest] eqn:Eres; [destruct Hrow|].
    cbn [is_empty]. unfold sort_values.
    assert (Hall : forallb (fun r => has_key r (sort_by config)) (r0 :: rest)
                   = false).
    { cbn [forallb]. rewrite Hkey by (left; reflexivity).
      destruct (existsb (String.eqb (sort_by config)) columns) eqn:E;
        [|reflexivity].
      exfalso. apply Hcol, in_columns, E. }
    rewrite Hall. reflexivity.
Qed.

(** X6: a scan sorted by a column the engine computes itself (the health
    score or the years of growth) returns its rows in the order of that
    column: ascending when [sort_order] is "asc", descending otherwise,
    with or without a limit. *)
Theorem x6_scan_is_sorted_by_computed_column (py_float : string -> option Q)
    (now : datetime) (data_pipeline : DataPipeline) (symbols : list string)
    (config : ScanConfiguration) (rows : list dict) :
  scan_stocks py_float now data_pipeline symbols config = Ok rows ->
  In (sort_by config) computed_columns ->
  StronglySorted
    (in_order (sort_by config) (String.eqb (sort_order config) "asc")) rows.
Proof.
  unfold scan_stocks. intros H Hcol.
  set (results := scan_loop py_float now data_pipeline symbols config []) in *.
  set (by_ := sort_by config) in *.
  set (P := fun r : dict => exists x, get r by_ = PNum x).
  assert (Hnum : forall r, In r results -> P r).
  { intros r Hr.
    destruct (scan_loop_compiled py_float now data_pipeline config symbols r Hr)
      as (s & sd & fm & dd & hs & _ & _ & ->).
    apply compiled_computed_column, Hcol. }
  destruct (is_empty results) eqn:Eempty.
  - injection H as <-. destruct results; [constructor|discriminate].
  - destruct (sort_values results by_ _) as [df|] eqn:Es; cbn [bind] in H;
      [|discriminate].
    assert (Hdf : StronglySorted
                    (in_order by_ (String.eqb (sort_order config) "asc")) df).
    { unfold sort_values in Es.
      destruct (negb (forallb _ results)); [discriminate|].
      destruct (existsb _ _ && existsb _ _); [discriminate|].
      injection Es as <-.
      rewrite (BacktestFacts.filter_nothing (fun r => is_none (get r by_))).
      2:{ intros r Hr. destruct (Hnum r Hr) as [x ->]. reflexivity. }
      rewrite app_nil_r.
      set (present := filter (fun r => negb (is_none (get r by_))) results).
      assert (Hpresent : Forall P present).
      { apply Forall_forall. intros r Hr. apply filter_In in Hr.
        apply Hnum. tauto. }
      set (leb := fun a b : dict => cell_leb (get a by_) (get b by_)).
      assert (Htotal : forall a b, P a -> P b -> leb a b = false -> leb b a = true).
      { intros a b [x Hx] [y Hy]. unfold leb. rewrite Hx, Hy. cbn [cell_leb].
        intros E. apply Qle_bool_false_iff in E. apply Qle_bool_iff.
        apply Qlt_le_weak, E. }
      assert (Htrans : forall a b c, P a -> P b -> P c ->
                leb a b = true -> leb b c = true -> leb a c = true).
      { intros a b c [x Hx] [y Hy] [z Hz]. unfold leb. rewrite Hx, Hy, Hz.
        cbn [cell_leb]. rewrite !Qle_bool_iff. apply Qle_trans. }
      destruct (String.eqb (sort_order config) "asc").
      - apply (StronglySorted_impl_on (fun a b => leb a b = true) _ P).
        + intros a b [x Hx] [y Hy] E. exists x, y. unfold leb in E.
          rewrite Hx, Hy in E. cbn [cell_leb] in E. apply Qle_bool_iff in E.
          repeat split; assumption.
        + eapply Permutation_Forall; [apply sort_perm|exact Hpresent].
        + apply (sort_sorted_on leb P Htotal Htrans), Hpresent.
      - apply (StronglySorted_impl_on (fun a b => leb b a = true) _ P).
        + intros a b [x Hx] [y Hy] E. exists x, y. unfold leb in E.
          rewrite Hx, Hy in E. cbn [cell_leb] in E. apply Qle_bool_iff in E.
          repeat split; assumption.
        + apply Forall_rev.
          eapply Permutation_Forall; [apply sort_perm|].
          apply Forall_rev, Hpresent.
        + apply (StronglySorted_rev (fun a b => leb a b = true)).
          apply (sort_sorted_on leb P Htotal Htrans).
          apply Forall_rev, Hpresent. }
    injection H as <-.
    destruct (limit config) as [n|]; [|exact Hdf].
    destruct (n =? 0)%Z; [exact Hdf|].
    unfold head. destruct (0 <=? n)%Z; apply StronglySorted_firstn, Hdf.
Qed.

Lemma x6_scan_is_sorted_by_computed_column_witness :
  (scan_stocks no_float 0%Z mock_pipeline universe by_score = Ok by_score_rows
   /\ In (sort_by by_score) computed_columns)
  /\ StronglySorted
       (in_order (sort_by by_score) (String.eqb (sort_order by_score) "asc"))
       by_score_rows.
Proof.
  assert (H : scan_stocks no_float 0%Z mock_pipeline universe by_score
              = Ok by_score_rows) by (vm_compute; reflexivity).
  assert (Hc : In (sort_by by_score) computed_columns) by (left; reflexivity).
  split; [split; assumption|].
  exact (x6_scan_is_sorted_by_computed_column no_float 0%Z mock_pipeline
           universe by_score by_score_rows H Hc).
Defined.

End ScanExtras.

(** ** More on the health score *)

Module ScoreMore.
Import Engine ScoreFacts.

Ltac to_Q :=
  repeat match goal with
         | H : Qle_bool _ _ = true |- _ => apply Qle_bool_iff in H
         | H : Qle_bool _ _ = false |- _ => apply Qle_bool_false_iff in H
         | H : Qlt_bool _ _ = true |- _ => apply Qlt_bool_iff in H
         | H : Qlt_bool _ _ = false |- _ => apply Qlt_bool_false_iff in H
         | H : Qeq_bool _ _ = true |- _ => apply Qeq_bool_iff in H
         | H : Qeq_bool _ _ = false |- _ => apply Qeq_bool_neq in H
         end.

(** Splits on the tests met in [H], keeping what each branch knows. *)
Ltac split_tests_in H :=
  unfold and_then, chain, bind, py_ge, py_gt in H;
  cbn [truthy negb py_le py_lt] in H;
  repeat (match type of H with
          | context [Qeq_bool ?a ?b] => destruct (Qeq_bool a b) eqn:?
          | context [Qle_bool ?a ?b] => destruct (Qle_bool a b) eqn:?
          | context [Qlt_bool ?a ?b] => destruct (Qlt_bool a b) eqn:?
          | context [String.eqb ?a ?b] => destruct (String.eqb a b)
          end;
          cbn [negb] in H);
  try discriminate H.

Ltac returned_within H :=
  split_tests_in H; injection H as <-; split; lra.

Lemma yield_score_range (py_float : string -> option Q) (stock_data : dict)
    (s : Q) :
  yield_score py_float stock_data = Ok s -> 0 <= s /\ s <= 20.
Proof.
  unfold yield_score. intros H.
  destruct (unstring py_float _) as [[|q|str]|e]; cbn [bind] in H;
    returned_within H.
Qed.

Lemma payout_score_range (py_float : string -> option Q)
    (stock_data financial_metrics : dict) (s : Q) :
  payout_score py_float stock_data financial_metrics = Ok s ->
  0 <= s /\ s <= 25.
Proof.
  unfold payout_score. intros H.
  destruct (truthy _); [|injection H as <-; split; lra].
  destruct (unstring py_float _) as [[|q|str]|e]; cbn [bind] in H;
    returned_within H.
Qed.

Lemma financial_health_range (financial_metrics : dict) (s : Q) :
  financial_health financial_metrics = Ok s -> 0 <= s /\ s <= 20.
Proof.
  unfold financial_health. intros H.
  destruct (get financial_metrics "pe_ratio") as [|pe|pe];
    destruct (get financial_metrics "debt_to_equity") as [|de|de];
    destruct (get financial_metrics "return_on_equity") as [|roe|roe];
    returned_within H.
Qed.

Lemma coverage_score_range (financial_metrics : dict) (s : Q) :
  coverage_score financial_metrics = Ok s -> 0 <= s /\ s <= 15.
Proof.
  unfold coverage_score. intros H.
  destruct (get financial_metrics "dividend_coverage_ratio") as [|c|c];
    returned_within H.
Qed.

Lemma count_if_le {A : Type} (p : A -> bool) (l : list A) :
  (count_if p l <= List.length l)%nat.
Proof. unfold count_if. apply filter_length_le. Qed.

Lemma of_nat_le (a b : nat) : (a <= b)%nat -> of_nat a <= of_nat b.
Proof. intros H. unfold of_nat, Qle. simpl. lia. Qed.

Lemma of_nat_pos (n : nat) : (0 < n)%nat -> 0 < of_nat n.
Proof. intros H. unfold of_nat, Qlt. simpl. lia. Qed.

Lemma growth_score_range (dividend_data : list DividendRecord) :
  0 <= growth_score dividend_data /\ growth_score dividend_data <= 20.
Proof.
  split; [apply growth_score_bounds|].
  unfold growth_score.
  destruct (negb (is_empty dividend_data)); [|lra].
  destruct (3 <=? _)%nat eqn:E; [|lra].
  apply Nat.leb_le in E.
  set (g := dropna (map dividend_growth_rate dividend_data)) in *.
  assert (Hfrac : of_nat (count_if (fun r => Qlt_bool 0 r) g)
                  / of_nat (List.length g) <= 1).
  { apply Qle_shift_div_r; [apply of_nat_pos; lia|].
    rewrite Qmult_1_l. apply of_nat_le, count_if_le. }
  lra.
Qed.

Lemma py_min_id (a b : Q) : a <= b -> py_min a b = a.
Proof.
  intros H. unfold py_min. destruct (Qlt_bool b a) eqn:E; [|reflexivity].
  apply Qlt_bool_iff in E. exfalso. exact (Qlt_not_le _ _ E H).
Qed.

Lemma py_min_mono_l (a b c : Q) : a <= b -> py_min a c <= py_min b c.
Proof.
  intros H. unfold py_min.
  destruct (Qlt_bool c a) eqn:Ea, (Qlt_bool c b) eqn:Eb; to_Q; lra.
Qed.

End ScoreMore.

(** *** Further properties of the health score *)

Module ScoreExtras.
Import Engine ScoreFacts ScoreMore.

(** X7: a returned health score is the plain sum of its five components,
    each within its cap (20, 25, 20, 20 and 15 points); the final
    [min(score, 100)] never cuts anything. *)
Theorem x7_health_score_is_sum_of_capped_components
    (py_float : string -> option Q) (stock_data financial_metrics : dict)
    (dividend_data : list DividendRecord) (score : Q) :
  calculate_health_score py_float stock_data financial_metrics dividend_data
    = Ok score ->
  exists s1 s2 s4 s5,
    yield_score py_float stock_data = Ok s1
    /\ payout_score py_float stock_data financial_metrics = Ok s2
    /\ financial_health financial_metrics = Ok s4
    /\ coverage_score financial_metrics = Ok s5
    /\ score = 0 + s1 + s2 + growth_score dividend_data + s4 + s5
    /\ (0 <= s1 /\ s1 <= 20)
    /\ (0 <= s2 /\ s2 <= 25)
    /\ (0 <= growth_score dividend_data /\ growth_score dividend_data <= 20)
    /\ (0 <= s4 /\ s4 <= 20)
    /\ (0 <= s5 /\ s5 <= 15).
Proof.
  unfold calculate_health_score. intros H.
  destruct (yield_score py_float stock_data) as [s1|] eqn:E1;
    cbn [bind] in H; [|discriminate].
  destruct (payout_score py_float stock_data financial_metrics) as [s2|] eqn:E2;
    cbn [bind] in H; [|discriminate].
  destruct (financial_health financial_metrics) as [s4|] eqn:E4;
    cbn [bind] in H; [|discriminate].
  destruct (coverage_score financial_metrics) as [s5|] eqn:E5;
    cbn [bind] in H; [|discriminate].
  injection H as <-.
  pose proof (yield_score_range _ _ _ E1) as R1.
  pose proof (payout_score_range _ _ _ _ E2) as R2.
  pose proof (growth_score_range dividend_data) as R3.
  pose proof (financial_health_range _ _ E4) as R4.
  pose proof (coverage_score_range _ _ E5) as R5.
  exists s1, s2, s4, s5. repeat split; try tauto.
  apply py_min_id. lra.
Qed.

Lemma x7_health_score_is_sum_of_capped_components_witness :
  exists score,
    calculate_health_score no_float scenario_b_stock (scenario_b_metrics 0.3)
      growing_history = Ok score
    /\ exists s1 s2 s4 s5,
         yield_score no_float scenario_b_stock = Ok s1
         /\ payout_score no_float scenario_b_stock (scenario_b_metrics 0.3) = Ok s2
         /\ financial_health (scenario_b_metrics 0.3) = Ok s4
         /\ coverage_score (scenario_b_metrics 0.3) = Ok s5
         /\ score = 0 + s1 + s2 + growth_score growing_history + s4 + s5
         /\ (0 <= s1 /\ s1 <= 20)
         /\ (0 <= s2 /\ s2 <= 25)
         /\ (0 <= growth_score growing_history
             /\ growth_score growing_history <= 20)
         /\ (0 <= s4 /\ s4 <= 20)
         /\ (0 <= s5 /\ s5 <= 15).
Proof.
  eexists. split; [vm_compute; reflexivity|].
  apply (x7_health_score_is_sum_of_capped_components no_float scenario_b_stock
           (scenario_b_metrics 0.3) growing_history).
  vm_compute. reflexivity.
Defined.

Lemma yield_score_of_zero (py_float : string -> option Q) (x : Q)
    (rest : dict) :
  x == 0 ->
  yield_score py_float (("dividend_yield", PNum x) :: rest) = Ok 0.
Proof.
  intros Hx. unfold yield_score. cbn [get_default String.eqb Ascii.eqb Bool.eqb].
  unfold py_or. cbn [truthy].
  assert (E : Qeq_bool x 0 = true) by (apply Qeq_bool_iff, Hx).
  rewrite E. reflexivity.
Qed.

(** X8: a dividend yield given as a percent string scores like the
    fraction it stands for, and is filtered like it: when [float] reads
    the string without its percent signs as [q], the snapshot with the
    string and the snapshot with the number [q / 100] get the same health
    score and the same value for the yield filters. *)
Theorem x8_percent_string_yield_is_its_fraction
    (py_float : string -> option Q) (now : datetime) (s : string) (q : Q)
    (rest financial_metrics : dict) (dividend_data : list DividendRecord) :
  py_float (strip_percent s) = Some q ->
  s <> EmptyString ->
  calculate_health_score py_float (("dividend_yield", PStr s) :: rest)
    financial_metrics dividend_data
  = calculate_health_score py_float (("dividend_yield", PNum (q / 100)) :: rest)
      financial_metrics dividend_data
  /\ _get_filter_value py_float now (Member MIN_DIVIDEND_YIELD)
       (("dividend_yield", PStr s) :: rest) financial_metrics dividend_data
     = _get_filter_value py_float now (Member MIN_DIVIDEND_YIELD)
         (("dividend_yield", PNum (q / 100)) :: rest) financial_metrics
         dividend_data
  /\ _get_filter_value py_float now (Member MAX_DIVIDEND_YIELD)
       (("dividend_yield", PStr s) :: rest) financial_metrics dividend_data
     = Ok (PNum (q / 100)).
Proof.
  intros Hq Hs.
  assert (Hfilter : unstring py_float (PStr s) = Ok (PNum (q / 100))).
  { unfold unstring, percent_string. rewrite Hq. reflexivity. }
  split; [|split].
  - assert (Hyield :
      yield_score py_float (("dividend_yield", PStr s) :: rest)
      = yield_score py_float (("dividend_yield", PNum (q / 100)) :: rest)).
    { destruct (Qeq_bool (q / 100) 0) eqn:E.
      - apply Qeq_bool_iff in E.
        rewrite (yield_score_of_zero py_float (q / 100) rest E).
        unfold yield_score.
        cbn [get_default String.eqb Ascii.eqb Bool.eqb].
        unfold py_or. cbn [truthy].
        destruct (String.eqb s EmptyString) eqn:Es;
          [apply String.eqb_eq in Es; contradiction|].
        cbn [negb]. rewrite Hfilter. cbn [bind].
        reduce_tests.
        repeat (match goal with
                | |- context [Qle_bool ?a ?b] => destruct (Qle_bool a b) eqn:?
                | |- context [Qlt_bool ?a ?b] => destruct (Qlt_bool a b) eqn:?
                end; reduce_tests);
          try reflexivity; exfalso; to_Q; lra.
      - unfold yield_score.
        cbn [get_default String.eqb Ascii.eqb Bool.eqb].
        unfold py_or. cbn [truthy]. rewrite E.
        destruct (String.eqb s EmptyString) eqn:Es;
          [apply String.eqb_eq in Es; contradiction|].
        cbn [negb]. rewrite Hfilter. reflexivity. }
    unfold calculate_health_score. rewrite Hyield. reflexivity.
  - cbn [_get_filter_value get get_default String.eqb Ascii.eqb Bool.eqb].
    rewrite Hfilter. reflexivity.
  - cbn [_get_filter_value get get_default String.eqb Ascii.eqb Bool.eqb].
    exact Hfilter.
Qed.

Lemma x8_percent_string_yield_is_its_fraction_witness :
  (float_of_four (strip_percent "4%") = Some 4 /\ "4%" <> EmptyString)
  /\ calculate_health_score float_of_four [("dividend_yield", PStr "4%")]
       (scenario_b_metrics 0.3) growing_history
     = calculate_health_score float_of_four [("dividend_yield", PNum (4 / 100))]
         (scenario_b_metrics 0.3) growing_history
  /\ _get_filter_value float_of_four 0%Z (Member MIN_DIVIDEND_YIELD)
       [("dividend_yield", PStr "4%")] (scenario_b_metrics 0.3) growing_history
     = _get_filter_value float_of_four 0%Z (Member MIN_DIVIDEND_YIELD)
         [("dividend_yield", PNum (4 / 100))] (scenario_b_metrics 0.3)
         growing_history
  /\ _get_filter_value float_of_four 0%Z (Member MAX_DIVIDEND_YIELD)
       [("dividend_yield", PStr "4%")] (scenario_b_metrics 0.3) growing_history
     = Ok (PNum (4 / 100)).
Proof.
  assert (H1 : float_of_four (strip_percent "4%") = Some 4) by reflexivity.
  assert (H2 : "4%" <> EmptyString) by discriminate.
  split; [split; assumption|].
  exact (x8_percent_string_yield_is_its_fraction float_of_four 0%Z "4%" 4 []
           (scenario_b_metrics 0.3) growing_history H1 H2).
Defined.

(** The payout component of a numeric payout ratio, when the metrics
    carry none. *)
Lemma payout_score_numeric (py_float : string -> option Q) (p s : Q)
    (rest financial_metrics : dict) :
  get financial_metrics "payout_ratio" = PNone ->
  payout_score py_float (("payout_ratio", PNum p) :: rest) financial_metrics
    = Ok s ->
  (0.3 <= p /\ p <= 0.6 /\ s = 25)
  \/ (0.2 <= p /\ p < 0.3 /\ s = 20)
  \/ (0.6 < p /\ p <= 0.8 /\ s = 15)
  \/ (0.8 < p /\ s = 5)
  \/ (p < 0.2 /\ s = 0).
Proof.
  intros Hfm H. unfold payout_score in H.
  cbn [get get_default String.eqb Ascii.eqb Bool.eqb] in H.
  fold (get financial_metrics "payout_ratio") in H. rewrite Hfm in H.
  unfold py_or in H. cbn [truthy] in H.
  destruct (Qeq_bool p 0) eqn:E0; cbn [negb truthy] in H.
  - injection H as <-. apply Qeq_bool_iff in E0.
    right. right. right. right. split; [lra|reflexivity].
  - rewrite E0 in H. cbn [negb unstring bind] in H.
    split_tests_in H; injection H as <-; to_Q;
      first [ left; split; [assumption|split; [assumption|reflexivity]]
            | right; left; split; [assumption|split; [assumption|reflexivity]]
            | right; right; left;
              split; [assumption|split; [assumption|reflexivity]]
            | right; right; right; left; split; [assumption|reflexivity]
            | right; right; right; right; split; [lra|reflexivity] ].
Qed.

(** X9: moving the payout ratio toward the band from 30% to 60% never
    lowers the health score. For two snapshots that differ in their
    numeric payout ratio only (the metrics carrying none), the one whose
    ratio lies between the other's and the band scores at least as much. *)
Theorem x9_payout_nearer_the_band_scores_no_less
    (py_float : string -> option Q) (p q a b : Q)
    (rest financial_metrics : dict) (dividend_data : list DividendRecord) :
  get financial_metrics "payout_ratio" = PNone ->
  calculate_health_score py_float (("payout_ratio", PNum p) :: rest)
    financial_metrics dividend_data = Ok a ->
  calculate_health_score py_float (("payout_ratio", PNum q) :: rest)
    financial_metrics dividend_data = Ok b ->
  (p <= q /\ q <= 0.6) \/ (0.3 <= q /\ q <= p) ->
  a <= b.
Proof.
  intros Hfm Ha Hb Hnear.
  unfold calculate_health_score in Ha, Hb.
  assert (Hyield :
    yield_score py_float (("payout_ratio", PNum p) :: rest)
    = yield_score py_float (("payout_ratio", PNum q) :: rest))
    by reflexivity.
  rewrite Hyield in Ha.
  destruct (yield_score py_float (("payout_ratio", PNum q) :: rest)) as [s1|];
    cbn [bind] in Ha, Hb; [|discriminate].
  destruct (payout_score py_float (("payout_ratio", PNum p) :: rest)
              financial_metrics) as [sp|] eqn:Ep; cbn [bind] in Ha;
    [|discriminate].
  destruct (payout_score py_float (("payout_ratio", PNum q) :: rest)
              financial_metrics) as [sq|] eqn:Eq; cbn [bind] in Hb;
    [|discriminate].
  destruct (financial_health financial_metrics) as [s4|];
    cbn [bind] in Ha, Hb; [|discriminate].
  destruct (coverage_score financial_metrics) as [s5|];
    cbn [bind] in Ha, Hb; [|discriminate].
  injection Ha as <-. injection Hb as <-.
  apply py_min_mono_l.
  assert (Hpq : sp <= sq).
  { pose proof (payout_score_numeric _ _ _ _ _ Hfm Ep) as Cp.
    pose proof (payout_score_numeric _ _ _ _ _ Hfm Eq) as Cq.
    destruct Cp as [(?&?&->)|[(?&?&->)|[(?&?&->)|[(?&->)|(?&->)]]]];
      destruct Cq as [(?&?&->)|[(?&?&->)|[(?&?&->)|[(?&->)|(?&->)]]]];
      lra. }
  lra.
Qed.

Lemma x9_payout_nearer_the_band_scores_no_less_witness :
  exists a b,
    (get (scenario_b_metrics 0.3) "payout_ratio" = PNone
     /\ calculate_health_score no_float
          [("payout_ratio", PNum 0.9); ("dividend_yield", PNum 0.04)]
          (scenario_b_metrics 0.3) growing_history = Ok a
     /\ calculate_health_score no_float
          [("payout_ratio", PNum 0.7); ("dividend_yield", PNum 0.04)]
          (scenario_b_metrics 0.3) growing_history = Ok b
     /\ ((0.9 <= 0.7 /\ 0.7 <= 0.6) \/ (0.3 <= 0.7 /\ 0.7 <= 0.9)))
    /\ a <= b.
Proof.
  eexists. eexists.
  assert (H1 : get (scenario_b_metrics 0.3) "payout_ratio" = PNone)
    by reflexivity.
  assert (H4 : (0.9 <= 0.7 /\ 0.7 <= 0.6) \/ (0.3 <= 0.7 /\ 0.7 <= 0.9))
    by (right; split; vm_compute; discriminate).
  split.
  - split; [exact H1|]. split; [vm_compute; reflexivity|].
    split; [vm_compute; reflexivity|exact H4].
  - apply (x9_payout_nearer_the_band_scores_no_less no_float 0.9 0.7 _ _
             [("dividend_yield", PNum 0.04)] (scenario_b_metrics 0.3)
             growing_history H1); [vm_compute; reflexivity
                                  |vm_compute; reflexivity|exact H4].
Defined.

End ScoreExtras.

(** ** The fields derived from the dividend history *)

Module HistoryMore.
Import Engine ScoreMore.

Lemma by_date_desc_perm (dividend_data : list DividendRecord) :
  Permutation dividend_data (by_date_desc dividend_data).
Proof. apply sort_perm. Qed.

Lemma by_date_desc_sorted (dividend_data : list DividendRecord) :
  StronglySorted (fun a b => (ex_dividend_date b <= ex_dividend_date a)%Z)
    (by_date_desc dividend_data).
Proof.
  unfold by_date_desc.
  set (leb := fun a b => (ex_dividend_date b <=? ex_dividend_date a)%Z).
  apply (StronglySorted_impl_on (fun a b => leb a b = true) _ (fun _ => True)).
  - intros a b _ _ E. apply Z.leb_le, E.
  - apply Forall_forall. intros; exact I.
  - apply (sort_sorted_on leb (fun _ => True)).
    + intros a b _ _ E. unfold leb in *. apply Z.leb_gt in E.
      apply Z.leb_le. lia.
    + intros a b c _ _ _ E1 E2. unfold leb in *.
      apply Z.leb_le in E1. apply Z.leb_le in E2. apply Z.leb_le. lia.
    + apply Forall_forall. intros; exact I.
Qed.

(** The sum of rates that all lie in an interval. *)
Lemma fold_plus_bounds (lo hi : Q) (l : list Q) :
  Forall (fun r => lo <= r /\ r <= hi) l ->
  forall a,
  a + of_nat (List.length l) * lo <= fold_left Qplus l a
  /\ fold_left Qplus l a <= a + of_nat (List.length l) * hi.
Proof.
  induction 1 as [|r l [Hlo Hhi] Hall IH]; intros a.
  - cbn [fold_left List.length]. change (of_nat 0) with 0. split; lra.
  - cbn [fold_left List.length]. destruct (IH (a + r)) as [L H].
    assert (E : of_nat (S (List.length l)) == 1 + of_nat (List.length l)).
    { unfold of_nat. rewrite Nat2Z.inj_succ, <- Z.add_1_l, inject_Z_plus.
      reflexivity. }
    rewrite E. split; lra.
Qed.

(** A non-empty list has a smallest and a largest element. *)
Lemma extremes (l : list Q) :
  l <> [] ->
  exists lo hi,
    In lo l /\ In hi l /\ Forall (fun r => lo <= r /\ r <= hi) l.
Proof.
  induction l as [|x l IH]; intros Hne; [contradiction|].
  destruct l as [|y l'].
  - exists x, x. repeat split; try (left; reflexivity).
    constructor; [split; apply Qle_refl|constructor].
  - destruct IH as (lo & hi & Hlo & Hhi & Hall); [discriminate|].
    exists (if Qle_bool x lo then x else lo), (if Qle_bool hi x then x else hi).
    split; [destruct (Qle_bool x lo); [left; reflexivity|right; exact Hlo]|].
    split; [destruct (Qle_bool hi x); [left; reflexivity|right; exact Hhi]|].
    assert (Hlohi : lo <= hi).
    { rewrite Forall_forall in Hall. destruct (Hall lo Hlo) as [_ H]. exact H. }
    destruct (Qle_bool x lo) eqn:E1, (Qle_bool hi x) eqn:E2; to_Q;
      (constructor; [split; lra|]);
      (eapply Forall_impl; [|exact Hall]); intros r [? ?]; split; lra.
Qed.

End HistoryMore.

(** *** Properties of the derived fields *)

Module HistoryExtras.
Import Engine HistoryMore ScoreMore.

(** X10: the next ex-dividend date is estimated from the two latest
    records and only into the future. An estimate that is given is the
    latest ex-date plus its distance to the second latest ex-date, and
    lies strictly after [now]; there is no estimate when the history has
    fewer than two records or when that date is not after [now]. *)
Theorem x10_next_ex_dividend_estimate (now : datetime)
    (dividend_data : list DividendRecord) :
  match _estimate_next_ex_dividend now dividend_data with
  | Some d =>
      exists latest previous others,
        Permutation dividend_data (latest :: previous :: others)
        /\ Forall (fun r => (ex_dividend_date r <= ex_dividend_date previous)%Z)
             others
        /\ (ex_dividend_date previous <= ex_dividend_date latest)%Z
        /\ d = (ex_dividend_date latest
                + (ex_dividend_date latest - ex_dividend_date previous))%Z
        /\ (now < d)%Z
  | None =>
      (List.length dividend_data < 2)%nat
      \/ exists latest previous others,
           Permutation dividend_data (latest :: previous :: others)
           /\ Forall (fun r => (ex_dividend_date r <= ex_dividend_date previous)%Z)
                others
           /\ (ex_dividend_date previous <= ex_dividend_date latest)%Z
           /\ (ex_dividend_date latest
               + (ex_dividend_date latest - ex_dividend_date previous) <= now)%Z
  end.
Proof.
  pose proof (by_date_desc_perm dividend_data) as Hperm.
  pose proof (by_date_desc_sorted dividend_data) as Hsorted.
  unfold _estimate_next_ex_dividend.
  destruct (is_empty dividend_data) eqn:Eempty.
  { left. destruct dividend_data; [simpl; lia|discriminate]. }
  destruct (by_date_desc dividend_data) as [|r0 [|r1 rest]].
  - left. apply Permutation_length in Hperm. simpl in Hperm. lia.
  - left. apply Permutation_length in Hperm. simpl in Hperm. lia.
  - inversion Hsorted as [|? ? Htail Hall0]; subst.
    inversion Htail as [|? ? _ Hall1]; subst.
    inversion Hall0 as [|? ? H01 _]; subst.
    destruct (now <? _)%Z eqn:E.
    + apply Z.ltb_lt in E. exists r0, r1, rest. repeat split; assumption.
    + apply Z.ltb_ge in E. right. exists r0, r1, rest.
      repeat split; assumption.
Qed.

(** X11: the last dividend amount is missing for the empty history only;
    otherwise it is the amount of a record whose ex-date no other record
    exceeds, whatever the order of the rows. *)
Theorem x11_last_dividend_amount_is_of_latest_record
    (dividend_data : list DividendRecord) :
  match _get_last_dividend_amount dividend_data with
  | Some amount =>
      exists r,
        In r dividend_data
        /\ dividend_amount r = amount
        /\ Forall (fun r' => (ex_dividend_date r' <= ex_dividend_date r)%Z)
             dividend_data
  | None => dividend_data = []
  end.
Proof.
  pose proof (by_date_desc_perm dividend_data) as Hperm.
  pose proof (by_date_desc_sorted dividend_data) as Hsorted.
  unfold _get_last_dividend_amount.
  destruct (is_empty dividend_data) eqn:Eempty.
  { destruct dividend_data; [reflexivity|discriminate]. }
  destruct (by_date_desc dividend_data) as [|r rest] eqn:E.
  - apply Permutation_sym, Permutation_nil in Hperm. exact Hperm.
  - exists r. split; [|split; [reflexivity|]].
    + eapply Permutation_in; [apply Permutation_sym, Hperm|left; reflexivity].
    + eapply Permutation_Forall; [apply Permutation_sym, Hperm|].
      inversion Hsorted as [|? ? _ Hall]; subst.
      constructor; [lia|exact Hall].
Qed.

(** X12: the average growth rate is missing when no record has a growth
    rate, and only then. An average that is given has the sign of the
    rates: it is negative only if some growth rate is negative, and
    positive only if some growth rate is positive. *)
Theorem x12_average_growth_keeps_the_sign
    (dividend_data : list DividendRecord) :
  match _get_avg_dividend_growth dividend_data with
  | Some mean =>
      dropna (map dividend_growth_rate dividend_data) <> []
      /\ (0 <= mean
          \/ exists r,
               In r (dropna (map dividend_growth_rate dividend_data)) /\ r < 0)
      /\ (mean <= 0
          \/ exists r,
               In r (dropna (map dividend_growth_rate dividend_data)) /\ 0 < r)
  | None => dropna (map dividend_growth_rate dividend_data) = []
  end.
Proof.
  unfold _get_avg_dividend_growth.
  set (g := dropna (map dividend_growth_rate dividend_data)).
  destruct (is_empty dividend_data) eqn:Eempty.
  { destruct dividend_data; [reflexivity|discriminate]. }
  destruct (0 <? List.length g)%nat eqn:E.
  - apply Nat.ltb_lt in E.
    assert (Hne : g <> []) by (destruct g; [simpl in E; lia|discriminate]).
    split; [exact Hne|].
    destruct (extremes g Hne) as (lo & hi & Hlo & Hhi & Hall).
    destruct (fold_plus_bounds lo hi g Hall 0) as [L U].
    fold (Qsum g) in L, U.
    pose proof (of_nat_pos _ E) as Hpos.
    split.
    + destruct (Qlt_le_dec lo 0) as [Hneg|Hnonneg].
      * right. exists lo. split; assumption.
      * left. apply Qle_shift_div_l; [exact Hpos|].
        assert (0 <= of_nat (List.length g) * lo)
          by (apply Qmult_le_0_compat; lra).
        lra.
    + destruct (Qlt_le_dec 0 hi) as [Hpositive|Hnonpos].
      * right. exists hi. split; assumption.
      * left. apply Qle_shift_div_r; [exact Hpos|].
        assert (of_nat (List.length g) * hi <= 0) by nra.
        lra.
  - apply Nat.ltb_ge in E. destruct g; [reflexivity|simpl in E; lia].
Qed.

End HistoryExtras.

(** ** More on the risk assessor *)

Module RiskMore.
Import DividendRiskManager RiskFacts ScoreMore.

Lemma fold_max_In (l : list Q) :
  forall a, fold_left py_max l a = a \/ In (fold_left py_max l a) l.
Proof.
  induction l as [|x l IH]; intros a; simpl.
  - left. reflexivity.
  - destruct (IH (py_max a x)) as [E|Hin].
    + rewrite E. unfold py_max. destruct (Qlt_bool a x); auto.
    + right. right. exact Hin.
Qed.

Lemma py_max_upper_r (a b : Q) : b <= py_max a b.
Proof.
  unfold py_max. destruct (Qlt_bool a b) eqn:E; to_Q; lra.
Qed.

Lemma fold_max_ge (l : list Q) :
  forall a, a <= fold_left py_max l a
            /\ Forall (fun x => x <= fold_left py_max l a) l.
Proof.
  induction l as [|x l IH]; intros a; simpl.
  - split; [apply Qle_refl|constructor].
  - destruct (IH (py_max a x)) as [Hle Hall]. split.
    + eapply Qle_trans; [apply py_max_lower|exact Hle].
    + constructor; [|exact Hall].
      eapply Qle_trans; [apply py_max_upper_r|exact Hle].
Qed.

(** [max(l)] is an element of [l] above all the others. *)
Lemma max_list_spec (l : list Q) (m : Q) :
  max_list l = Ok m -> In m l /\ Forall (fun x => x <= m) l.
Proof.
  destruct l as [|h t]; simpl; intros H; [discriminate|].
  injection H as <-. split.
  - destruct (fold_max_In t h) as [E|Hin]; [left; symmetry; exact E|right; exact Hin].
  - destruct (fold_max_ge t h) as [Hle Hall]. constructor; assumption.
Qed.

(** The fields of a returned assessment. *)
Lemma assess_portfolio_risk_fields (portfolio : list Holding) (z : draws)
    (pos : N) :
  portfolio <> [] ->
  ~ total portfolio == 0 ->
  volatilities_ok portfolio ->
  exists r pos' mc ms my l95 l99 recs,
    assess_portfolio_risk portfolio z pos = Ok (r, pos')
    /\ max_list (percentages portfolio) = Ok mc
    /\ min_list (scores portfolio) = Ok ms
    /\ max_list (yields portfolio) = Ok my
    /\ List.length l95 = num_simulations
    /\ List.length l99 = num_simulations
    /\ concentration_risk r = risk_of_concentration mc
    /\ max_concentration r = mc
    /\ diversification_score r
       = py_min 100 (of_nat (List.length portfolio) / 15 * 100)
    /\ sustainability_risk r = risk_of_sustainability ms
    /\ yield_risk r = risk_of_yield my (mean (yields portfolio))
    /\ var_95 r = py_max 0 (total portfolio - nth 500 (sort Qle_bool l95) 0)
    /\ var_99 r = py_max 0 (total portfolio - nth 100 (sort Qle_bool l99) 0)
    /\ risk_score r
       = 0 + pick (concentration_risk r) 40 20 10
         + py_max 0 (40 - diversification_score r / 2)
         + pick (sustainability_risk r) 30 15 5
         + pick (yield_risk r) 25 12 5
    /\ overall_risk r
       = (if Qlt_bool 80 (risk_score r) then HIGH
          else if Qlt_bool 50 (risk_score r) then MEDIUM else LOW)
    /\ _generate_risk_recommendations
         {| concentration := pick (concentration_risk r) 40 20 10;
            diversification := py_max 0 (40 - diversification_score r / 2);
            sustainability_ := pick (sustainability_risk r) 30 15 5;
            yield_ := pick (yield_risk r) 25 12 5 |} portfolio = Ok recs
    /\ recommendations r = recs.
Proof.
  intros Hne Htot Hvol.
  destruct portfolio as [|h t]; [contradiction|].
  destruct (calculate_var_quantile (h :: t) 0.95 z pos 500 Hvol var_index_95
              (below_num_simulations 500 eq_refl)) as [l95 [_ [Hlen95 H95]]].
  destruct (calculate_var_quantile (h :: t) 0.99 z
              (pos + N.of_nat (num_simulations * List.length (h :: t)))%N 100
              Hvol var_index_99 (below_num_simulations 100 eq_refl))
    as [l99 [_ [Hlen99 H99]]].
  unfold assess_portfolio_risk, percentages, scores, yields.
  cbn [map max_list min_list bind].
  rewrite H95. cbn [bind]. rewrite H99. cbn [bind].
  fold (total (h :: t)).
  rewrite !(py_div_ok _ _ Htot). cbn [bind].
  match goal with
  | |- context [_generate_risk_recommendations ?rf (h :: t)] =>
      destruct (recommendations_ok rf h t) as [recs Hrecs]; rewrite Hrecs
  end.
  cbn [bind].
  do 5 eexists. exists l95, l99, recs.
  split; [reflexivity|].
  repeat (split; [first [reflexivity|assumption]|]).
  reflexivity.
Qed.

End RiskMore.

(** *** Further properties of the risk assessor *)

Module RiskExtras.
Import DividendRiskManager RiskFacts ScoreMore RiskMore.

Lemma py_div_zero (a b : Q) : b == 0 -> py_div a b = Raise ZeroDivisionError.
Proof.
  intros H. unfold py_div.
  assert (E : Qeq_bool b 0 = true) by (apply Qeq_bool_iff, H).
  rewrite E. reflexivity.
Qed.

Lemma volatilities_ok_dec (portfolio : list Holding) :
  volatilities_ok portfolio \/ ~ volatilities_ok portfolio.
Proof.
  unfold volatilities_ok.
  induction portfolio as [|h t [IH|IH]].
  - left. constructor.
  - destruct (Qlt_le_dec (holding_volatility h) 0) as [Hneg|Hok].
    + right. intros H. inversion H; subst. lra.
    + left. constructor; assumption.
  - right. intros H. inversion H; subst. contradiction.
Qed.

Lemma trial_raises (portfolio : list Holding) :
  ~ volatilities_ok portfolio ->
  forall daily_return z pos,
  trial portfolio daily_return z pos = Raise ValueError.
Proof.
  induction portfolio as [|h t IH]; intros Hbad daily_return z pos.
  - exfalso. apply Hbad. constructor.
  - cbn [trial]. unfold normal.
    destruct (Qlt_bool (holding_volatility h) 0) eqn:E; [reflexivity|].
    cbn [bind]. apply IH. intros Ht. apply Hbad.
    constructor; [to_Q; exact E|exact Ht].
Qed.

Lemma calculate_var_raises (portfolio : list Holding) (confidence : Q)
    (z : draws) (pos : N) :
  ~ volatilities_ok portfolio ->
  _calculate_var portfolio confidence z pos = Raise ValueError.
Proof.
  intros Hbad. unfold _calculate_var.
  assert (E : exists n, num_simulations = S n).
  { destruct num_simulations eqn:En; [|eexists; reflexivity].
    vm_compute in En. discriminate. }
  destruct E as [n ->]. cbn [simulate].
  rewrite (trial_raises portfolio Hbad). reflexivity.
Qed.

(** X13: when the assessor returns and when it raises. It returns an
    assessment exactly for a non-empty portfolio whose total allocation
    is not zero and whose holdings all have a non-negative estimated
    volatility. The empty portfolio and a negative volatility raise
    [ValueError]; a total allocation of zero raises [ZeroDivisionError]. *)
Theorem x13_assessment_returns_or_raises (portfolio : list Holding)
    (z : draws) (pos : N) :
  match assess_portfolio_risk portfolio z pos with
  | Ok _ =>
      portfolio <> [] /\ ~ total portfolio == 0 /\ volatilities_ok portfolio
  | Raise e =>
      (e = ValueError /\ (portfolio = [] \/ ~ volatilities_ok portfolio))
      \/ (e = ZeroDivisionError
          /\ portfolio <> [] /\ volatilities_ok portfolio
          /\ total portfolio == 0)
  end.
Proof.
  destruct portfolio as [|h t].
  { cbn. left. split; [reflexivity|left; reflexivity]. }
  destruct (volatilities_ok_dec (h :: t)) as [Hvol|Hbad].
  - destruct (Qeq_bool (total (h :: t)) 0) eqn:Etot.
    + apply Qeq_bool_iff in Etot.
      destruct (calculate_var_quantile (h :: t) 0.95 z pos 500 Hvol
                  var_index_95 (below_num_simulations 500 eq_refl))
        as [l95 [_ [_ H95]]].
      destruct (calculate_var_quantile (h :: t) 0.99 z
                  (pos + N.of_nat (num_simulations * List.length (h :: t)))%N
                  100 Hvol var_index_99 (below_num_simulations 100 eq_refl))
        as [l99 [_ [_ H99]]].
      unfold assess_portfolio_risk. cbn [map max_list min_list bind].
      rewrite H95. cbn [bind]. rewrite H99. cbn [bind].
      fold (total (h :: t)).
      rewrite (py_div_zero _ _ Etot). cbn [bind]. right.
      split; [reflexivity|]. split; [discriminate|]. split; assumption.
    + apply Qeq_bool_neq in Etot.
      destruct (assess_portfolio_risk_returns (h :: t) z pos) as (r & pos' & m & Hr & _);
        [discriminate|exact Etot|exact Hvol|].
      rewrite Hr. split; [discriminate|]. split; assumption.
  - unfold assess_portfolio_risk. cbn [map max_list min_list bind].
    rewrite (calculate_var_raises (h :: t) 0.95 z pos Hbad). cbn [bind].
    left. split; [reflexivity|right; exact Hbad].
Qed.

Lemma risk_of_concentration_spec (m : Q) :
  (risk_of_concentration m = HIGH <-> 25 < m)
  /\ (risk_of_concentration m = MEDIUM <-> 15 < m /\ m <= 25)
  /\ (risk_of_concentration m = LOW <-> m <= 15).
Proof.
  unfold risk_of_concentration.
  destruct (Qlt_bool 25 m) eqn:E25; [|destruct (Qlt_bool 15 m) eqn:E15];
    to_Q; repeat split; intros; try discriminate; try reflexivity; lra.
Qed.

Lemma risk_of_yield_spec (m a : Q) :
  (risk_of_yield m a = HIGH <-> 12 < m)
  /\ (risk_of_yield m a = MEDIUM <-> m <= 12 /\ 8 < a)
  /\ (risk_of_yield m a = LOW <-> m <= 12 /\ a <= 8).
Proof.
  unfold risk_of_yield.
  destruct (Qlt_bool 12 m) eqn:E12; [|destruct (Qlt_bool 8 a) eqn:E8];
    to_Q; repeat split; intros; try discriminate; try reflexivity; lra.
Qed.

(** X14: the concentration label of a returned assessment. The reported
    maximum concentration is the largest allocation percentage of the
    portfolio; the label is HIGH exactly when it is above 25, MEDIUM
    exactly when it is above 15 and at most 25, LOW exactly when it is at
    most 15. *)
Theorem x14_concentration_label_thresholds (portfolio : list Holding)
    (z : draws) (pos : N) :
  portfolio <> [] ->
  ~ total portfolio == 0 ->
  volatilities_ok portfolio ->
  exists r pos',
    assess_portfolio_risk portfolio z pos = Ok (r, pos')
    /\ In (max_concentration r) (percentages portfolio)
    /\ Forall (fun x => x <= max_concentration r) (percentages portfolio)
    /\ (concentration_risk r = HIGH <-> 25 < max_concentration r)
    /\ (concentration_risk r = MEDIUM
        <-> 15 < max_concentration r /\ max_concentration r <= 25)
    /\ (concentration_risk r = LOW <-> max_concentration r <= 15).
Proof.
  intros Hne Htot Hvol.
  destruct (assess_portfolio_risk_fields portfolio z pos Hne Htot Hvol)
    as (r & pos' & mc & ms & my & l95 & l99 & recs & Hr & Hmc & _ & _ & _ & _
        & Hconc & Hmax & _).
  destruct (max_list_spec _ _ Hmc) as [Hin Hall].
  exists r, pos'. rewrite Hconc, Hmax.
  split; [exact Hr|]. split; [exact Hin|]. split; [exact Hall|].
  apply risk_of_concentration_spec.
Qed.

Lemma x14_concentration_label_thresholds_witness :
  ([single_holding 50] <> []
   /\ ~ total [single_holding 50] == 0
   /\ volatilities_ok [single_holding 50])
  /\ exists r pos',
       assess_portfolio_risk [single_holding 50] calm 0 = Ok (r, pos')
       /\ In (max_concentration r) (percentages [single_holding 50])
       /\ Forall (fun x => x <= max_concentration r)
            (percentages [single_holding 50])
       /\ (concentration_risk r = HIGH <-> 25 < max_concentration r)
       /\ (concentration_risk r = MEDIUM
           <-> 15 < max_concentration r /\ max_concentration r <= 25)
       /\ (concentration_risk r = LOW <-> max_concentration r <= 15).
Proof.
  assert (Hne : [single_holding 50] <> []) by discriminate.
  assert (Htot : ~ total [single_holding 50] == 0)
    by (intros H; vm_compute in H; discriminate).
  assert (Hvol : volatilities_ok [single_holding 50])
    by (repeat constructor; vm_compute; discriminate).
  split; [repeat split; assumption|].
  exact (x14_concentration_label_thresholds [single_holding 50] calm 0
           Hne Htot Hvol).
Defined.



Lemma pick_cases (l : level) (high medium low : Q) :
  pick l high medium low = high
  \/ pick l high medium low = medium
  \/ pick l high medium low = low.
Proof. destruct l; simpl; auto. Qed.

Lemma diversification_range (n : nat) :
  (0 < n)%nat ->
  20 / 3 <= py_min 100 (of_nat n / 15 * 100)
  /\ py_min 100 (of_nat n / 15 * 100) <= 100.
Proof.
  intros Hn.
  assert (H1 : 1 <= of_nat n).
  { change 1 with (of_nat 1). apply of_nat_le. lia. }
  assert (E1 : of_nat n / 15 * 100 == of_nat n * (20 # 3)) by field.
  assert (E2 : 20 / 3 == 20 # 3) by reflexivity.
  unfold py_min. destruct (Qlt_bool _ 100) eqn:E; to_Q; split; lra.
Qed.

(** X16: the risk score of a returned assessment lies between 20 and
    131 2/3, so it can exceed 100; the overall rating is HIGH exactly
    when the score is above 80, MEDIUM exactly when it is above 50 and at
    most 80, LOW exactly when it is at most 50. *)
Theorem x16_risk_score_range_and_rating (portfolio : list Holding)
    (z : draws) (pos : N) :
  portfolio <> [] ->
  ~ total portfolio == 0 ->
  volatilities_ok portfolio ->
  exists r pos',
    assess_portfolio_risk portfolio z pos = Ok (r, pos')
    /\ 20 <= risk_score r
    /\ risk_score r <= 395 / 3
    /\ (overall_risk r = HIGH <-> 80 < risk_score r)
    /\ (overall_risk r = MEDIUM <-> 50 < risk_score r /\ risk_score r <= 80)
    /\ (overall_risk r = LOW <-> risk_score r <= 50).
Proof.
  intros Hne Htot Hvol.
  destruct (assess_portfolio_risk_fields portfolio z pos Hne Htot Hvol)
    as (r & pos' & mc & ms & my & l95 & l99 & recs & Hr & _ & _ & _ & _ & _
        & _ & _ & Hdiv & _ & _ & _ & _ & Hscore & Hoverall & _).
  exists r, pos'. split; [exact Hr|].
  assert (Hn : (0 < List.length portfolio)%nat)
    by (destruct portfolio; [contradiction|simpl; lia]).
  destruct (diversification_range _ Hn) as [Dlo Dhi]. rewrite <- Hdiv in Dlo, Dhi.
  assert (Hfactor : 0 <= py_max 0 (40 - diversification_score r / 2)
                    /\ py_max 0 (40 - diversification_score r / 2) <= 110 / 3).
  { assert (E1 : diversification_score r / 2
                 == diversification_score r * (1 # 2)) by field.
    assert (E2 : 20 / 3 == 20 # 3) by reflexivity.
    assert (E3 : 110 / 3 == 110 # 3) by reflexivity.
    unfold py_max. destruct (Qlt_bool 0 _) eqn:E; to_Q; split; lra. }
  assert (E4 : 110 / 3 == 110 # 3) by reflexivity.
  assert (E5 : 395 / 3 == 395 # 3) by reflexivity.
  assert (Hrange : 20 <= risk_score r /\ risk_score r <= 395 / 3).
  { rewrite Hscore.
    destruct (pick_cases (concentration_risk r) 40 20 10) as [->|[->| ->]];
      destruct (pick_cases (sustainability_risk r) 30 15 5) as [->|[->| ->]];
      destruct (pick_cases (yield_risk r) 25 12 5) as [->|[->| ->]];
      split; lra. }
  split; [tauto|]. split; [tauto|].
  rewrite Hoverall.
  destruct (Qlt_bool 80 (risk_score r)) eqn:E80;
    [|destruct (Qlt_bool 50 (risk_score r)) eqn:E50];
    to_Q; repeat split; intros; try discriminate; try reflexivity; lra.
Qed.

Lemma x16_risk_score_range_and_rating_witness :
  ([single_holding 50] <> []
   /\ ~ total [single_holding 50] == 0
   /\ volatilities_ok [single_holding 50])
  /\ exists r pos',
       assess_portfolio_risk [single_holding 50] calm 0 = Ok (r, pos')
       /\ 20 <= risk_score r
       /\ risk_score r <= 395 / 3
       /\ (overall_risk r = HIGH <-> 80 < risk_score r)
       /\ (overall_risk r = MEDIUM <-> 50 < risk_score r /\ risk_score r <= 80)
       /\ (overall_risk r = LOW <-> risk_score r <= 50).
Proof.
  assert (Hne : [single_holding 50] <> []) by discriminate.
  assert (Htot : ~ total [single_holding 50] == 0)
    by (intros H; vm_compute in H; discriminate).
  assert (Hvol : volatilities_ok [single_holding 50])
    by (repeat constructor; vm_compute; discriminate).
  split; [repeat split; assumption|].
  exact (x16_risk_score_range_and_rating [single_holding 50] calm 0
           Hne Htot Hvol).
Defined.

Lemma py_int_floor (x : Q) : 0 <= x -> py_int x = Qfloor x.
Proof.
  intros H. destruct x as [n d]. unfold py_int, Qfloor. cbn [Qnum Qden].
  apply Z.quot_div_nonneg; [|lia].
  unfold Qle in H. cbn in H. lia.
Qed.

Lemma simulations_count : of_nat num_simulations == 10000.
Proof. vm_compute. reflexivity. Qed.

(** A returned value at risk is read off the sorted outcomes of the run
    at the position the confidence selects. *)
Lemma calculate_var_returned (portfolio : list Holding) (confidence : Q)
    (z : draws) (pos : N) (v : Q) (pos' : N) :
  confidence <= 1 ->
  _calculate_var portfolio confidence z pos = Ok (v, pos') ->
  exists (l : list Q) (i : nat),
    simulate num_simulations portfolio (total portfolio) z pos = Ok (l, pos')
    /\ Z.of_nat i = Qfloor ((1 - confidence) * 10000)
    /\ (i < List.length l)%nat
    /\ v = py_max 0 (total portfolio - nth i (sort Qle_bool l) 0).
Proof.
  intros Hle H. unfold _calculate_var in H. fold (total portfolio) in H.
  destruct (simulate num_simulations portfolio (total portfolio) z pos)
    as [[l p]|] eqn:Hl; cbn [bind] in H; [|discriminate].
  pose proof simulations_count as Hn.
  set (x := (1 - confidence) * of_nat num_simulations) in H.
  assert (Hx : x == (1 - confidence) * 10000)
    by (unfold x; rewrite Hn; reflexivity).
  assert (H0 : 0 <= x) by (rewrite Hx; nra).
  assert (Hfloor0 : (0 <= Qfloor x)%Z).
  { change 0%Z with (Qfloor 0). apply Qfloor_resp_le, H0. }
  rewrite (py_int_floor x H0) in H. unfold index in H.
  rewrite sort_length in H.
  destruct ((0 <=? Qfloor x)%Z && (Qfloor x <? Z.of_nat (List.length l))%Z)
    eqn:Ein.
  - cbn [bind] in H. injection H as <- <-.
    apply andb_true_iff in Ein. destruct Ein as [_ Elt]. apply Z.ltb_lt in Elt.
    exists l, (Z.to_nat (Qfloor x)). split; [reflexivity|].
    rewrite Z2Nat.id by exact Hfloor0.
    split; [apply Qfloor_comp, Hx|]. split; [lia|reflexivity].
  - destruct ((- Z.of_nat (List.length l) <=? Qfloor x)%Z && (Qfloor x <? 0)%Z)
      eqn:Eneg.
    + apply andb_true_iff in Eneg. destruct Eneg as [_ Elt].
      apply Z.ltb_lt in Elt. lia.
    + discriminate.
Qed.

(** X17: on one simulation run the value at risk never decreases with the
    confidence. When the value at risk is returned at two confidences of
    at most 1 for the same draws, both values are non-negative, the value
    at the higher confidence is at least the value at the lower one, and
    both calls used up the same draws. *)
Theorem x17_var_grows_with_confidence (portfolio : list Holding) (c1 c2 : Q)
    (z : draws) (pos : N) (v1 v2 : Q) (pos1 pos2 : N) :
  c1 <= c2 -> c2 <= 1 ->
  _calculate_var portfolio c1 z pos = Ok (v1, pos1) ->
  _calculate_var portfolio c2 z pos = Ok (v2, pos2) ->
  0 <= v1 /\ v1 <= v2 /\ pos1 = pos2.
Proof.
  intros H12 Hle H1 H2.
  destruct (calculate_var_returned portfolio c1 z pos v1 pos1) as
    (l & i1 & Hl & Hf1 & Hlt1 & ->); [lra|exact H1|].
  destruct (calculate_var_returned portfolio c2 z pos v2 pos2) as
    (l' & i2 & Hl' & Hf2 & _ & ->); [exact Hle|exact H2|].
  assert (E : (l', pos2) = (l, pos1)) by congruence.
  injection E as -> ->.
  split; [apply py_max_lower|]. split; [|reflexivity].
  apply py_max_mono.
  assert (Hidx : (i2 <= i1)%nat).
  { apply Nat2Z.inj_le. rewrite Hf1, Hf2. apply Qfloor_resp_le. nra. }
  assert (Hq : nth i2 (sort Qle_bool l) 0 <= nth i1 (sort Qle_bool l) 0).
  { apply sorted_nth; [apply sort_sorted|exact Hidx|].
    rewrite sort_length. exact Hlt1. }
  lra.
Qed.

Lemma x17_var_grows_with_confidence_witness :
  exists (v1 v2 : Q) (pos1 pos2 : N),
    (0.5 <= 0.875 /\ 0.875 <= 1
     /\ _calculate_var [single_holding 50] 0.5 brief_storm 0 = Ok (v1, pos1)
     /\ _calculate_var [single_holding 50] 0.875 brief_storm 0 = Ok (v2, pos2))
    /\ (0 <= v1 /\ v1 <= v2 /\ pos1 = pos2)
    /\ v1 == 0 /\ v2 == 2600.
Proof.
  assert (H12 : 0.5 <= 0.875) by (vm_compute; discriminate).
  assert (H2 : 0.875 <= 1) by (vm_compute; discriminate).
  eexists. eexists. eexists. eexists.
  split.
  - split; [exact H12|]. split; [exact H2|]. split; vm_compute; reflexivity.
  - split; [|split; vm_compute; reflexivity].
    apply (x17_var_grows_with_confidence [single_holding 50] 0.5 0.875
             brief_storm 0 _ _ _ _ H12 H2); vm_compute; reflexivity.
Defined.



Lemma firstn_filter_nil {A B : Type} (f : A -> B) (p : A -> bool) (l : list A) :
  map f (firstn 2 (filter p l)) = [] <-> forall x, In x l -> p x = false.
Proof.
  split.
  - intros H x Hx. destruct (p x) eqn:E; [|reflexivity]. exfalso.
    assert (Hin : In x (filter p l)) by (apply filter_In; split; assumption).
    destruct (filter p l) as [|y ys]; [destruct Hin|]. discriminate.
  - intros H. rewrite (BacktestFacts.filter_nothing p l H). reflexivity.
Qed.

Lemma firstn_two_length {A B : Type} (f : A -> B) (l : list A) :
  (List.length (map f (firstn 2 l)) <= 2)%nat.
Proof. rewrite length_map, length_firstn. lia. Qed.

(** The four groups of recommendations, in the order they are appended. *)
Lemma recommendations_groups (risk_factors : RiskFactors) (h : Holding)
    (t : list Holding) (recs : list recommendation) :
  _generate_risk_recommendations risk_factors (h :: t) = Ok recs ->
  exists first second third fourth,
    recs = (if is_empty (first ++ second ++ third ++ fourth)
            then [Well_balanced]
            else first ++ second ++ third ++ fourth)%list
    /\ (first = [] <-> concentration risk_factors <= 30)
    /\ (second = [] <-> diversification risk_factors <= 20)
    /\ (third = []
        <-> sustainability_ risk_factors <= 20
            \/ forall x, In x (h :: t) -> 60 <= get_or (sustainability x) 70)
    /\ (fourth = []
        <-> yield_ risk_factors <= 20
            \/ forall x, In x (h :: t) -> get_or (predicted_yield x) 4 <= 10)
    /\ (List.length first <= 1)%nat
    /\ (List.length second <= 1)%nat
    /\ (List.length third <= 2)%nat
    /\ (List.length fourth <= 2)%nat
    /\ ~ In Well_balanced (first ++ second ++ third ++ fourth).
Proof.
  unfold _generate_risk_recommendations. cbv zeta.
  set (low := filter (fun x => Qlt_bool (get_or (sustainability x) 70) 60)
                (h :: t)).
  set (high := filter (fun x => Qlt_bool 10 (get_or (predicted_yield x) 4))
                 (h :: t)).
  intros H.
  set (first := if Qlt_bool 30 (concentration risk_factors)
                then [Reduce_concentration (symbol (max_holding h t))
                        (allocation_percentage (max_holding h t))]
                else []).
  assert (Hfirst :
    (if Qlt_bool 30 (concentration risk_factors)
     then Ok [Reduce_concentration (symbol (max_holding h t))
                (allocation_percentage (max_holding h t))]
     else Ok []) = Ok first)
    by (unfold first; destruct (Qlt_bool 30 _); reflexivity).
  rewrite Hfirst in H. cbn [bind] in H.
  set (second := if Qlt_bool 20 (diversification risk_factors)
                 then [Add_more_holdings (List.length (h :: t))] else []) in H.
  set (third := if Qlt_bool 20 (sustainability_ risk_factors)
                then map (fun x => Review_sustainability (symbol x)
                                     (get_or (sustainability x) 0))
                       (firstn 2 low)
                else []) in H.
  set (fourth := if Qlt_bool 20 (yield_ risk_factors)
                 then map (fun x => Investigate_yield (symbol x)
                                      (get_or (predicted_yield x) 0))
                        (firstn 2 high)
                 else []) in H.
  injection H as <-.
  exists first, second, third, fourth. split; [reflexivity|].
  unfold second, third, fourth.
  split; [|split; [|split; [|split; [|split; [|split; [|split; [|split]]]]]]].
  - unfold first. destruct (Qlt_bool 30 _) eqn:E; to_Q;
      split; intros; try discriminate; try reflexivity; lra.
  - destruct (Qlt_bool 20 (diversification risk_factors)) eqn:E; to_Q;
      split; intros; try discriminate; try reflexivity; lra.
  - destruct (Qlt_bool 20 (sustainability_ risk_factors)) eqn:E; to_Q.
    + unfold low. rewrite firstn_filter_nil. split.
      * intros Hall. right. intros x Hx. specialize (Hall x Hx).
        cbn beta in Hall. to_Q. exact Hall.
      * intros [Hle|Hall]; [lra|]. intros x Hx. apply Qlt_bool_false_iff.
        apply Hall, Hx.
    + split; [intros _; left; exact E|reflexivity].
  - destruct (Qlt_bool 20 (yield_ risk_factors)) eqn:E; to_Q.
    + unfold high. rewrite firstn_filter_nil. split.
      * intros Hall. right. intros x Hx. specialize (Hall x Hx).
        cbn beta in Hall. to_Q. exact Hall.
      * intros [Hle|Hall]; [lra|]. intros x Hx. apply Qlt_bool_false_iff.
        apply Hall, Hx.
    + split; [intros _; left; exact E|reflexivity].
  - unfold first. destruct (Qlt_bool 30 _); simpl; lia.
  - destruct (Qlt_bool 20 (diversification risk_factors)); simpl; lia.
  - destruct (Qlt_bool 20 (sustainability_ risk_factors));
      [apply firstn_two_length|simpl; lia].
  - destruct (Qlt_bool 20 (yield_ risk_factors));
      [apply firstn_two_length|simpl; lia].
  - intros Hin. repeat (apply in_app_or in Hin; destruct Hin as [Hin|Hin]).
    + unfold first in Hin. destruct (Qlt_bool 30 _); simpl in Hin.
      * destruct Hin as [Hin|[]]. discriminate.
      * destruct Hin.
    + destruct (Qlt_bool 20 (diversification risk_factors)); simpl in Hin.
      * destruct Hin as [Hin|[]]. discriminate.
      * destruct Hin.
    + destruct (Qlt_bool 20 (sustainability_ risk_factors));
        [|destruct Hin].
      apply in_map_iff in Hin. destruct Hin as (x & Hx & _). discriminate.
    + destruct (Qlt_bool 20 (yield_ risk_factors)); [|destruct Hin].
      apply in_map_iff in Hin. destruct Hin as (x & Hx & _). discriminate.
Qed.

Lemma few_holdings_factor (n : nat) :
  py_max 0 (40 - py_min 100 (of_nat n / 15 * 100) / 2) <= 20 <-> (6 <= n)%nat.
Proof.
  assert (E1 : of_nat n / 15 * 100 == of_nat n * (20 # 3)) by field.
  set (d := py_min 100 (of_nat n / 15 * 100)).
  assert (E2 : d / 2 == d * (1 # 2)) by field.
  split.
  - intros H. destruct (le_lt_dec 6 n) as [Hn|Hn]; [exact Hn|exfalso].
    assert (H5 : of_nat n <= 5).
    { change 5 with (of_nat 5). apply of_nat_le. lia. }
    assert (Hd : d <= 100 # 3).
    { unfold d, py_min. destruct (Qlt_bool _ 100) eqn:E; to_Q; lra. }
    pose proof (py_max_upper_r 0 (40 - d / 2)). lra.
  - intros Hn.
    assert (H6 : 6 <= of_nat n).
    { change 6 with (of_nat 6). apply of_nat_le. exact Hn. }
    assert (Hd : 40 <= d).
    { unfold d, py_min. destruct (Qlt_bool _ 100) eqn:E; to_Q; lra. }
    unfold py_max. destruct (Qlt_bool 0 _) eqn:E; to_Q; lra.
Qed.

(** X19: the recommendations of a returned assessment. There are between
    one and six of them, and the single "well-balanced" acknowledgment is
    given exactly when no label (concentration, sustainability, yield) is
    HIGH and the portfolio has at least six holdings; in every other case
    the list holds specific recommendations only. *)
Theorem x19_recommendations_or_well_balanced (portfolio : list Holding)
    (z : draws) (pos : N) :
  portfolio <> [] ->
  ~ total portfolio == 0 ->
  volatilities_ok portfolio ->
  exists r pos',
    assess_portfolio_risk portfolio z pos = Ok (r, pos')
    /\ (1 <= List.length (recommendations r) <= 6)%nat
    /\ (recommendations r = [Well_balanced]
        <-> concentration_risk r <> HIGH
            /\ sustainability_risk r <> HIGH
            /\ yield_risk r <> HIGH
            /\ (6 <= List.length portfolio)%nat)
    /\ (recommendations r <> [Well_balanced]
        -> ~ In Well_balanced (recommendations r)).
Proof.
  intros Hne Htot Hvol.
  destruct (assess_portfolio_risk_fields portfolio z pos Hne Htot Hvol)
    as (r & pos' & mc & ms & my & l95 & l99 & recs & Hr & _ & Hms & Hmy & _ & _
        & _ & _ & Hdiv & Hsust & Hyield & _ & _ & _ & _ & Hgen & Hrecs).
  exists r, pos'. split; [exact Hr|]. rewrite Hrecs.
  destruct portfolio as [|h t]; [contradiction|].
  destruct (recommendations_groups _ h t recs Hgen)
    as (first & second & third & fourth & -> & Hfirst & Hsecond & Hthird
        & Hfourth & L1 & L2 & L3 & L4 & Hnone).
  cbn [concentration diversification sustainability_ yield_] in *.
  assert (Cfirst : first = [] <-> concentration_risk r <> HIGH).
  { rewrite Hfirst. destruct (concentration_risk r); cbn [pick];
      split; intros; try discriminate; try lra; congruence. }
  assert (Csecond : second = [] <-> (6 <= List.length (h :: t))%nat).
  { rewrite Hsecond, Hdiv. apply few_holdings_factor. }
  assert (Cthird : third = [] <-> sustainability_risk r <> HIGH).
  { rewrite Hthird. split.
    - intros [Hle|Hall] Hhigh.
      + rewrite Hhigh in Hle. cbn [pick] in Hle. lra.
      + rewrite Hsust in Hhigh.
        apply (proj1 (risk_of_sustainability_spec ms)) in Hhigh.
        destruct (min_list_spec _ _ Hms) as [Hin _].
        unfold scores in Hin. apply in_map_iff in Hin.
        destruct Hin as (x & Hx & Hxin). specialize (Hall x Hxin).
        rewrite Hx in Hall. lra.
    - intros Hnot. left.
      destruct (sustainability_risk r); cbn [pick]; try lra. congruence. }
  assert (Cfourth : fourth = [] <-> yield_risk r <> HIGH).
  { rewrite Hfourth. split.
    - intros [Hle|Hall] Hhigh.
      + rewrite Hhigh in Hle. cbn [pick] in Hle. lra.
      + rewrite Hyield in Hhigh.
        apply (proj1 (risk_of_yield_spec my _)) in Hhigh.
        destruct (max_list_spec _ _ Hmy) as [Hin _].
        unfold yields in Hin. apply in_map_iff in Hin.
        destruct Hin as (x & Hx & Hxin). specialize (Hall x Hxin).
        rewrite Hx in Hall. lra.
    - intros Hnot. left.
      destruct (yield_risk r); cbn [pick]; try lra. congruence. }
  set (all := (first ++ second ++ third ++ fourth)%list) in *.
  assert (Hlen : (List.length all <= 6)%nat)
    by (unfold all; rewrite !length_app; lia).
  assert (Hall : all = [] <-> first = [] /\ second = [] /\ third = []
                              /\ fourth = []).
  { unfold all. split.
    - intros H. apply app_eq_nil in H. destruct H as [H1 H].
      apply app_eq_nil in H. destruct H as [H2 H].
      apply app_eq_nil in H. tauto.
    - intros (-> & -> & -> & ->). reflexivity. }
  destruct all as [|x rest] eqn:Eall; cbn [is_empty].
  - split; [simpl; lia|]. split; [|intros H; contradiction].
    split; [intros _|reflexivity]. tauto.
  - split; [simpl in *; lia|]. split.
    + split.
      * intros H. exfalso. apply Hnone. rewrite H. left. reflexivity.
      * intros H. exfalso.
        assert (x :: rest = []) by (apply Hall; tauto). discriminate.
    + intros _. exact Hnone.
Qed.

Lemma x19_recommendations_or_well_balanced_witness :
  (sample_portfolio <> []
   /\ ~ total sample_portfolio == 0
   /\ volatilities_ok sample_portfolio)
  /\ exists r pos',
       assess_portfolio_risk sample_portfolio calm 0 = Ok (r, pos')
       /\ (1 <= List.length (recommendations r) <= 6)%nat
       /\ (recommendations r = [Well_balanced]
           <-> concentration_risk r <> HIGH
               /\ sustainability_risk r <> HIGH
               /\ yield_risk r <> HIGH
               /\ (6 <= List.length sample_portfolio)%nat)
       /\ (recommendations r <> [Well_balanced]
           -> ~ In Well_balanced (recommendations r)).
Proof.
  assert (Hne : sample_portfolio <> []) by discriminate.
  assert (Htot : ~ total sample_portfolio == 0)
    by (intros H; vm_compute in H; discriminate).
  assert (Hvol : volatilities_ok sample_portfolio)
    by (unfold volatilities_ok, sample_portfolio;
        repeat constructor; vm_compute; discriminate).
  split; [repeat split; assumption|].
  exact (x19_recommendations_or_well_balanced sample_portfolio calm 0
           Hne Htot Hvol).
Defined.

End RiskExtras.

(** ** More on the backtester *)

Module BacktestMore.
Import DividendBacktester BacktestFacts ScoreMore.

Lemma compare_lt_trans (a b c : string) :
  String.compare a b = Lt -> String.compare b c = Lt -> String.compare a c = Lt.
Proof.
  intros H1 H2.
  exact (@StrictOrder_Transitive _ _ OrdersEx.String_as_OT.lt_strorder a b c
           H1 H2).
Qed.

Lemma compare_refl (a : string) : String.compare a a = Eq.
Proof.
  destruct (String.compare a a) eqn:E; [reflexivity| |].
  - exfalso.
    exact (@StrictOrder_Irreflexive _ _ OrdersEx.String_as_OT.lt_strorder a E).
  - exfalso. rewrite String.compare_antisym in E.
    destruct (String.compare a a) eqn:E'; try discriminate.
    exact (@StrictOrder_Irreflexive _ _ OrdersEx.String_as_OT.lt_strorder a E').
Qed.

Lemma compare_gt_lt (a b : string) :
  String.compare a b = Gt -> String.compare b a = Lt.
Proof.
  intros H. rewrite String.compare_antisym, H. reflexivity.
Qed.

Lemma upsert_In (q x : Quote) (acc : list Quote) :
  In x (upsert q acc) -> x = q \/ In x acc.
Proof.
  induction acc as [|h t IH]; simpl.
  - intros [<-|[]]. left. reflexivity.
  - destruct (String.compare (symbol q) (symbol h)).
    + intros [<-|H]; [left; reflexivity|right; right; exact H].
    + intros [<-|H]; [left; reflexivity|right; exact H].
    + intros [<-|H]; [right; left; reflexivity|].
      destruct (IH H) as [->|H']; [left; reflexivity|right; right; exact H'].
Qed.

Lemma upsert_sorted (q : Quote) (acc : list Quote) :
  StronglySorted by_symbol acc -> StronglySorted by_symbol (upsert q acc).
Proof.
  induction 1 as [|h t Hs IH Hall]; simpl.
  - constructor; constructor.
  - destruct (String.compare (symbol q) (symbol h)) eqn:E.
    + apply String.compare_eq_iff in E.
      constructor; [exact Hs|].
      eapply Forall_impl; [|exact Hall]. intros y Hy.
      unfold by_symbol in *. rewrite E. exact Hy.
    + constructor; [constructor; assumption|].
      constructor; [exact E|].
      eapply Forall_impl; [|exact Hall]. intros y Hy.
      unfold by_symbol in *. eapply compare_lt_trans; eassumption.
    + constructor; [exact IH|].
      apply Forall_forall. intros y Hy.
      destruct (upsert_In _ _ _ Hy) as [->|Hy'].
      * apply compare_gt_lt, E.
      * rewrite Forall_forall in Hall. apply Hall, Hy'.
Qed.

Lemma row_of_upsert (sym : string) (q : Quote) (acc : list Quote) :
  row_of sym (upsert q acc)
  = if String.eqb (symbol q) sym then Some q else row_of sym acc.
Proof.
  unfold row_of. induction acc as [|h t IH]; simpl.
  - destruct (String.eqb (symbol q) sym); reflexivity.
  - destruct (String.compare (symbol q) (symbol h)) eqn:E; simpl.
    + apply String.compare_eq_iff in E. rewrite <- E.
      destruct (String.eqb (symbol q) sym); reflexivity.
    + reflexivity.
    + rewrite IH.
      destruct (String.eqb (symbol h) sym) eqn:Eh;
        destruct (String.eqb (symbol q) sym) eqn:Eq; try reflexivity.
      apply String.eqb_eq in Eh. apply String.eqb_eq in Eq.
      rewrite Eq, <- Eh, compare_refl in E. discriminate.
Qed.

Lemma find_append {A : Type} (f : A -> bool) (l1 l2 : list A) :
  find f (l1 ++ l2)
  = match find f l1 with
    | Some x => Some x
    | None => find f l2
    end.
Proof.
  induction l1 as [|x l1 IH]; simpl; [reflexivity|].
  destruct (f x); [reflexivity|exact IH].
Qed.

Lemma groupby_fold (rows : list Quote) :
  forall acc,
  (forall x, In x (fold_left (fun a q => upsert q a) rows acc) ->
             In x rows \/ In x acc)
  /\ (StronglySorted by_symbol acc ->
      StronglySorted by_symbol (fold_left (fun a q => upsert q a) rows acc))
  /\ (forall sym,
        row_of sym (fold_left (fun a q => upsert q a) rows acc)
        = match row_of sym (rev rows) with
          | Some q => Some q
          | None => row_of sym acc
          end).
Proof.
  induction rows as [|q rows IH]; intros acc.
  - simpl. split; [auto|]. split; [auto|]. reflexivity.
  - cbn [fold_left]. destruct (IH (upsert q acc)) as (Hin & Hsorted & Hrow).
    split; [|split].
    + intros x Hx. destruct (Hin x Hx) as [H|H].
      * left. right. exact H.
      * destruct (upsert_In _ _ _ H) as [->|H'];
          [left; left; reflexivity|right; exact H'].
    + intros Hs. apply Hsorted, upsert_sorted, Hs.
    + intros sym. rewrite Hrow, row_of_upsert. cbn [rev]. unfold row_of.
      rewrite find_append. cbn [find].
      destruct (find _ (rev rows)); [reflexivity|].
      destruct (String.eqb (symbol q) sym); reflexivity.
Qed.

Lemma sorted_NoDup (l : list Quote) :
  StronglySorted by_symbol l -> NoDup (map symbol l).
Proof.
  induction 1 as [|h t Hs IH Hall]; simpl; constructor; [|exact IH].
  intros Hin. apply in_map_iff in Hin. destruct Hin as (y & Hy & Hyin).
  rewrite Forall_forall in Hall. specialize (Hall y Hyin).
  unfold by_symbol in Hall. rewrite Hy, compare_refl in Hall. discriminate.
Qed.

Lemma sorted_filter (f : Quote -> bool) (l : list Quote) :
  StronglySorted by_symbol l -> StronglySorted by_symbol (filter f l).
Proof.
  induction 1 as [|h t Hs IH Hall]; simpl; [constructor|].
  destruct (f h); [|exact IH].
  constructor; [exact IH|].
  apply Forall_forall. intros y Hy. apply filter_In in Hy.
  rewrite Forall_forall in Hall. apply Hall. tauto.
Qed.

Lemma current_data_sorted (historical_data : list Quote) (d : datetime) :
  StronglySorted by_symbol (current_data historical_data d).
Proof.
  unfold current_data, groupby_symbol_last.
  apply (groupby_fold _ []). constructor.
Qed.

(** The transactions a rebalance appends. *)
Lemma sell_holdings_log (qualified : list Quote) (d : datetime)
    (items : list (string * Z)) :
  forall cash txs,
  exists new,
    snd (sell_holdings qualified d items cash txs) = (txs ++ new)%list
    /\ Forall (fun t => tx_date t = d /\ tx_action t = SELL) new.
Proof.
  induction items as [|[sym shares] items IH]; intros cash txs.
  - exists []. rewrite app_nil_r. split; [reflexivity|constructor].
  - cbn [sell_holdings]. destruct (price_in qualified sym) as [p|].
    + destruct (IH (cash + inject_Z shares * p)
                  (txs ++ [ {| tx_date := d; tx_symbol := sym; tx_action := SELL;
                               tx_shares := shares; tx_price := p |} ])%list)
        as (new & Hnew & Hall).
      eexists. rewrite Hnew, <- app_assoc. split; [reflexivity|].
      constructor; [split; reflexivity|exact Hall].
    + apply IH.
Qed.

Lemma buy_holdings_log (stocks : list Quote) (d : datetime) (target : Q) :
  forall portfolio cash txs portfolio' cash' txs',
  buy_holdings stocks d target portfolio cash txs = Ok (portfolio', cash', txs') ->
  exists new,
    txs' = (txs ++ new)%list
    /\ Forall (fun t => tx_date t = d /\ tx_action t = BUY) new.
Proof.
  induction stocks as [|s stocks IH]; intros portfolio cash txs p' c' t' H.
  - injection H as <- <- <-. exists []. rewrite app_nil_r.
    split; [reflexivity|constructor].
  - cbn [buy_holdings] in H.
    destruct (Qeq_bool (price s) 0); [discriminate|].
    destruct (Qle_bool _ cash).
    + destruct (IH _ _ _ _ _ _ H) as (new & -> & Hall).
      eexists. rewrite <- app_assoc. split; [reflexivity|].
      constructor; [split; reflexivity|exact Hall].
    + apply (IH _ _ _ _ _ _ H).
Qed.

Lemma rebalance_log (historical_data : list Quote) (min_yield : Q)
    (d : datetime) (st st' : State) :
  rebalance historical_data min_yield d st = Ok st' ->
  (exists new,
     transactions st' = (transactions st ++ new)%list
     /\ Forall (fun t => tx_date t = d) new)
  /\ (exists points,
        portfolio_values st' = (portfolio_values st ++ points)%list
        /\ Forall (fun p => vp_date p = d) points
        /\ (List.length points <= 1)%nat).
Proof.
  unfold rebalance. intros H.
  set (qualified := qualified_stocks (current_data historical_data d) min_yield)
    in *.
  destruct (List.length qualified =? 0)%nat.
  { injection H as <-. split.
    - exists []. rewrite app_nil_r. split; [reflexivity|constructor].
    - exists []. rewrite app_nil_r. repeat split; [constructor|simpl; lia]. }
  destruct (sell_holdings qualified d (portfolio st) (cash st) (transactions st))
    as [cash1 txs1] eqn:Esell.
  destruct (sell_holdings_log qualified d (portfolio st) (cash st)
              (transactions st)) as (sold & Hsold & Hsold_all).
  rewrite Esell in Hsold. cbn [snd] in Hsold.
  destruct (buy_holdings qualified d _ [] cash1 txs1)
    as [[[portfolio2 cash2] txs2]|] eqn:Ebuy; cbn [bind] in H; [|discriminate].
  destruct (buy_holdings_log _ _ _ _ _ _ _ _ _ Ebuy) as (bought & -> & Hbought).
  injection H as <-. cbn [transactions portfolio_values]. split.
  - exists (sold ++ bought)%list. rewrite Hsold, <- app_assoc.
    split; [reflexivity|]. apply Forall_app. split.
    + eapply Forall_impl; [|exact Hsold_all]. intros t Ht. apply Ht.
    + eapply Forall_impl; [|exact Hbought]. intros t Ht. apply Ht.
  - eexists. split; [reflexivity|]. split; [|simpl; lia].
    constructor; [reflexivity|constructor].
Qed.

Lemma inject_Z_nonneg (n : Z) : (0 <= n)%Z -> 0 <= inject_Z n.
Proof. intros H. unfold Qle. simpl. lia. Qed.

Lemma price_in_In (qualified : list Quote) (sym : string) (p : Q) :
  price_in qualified sym = Some p ->
  exists q, In q qualified /\ symbol q = sym /\ price q = p.
Proof.
  unfold price_in. intros H.
  destruct (find _ qualified) as [q|] eqn:E; [|discriminate].
  injection H as <-. apply find_some in E. destruct E as [Hin Hsym].
  apply String.eqb_eq in Hsym. exists q. repeat split; assumption.
Qed.

(** Counting holdings at positive prices never lowers the value. *)
Lemma holdings_value_grows (qualified : list Quote) (items : list (string * Z)) :
  Forall (fun q => 0 < price q) qualified ->
  Forall (fun kv => (0 <= snd kv)%Z) items ->
  forall v, v <= holdings_value qualified items v.
Proof.
  intros Hprices. induction 1 as [|[sym shares] items Hs Hall IH]; intros v.
  - apply Qle_refl.
  - cbn [holdings_value]. destruct (price_in qualified sym) as [p|] eqn:E.
    + eapply Qle_trans; [|apply IH].
      destruct (price_in_In _ _ _ E) as (q & Hq & _ & <-).
      rewrite Forall_forall in Hprices. specialize (Hprices q Hq).
      assert (0 <= inject_Z shares) by (apply inject_Z_nonneg, Hs).
      assert (0 <= inject_Z shares * price q)
        by (apply Qmult_le_0_compat; [assumption|lra]).
      lra.
    + apply IH.
Qed.

Lemma dict_set_In (d : list (string * Z)) (k : string) (v : Z)
    (kv : string * Z) :
  In kv (dict_set d k v) -> kv = (k, v) \/ In kv d.
Proof.
  induction d as [|[k' v'] d IH]; simpl.
  - intros [<-|[]]. left. reflexivity.
  - destruct (String.eqb k k').
    + intros [<-|H]; [left; reflexivity|right; right; exact H].
    + intros [<-|H]; [right; left; reflexivity|].
      destruct (IH H) as [->|H']; [left; reflexivity|right; right; exact H'].
Qed.

(** The whole number of shares an allocation buys is not negative. *)
Lemma shares_nonneg (target p : Q) :
  0 <= target -> 0 < p -> (0 <= py_int (target / p))%Z.
Proof.
  intros Ht Hp.
  assert (Hx : 0 <= target / p).
  { apply Qle_shift_div_l; [exact Hp|]. lra. }
  rewrite (RiskExtras.py_int_floor _ Hx).
  change 0%Z with (Qfloor 0). apply Qfloor_resp_le, Hx.
Qed.

(** Buying from a solvent state at positive prices. *)
Lemma buy_holdings_solvent (d : datetime) (target : Q) (stocks : list Quote) :
  0 <= target ->
  Forall (fun q => 0 < price q) stocks ->
  forall portfolio cash txs,
  0 <= cash ->
  Forall (fun kv => (0 <= snd kv)%Z) portfolio ->
  exists portfolio' cash' txs',
    buy_holdings stocks d target portfolio cash txs
      = Ok (portfolio', cash', txs')
    /\ 0 <= cash'
    /\ Forall (fun kv => (0 <= snd kv)%Z) portfolio'.
Proof.
  intros Ht. induction 1 as [|s stocks Hs Hall IH]; intros portfolio cash txs Hc Hp.
  - exists portfolio, cash, txs. repeat split; assumption.
  - cbn [buy_holdings].
    destruct (Qeq_bool (price s) 0) eqn:E0; [to_Q; lra|].
    pose proof (shares_nonneg target (price s) Ht Hs) as Hn.
    destruct (Qle_bool _ cash) eqn:Ecost.
    + to_Q. apply IH.
      * lra.
      * apply Forall_forall. intros kv Hkv.
        destruct (dict_set_In _ _ _ _ Hkv) as [->|Hin]; [exact Hn|].
        rewrite Forall_forall in Hp. apply Hp, Hin.
    + apply IH; assumption.
Qed.

Lemma qualified_in_history (historical_data : list Quote) (d : datetime)
    (min_yield : Q) (q : Quote) :
  In q (qualified_stocks (current_data historical_data d) min_yield) ->
  In q historical_data /\ Qle_bool min_yield (dividend_yield q) = true.
Proof.
  unfold qualified_stocks. intros H. apply filter_In in H.
  destruct H as [Hcur Hy]. split; [|exact Hy].
  unfold current_data, groupby_symbol_last in Hcur.
  destruct (groupby_fold
              (filter (fun q => (date q <=? d)%Z) historical_data) [])
    as (Hin & _).
  destruct (Hin q Hcur) as [H|[]]. apply filter_In in H. tauto.
Qed.

(** A rebalance of a solvent state at positive prices. *)
Lemma rebalance_solvent (historical_data : list Quote) (min_yield : Q)
    (d : datetime) (st : State) :
  positive_prices historical_data ->
  solvent st ->
  exists st',
    rebalance historical_data min_yield d st = Ok st' /\ solvent st'.
Proof.
  intros Hprices [Hcash Hshares]. unfold rebalance.
  set (qualified := qualified_stocks (current_data historical_data d) min_yield).
  assert (Hq : Forall (fun q => 0 < price q) qualified).
  { apply Forall_forall. intros q Hin.
    destruct (qualified_in_history _ _ _ _ Hin) as [Hhist _].
    unfold positive_prices in Hprices. rewrite Forall_forall in Hprices.
    apply Hprices, Hhist. }
  destruct (List.length qualified =? 0)%nat eqn:En.
  { exists st. split; [reflexivity|split; assumption]. }
  apply Nat.eqb_neq in En.
  set (value := holdings_value qualified (portfolio st) (cash st)).
  assert (Hvalue : 0 <= value).
  { eapply Qle_trans; [exact Hcash|].
    apply holdings_value_grows; assumption. }
  assert (Htarget : 0 <= value / of_nat (List.length qualified)).
  { apply Qle_shift_div_l; [apply of_nat_pos; lia|]. lra. }
  destruct (sell_holdings qualified d (portfolio st) (cash st) (transactions st))
    as [cash1 txs1] eqn:Esell.
  pose proof (sell_cash_is_holdings_value qualified d (portfolio st) (cash st)
                (transactions st)) as Hcash1.
  rewrite Esell in Hcash1. cbn [fst] in Hcash1.
  destruct (buy_holdings_solvent d _ qualified Htarget Hq [] cash1 txs1)
    as (p2 & c2 & txs2 & Hbuy & Hc2 & Hp2).
  { rewrite Hcash1. exact Hvalue. }
  { constructor. }
  rewrite Hbuy. cbn [bind].
  eexists. split; [reflexivity|]. split; assumption.
Qed.

Lemma dict_set_fresh (d : list (string * Z)) (k : string) (v : Z) :
  ~ In k (map fst d) -> dict_set d k v = (d ++ [(k, v)])%list.
Proof.
  induction d as [|[k' v'] d IH]; intros H; simpl.
  - reflexivity.
  - destruct (String.eqb k k') eqn:E.
    + apply String.eqb_eq in E. exfalso. apply H. left. symmetry. exact E.
    + f_equal. apply IH. intros Hin. apply H. right. exact Hin.
Qed.

Lemma dict_set_keys (d : list (string * Z)) (k : string) (v : Z) :
  NoDup (map fst d) -> NoDup (map fst (dict_set d k v)).
Proof.
  intros Hnd. destruct (in_dec string_dec k (map fst d)) as [Hin|Hout].
  - assert (E : map fst (dict_set d k v) = map fst d).
    { clear Hnd. induction d as [|[k' v'] d IH]; [destruct Hin|].
      simpl. destruct (String.eqb k k') eqn:Ek.
      - apply String.eqb_eq in Ek. subst k'. reflexivity.
      - simpl. f_equal. apply IH. destruct Hin as [Hin|Hin]; [|exact Hin].
        simpl in Hin. subst k'. rewrite String.eqb_refl in Ek. discriminate. }
    rewrite E. exact Hnd.
  - rewrite (dict_set_fresh d k v Hout), map_app. cbn [map fst].
    apply NoDup_app_remove_l with (l := []). simpl.
    apply Permutation_NoDup with (l := k :: map fst d).
    + apply Permutation_cons_append.
    + constructor; assumption.
Qed.

(** What the buy loop leaves in the portfolio. *)
Lemma buy_holdings_keys (d : datetime) (target : Q) (stocks : list Quote) :
  forall portfolio cash txs portfolio' cash' txs',
  NoDup (map fst portfolio) ->
  buy_holdings stocks d target portfolio cash txs = Ok (portfolio', cash', txs') ->
  NoDup (map fst portfolio')
  /\ forall kv, In kv portfolio' ->
       In kv portfolio \/ exists s, In s stocks /\ symbol s = fst kv.
Proof.
  induction stocks as [|s stocks IH]; intros portfolio cash txs p' c' t' Hnd H.
  - injection H as <- <- <-. split; [exact Hnd|]. intros kv Hkv. left. exact Hkv.
  - cbn [buy_holdings] in H.
    destruct (Qeq_bool (price s) 0); [discriminate|].
    destruct (Qle_bool _ cash).
    + destruct (IH _ _ _ _ _ _ (dict_set_keys _ (symbol s) _ Hnd) H)
        as [Hnd' Hkeys].
      split; [exact Hnd'|]. intros kv Hkv.
      destruct (Hkeys kv Hkv) as [Hin|(s' & Hs' & Hsym)].
      * destruct (dict_set_In _ _ _ _ Hin) as [->|Hin'].
        -- right. exists s. split; [left; reflexivity|reflexivity].
        -- left. exact Hin'.
      * right. exists s'. split; [right; exact Hs'|exact Hsym].
    + destruct (IH _ _ _ _ _ _ Hnd H) as [Hnd' Hkeys].
      split; [exact Hnd'|]. intros kv Hkv.
      destruct (Hkeys kv Hkv) as [Hin|(s' & Hs' & Hsym)].
      * left. exact Hin.
      * right. exists s'. split; [right; exact Hs'|exact Hsym].
Qed.

Lemma price_in_listed (qualified : list Quote) (sym : string) :
  listed qualified sym
  = match price_in qualified sym with Some _ => true | None => false end.
Proof.
  unfold listed, price_in.
  induction qualified as [|q qualified IH]; [reflexivity|].
  cbn [existsb find]. destruct (String.eqb (symbol q) sym); [reflexivity|exact IH].
Qed.

(** The sales of a rebalance: the held positions whose symbol is listed,
    whole and in holding order. *)
Lemma sell_holdings_positions (qualified : list Quote) (d : datetime)
    (items : list (string * Z)) :
  forall cash txs,
  exists sold,
    snd (sell_holdings qualified d items cash txs) = (txs ++ sold)%list
    /\ Forall (fun t => tx_action t = SELL /\ traded_at qualified d t) sold
    /\ map position sold = filter (fun kv => listed qualified (fst kv)) items.
Proof.
  induction items as [|[sym shares] items IH]; intros cash txs.
  - exists []. rewrite app_nil_r. repeat split. constructor.
  - cbn [sell_holdings filter fst]. rewrite price_in_listed.
    destruct (price_in qualified sym) as [p|] eqn:Ep.
    + destruct (IH (cash + inject_Z shares * p)
                  (txs ++ [ {| tx_date := d; tx_symbol := sym; tx_action := SELL;
                               tx_shares := shares; tx_price := p |} ])%list)
        as (sold & Hsold & Hall & Hpos).
      eexists. rewrite Hsold, <- app_assoc. split; [reflexivity|]. split.
      * constructor; [|exact Hall]. split; [reflexivity|].
        split; [reflexivity|]. cbn [tx_symbol tx_price].
        destruct (price_in_In _ _ _ Ep) as (q & Hq & Hsym & Hp).
        exists q. repeat split; assumption.
      * cbn [app map]. rewrite Hpos. reflexivity.
    + apply IH.
Qed.

(** The purchases of a rebalance: one per bought row, and the portfolio is
    their positions in buying order. *)
Lemma buy_holdings_positions (d : datetime) (target : Q) (stocks : list Quote) :
  NoDup (map symbol stocks) ->
  forall portfolio cash txs portfolio' cash' txs',
  (forall s, In s stocks -> ~ In (symbol s) (map fst portfolio)) ->
  buy_holdings stocks d target portfolio cash txs = Ok (portfolio', cash', txs') ->
  exists bought,
    txs' = (txs ++ bought)%list
    /\ Forall (fun t => tx_action t = BUY /\ traded_at stocks d t) bought
    /\ portfolio' = (portfolio ++ map position bought)%list.
Proof.
  induction stocks as [|s stocks IH];
    intros Hnd portfolio cash txs p' c' t' Hfresh H.
  - injection H as <- <- <-. exists []. rewrite !app_nil_r.
    repeat split. constructor.
  - cbn [buy_holdings] in H. cbn [map] in Hnd.
    inversion Hnd as [|? ? Hnotin Hnd']; subst.
    destruct (Qeq_bool (price s) 0); [discriminate|].
    assert (Hweaken : forall bought,
              Forall (fun t => tx_action t = BUY /\ traded_at stocks d t) bought ->
              Forall (fun t => tx_action t = BUY /\ traded_at (s :: stocks) d t)
                bought).
    { intros bought Hall. eapply Forall_impl; [|exact Hall].
      intros t (Ha & Hd & q & Hq & Hsym & Hp). split; [exact Ha|].
      split; [exact Hd|]. exists q. repeat split; try assumption.
      right. exact Hq. }
    destruct (Qle_bool _ cash).
    + rewrite (dict_set_fresh portfolio) in H
        by (apply Hfresh; left; reflexivity).
      assert (Hfresh' : forall s', In s' stocks ->
                ~ In (symbol s')
                    (map fst (portfolio
                              ++ [(symbol s, py_int (target / price s))]))).
      { intros s' Hs' Hin. rewrite map_app in Hin. apply in_app_or in Hin.
        destruct Hin as [Hin|[Hin|[]]].
        - exact (Hfresh s' (or_intror Hs') Hin).
        - cbn [fst] in Hin. apply Hnotin. rewrite Hin. apply in_map, Hs'. }
      destruct (IH Hnd' _ _ _ _ _ _ Hfresh' H) as (bought & -> & Hall & ->).
      eexists. rewrite <- !app_assoc. split; [reflexivity|]. split.
      * constructor; [|apply Hweaken, Hall]. split; [reflexivity|].
        split; [reflexivity|]. exists s.
        split; [left; reflexivity|split; reflexivity].
      * reflexivity.
    + destruct (IH Hnd' _ _ _ _ _ _
                  (fun s' Hs' => Hfresh s' (or_intror Hs')) H)
        as (bought & -> & Hall & ->).
      exists bought. split; [reflexivity|]. split; [apply Hweaken, Hall|reflexivity].
Qed.

(** The log of one rebalance: the sales, then the purchases. *)
Lemma rebalance_trades (historical_data : list Quote) (min_yield : Q)
    (d : datetime) (st st' : State) :
  rebalance historical_data min_yield d st = Ok st' ->
  exists sold bought,
    transactions st' = (transactions st ++ sold ++ bought)%list
    /\ Forall (fun t => tx_action t = SELL
                        /\ traded_at
                             (qualified_stocks (current_data historical_data d)
                                min_yield) d t) sold
    /\ map position sold
       = filter (fun kv => listed
                             (qualified_stocks (current_data historical_data d)
                                min_yield) (fst kv))
           (portfolio st)
    /\ Forall (fun t => tx_action t = BUY
                        /\ traded_at
                             (qualified_stocks (current_data historical_data d)
                                min_yield) d t) bought
    /\ NoDup (map tx_symbol bought)
    /\ (qualified_stocks (current_data historical_data d) min_yield <> [] ->
        portfolio st' = map position bought).
Proof.
  unfold rebalance. intros H.
  set (qualified := qualified_stocks (current_data historical_data d) min_yield)
    in *.
  destruct (List.length qualified =? 0)%nat eqn:En.
  { apply Nat.eqb_eq in En.
    assert (Hq : qualified = []) by (destruct qualified; [reflexivity|discriminate]).
    injection H as <-. exists [], []. rewrite !app_nil_r, Hq.
    split; [reflexivity|]. split; [constructor|].
    split; [|split; [constructor|split; [constructor|intros Hne; contradiction]]].
    symmetry. clear. induction (portfolio st) as [|kv l IH]; [reflexivity|exact IH]. }
  assert (Hnd : NoDup (map symbol qualified)).
  { apply sorted_NoDup. unfold qualified, qualified_stocks.
    apply sorted_filter, current_data_sorted. }
  destruct (sell_holdings qualified d (portfolio st) (cash st) (transactions st))
    as [cash1 txs1] eqn:Esell.
  destruct (sell_holdings_positions qualified d (portfolio st) (cash st)
              (transactions st)) as (sold & Hsold & Hsold_all & Hpos).
  rewrite Esell in Hsold. cbn [snd] in Hsold.
  destruct (buy_holdings qualified d _ [] cash1 txs1)
    as [[[portfolio2 cash2] txs2]|] eqn:Ebuy; cbn [bind] in H; [|discriminate].
  destruct (buy_holdings_keys d _ qualified [] cash1 txs1 _ _ _
              (NoDup_nil string) Ebuy) as [Hkeys _].
  destruct (buy_holdings_positions d _ qualified Hnd [] cash1 txs1 _ _ _
              (fun s _ (Hin : In (symbol s) []) => Hin) Ebuy)
    as (bought & -> & Hbought & ->).
  cbn [app] in Hkeys. rewrite map_map in Hkeys.
  injection H as <-. cbn [transactions portfolio].
  exists sold, bought. rewrite Hsold, <- app_assoc.
  repeat split; try assumption.
Qed.

Lemma purchases_of_trades (sold bought : list Transaction) :
  Forall (fun t => tx_action t = SELL) sold ->
  Forall (fun t => tx_action t = BUY) bought ->
  filter is_buy (sold ++ bought) = bought.
Proof.
  intros Hsold Hbought. rewrite filter_app.
  assert (E1 : filter is_buy sold = []).
  { apply filter_nothing. intros t Ht. rewrite Forall_forall in Hsold.
    unfold is_buy. rewrite (Hsold t Ht). reflexivity. }
  assert (E2 : filter is_buy bought = bought).
  { clear E1. induction Hbought as [|t l Ht Hall IH]; [reflexivity|].
    cbn [filter]. unfold is_buy at 1. rewrite Ht. f_equal. exact IH. }
  rewrite E1, E2. reflexivity.
Qed.

End BacktestMore.

(** *** Further properties of the backtester *)

Module BacktestExtras.
Import DividendBacktester BacktestFacts ScoreMore BacktestMore.

(** X20: no look-ahead. The row the backtester uses for a symbol at a
    rebalance date is the symbol's last row, in the order of the data,
    among the rows dated on or before that date; every row it uses is a
    row of the data dated on or before the rebalance date. *)
Theorem x20_current_row_is_last_row_up_to_date (historical_data : list Quote)
    (rebalance_date : datetime) (sym : string) :
  row_of sym (current_data historical_data rebalance_date)
  = row_of sym
      (rev (filter (fun q => (date q <=? rebalance_date)%Z) historical_data))
  /\ Forall (fun q => In q historical_data /\ (date q <= rebalance_date)%Z)
       (current_data historical_data rebalance_date).
Proof.
  unfold current_data, groupby_symbol_last.
  destruct (groupby_fold
              (filter (fun q => (date q <=? rebalance_date)%Z) historical_data)
              []) as (Hin & _ & Hrow).
  split.
  - rewrite Hrow. destruct (row_of sym (rev _)); reflexivity.
  - apply Forall_forall. intros q Hq.
    destruct (Hin q Hq) as [H|[]]. apply filter_In in H.
    destruct H as [H1 H2]. apply Z.leb_le in H2. split; assumption.
Qed.

(** X21: the rows of a rebalance date, and the qualified rows among them,
    hold every symbol at most once and stand in ascending order of the
    symbols. *)
Theorem x21_one_row_per_symbol_in_symbol_order (historical_data : list Quote)
    (rebalance_date : datetime) (min_yield : Q) :
  StronglySorted by_symbol (current_data historical_data rebalance_date)
  /\ NoDup (map symbol (current_data historical_data rebalance_date))
  /\ StronglySorted by_symbol
       (qualified_stocks (current_data historical_data rebalance_date) min_yield)
  /\ NoDup
       (map symbol
          (qualified_stocks (current_data historical_data rebalance_date)
             min_yield)).
Proof.
  pose proof (current_data_sorted historical_data rebalance_date) as Hs.
  pose proof (sorted_filter (fun q => Qle_bool min_yield (dividend_yield q)) _ Hs)
    as Hq.
  repeat split; try assumption; apply sorted_NoDup; assumption.
Qed.

Lemma dividends_only_buys (historical_data : list Quote)
    (transactions : list Transaction) :
  forall total,
  dividends_received historical_data transactions total
  = dividends_received historical_data (filter is_buy transactions) total.
Proof.
  induction transactions as [|t rest IH]; intros total.
  - reflexivity.
  - cbn [dividends_received filter]. unfold is_buy at 1.
    destruct (tx_action t) eqn:E.
    + apply IH.
    + cbn [dividends_received]. rewrite E. apply IH.
Qed.

Lemma dividends_split (historical_data : list Quote)
    (txs1 txs2 : list Transaction) :
  forall total,
  dividends_received historical_data (txs1 ++ txs2) total
  = dividends_received historical_data txs2
      (dividends_received historical_data txs1 total).
Proof.
  induction txs1 as [|t rest IH]; intros total.
  - reflexivity.
  - cbn [dividends_received app]. destruct (tx_action t); apply IH.
Qed.

(** X22: dividends are attributed to purchases alone. The total is the
    same when every SELL is removed from the log, so a position keeps
    collecting the dividends paid after it was sold; and the total over a
    log is the total over its first part carried into its second part. *)
Theorem x22_dividends_ignore_sales (historical_data : list Quote)
    (transactions more : list Transaction) (total : Q) :
  dividends_received historical_data transactions total
  = dividends_received historical_data (filter is_buy transactions) total
  /\ dividends_received historical_data (transactions ++ more) total
     = dividends_received historical_data more
         (dividends_received historical_data transactions total).
Proof.
  split; [apply dividends_only_buys|apply dividends_split].
Qed.

Lemma fold_dividends_grow (shares : Z) (rows : list Quote) :
  (0 <= shares)%Z ->
  Forall (fun q => 0 < dividend_amount q) rows ->
  forall total,
  total <= fold_left
             (fun total dividend_row =>
                total + inject_Z shares * dividend_amount dividend_row)
             rows total.
Proof.
  intros Hs. induction 1 as [|q rows Hq Hall IH]; intros total.
  - apply Qle_refl.
  - cbn [fold_left]. eapply Qle_trans; [|apply IH].
    assert (0 <= inject_Z shares) by (unfold Qle; simpl; lia).
    assert (0 <= inject_Z shares * dividend_amount q)
      by (apply Qmult_le_0_compat; [assumption|lra]).
    lra.
Qed.

(** X23: with no short purchase in the log, dividends only add up: the
    total received is never below the total the loop started from. *)
Theorem x23_dividends_never_negative (historical_data : list Quote)
    (transactions : list Transaction) (total : Q) :
  Forall (fun t => (0 <= tx_shares t)%Z) (filter is_buy transactions) ->
  total <= dividends_received historical_data transactions total.
Proof.
  rewrite dividends_only_buys.
  generalize (filter is_buy transactions). intros buys Hall. revert total.
  induction Hall as [|t rest Ht Hall IH]; intros total.
  - apply Qle_refl.
  - cbn [dividends_received]. destruct (tx_action t).
    + apply IH.
    + eapply Qle_trans; [|apply IH].
      apply fold_dividends_grow; [exact Ht|].
      apply Forall_forall. intros q Hq. unfold dividends_after in Hq.
      apply filter_In in Hq. destruct Hq as [_ Hq].
      apply andb_true_iff in Hq. destruct Hq as [_ Hq]. to_Q. exact Hq.
Qed.

Lemma x23_dividends_never_negative_witness :
  Forall (fun t => (0 <= tx_shares t)%Z) (filter is_buy bought_then_sold)
  /\ 0 <= dividends_received paying_history bought_then_sold 0.
Proof.
  assert (H : Forall (fun t => (0 <= tx_shares t)%Z)
                (filter is_buy bought_then_sold))
    by (repeat constructor; simpl; lia).
  split; [exact H|].
  exact (x23_dividends_never_negative paying_history bought_then_sold 0 H).
Defined.

(** X24: the log of a backtest only grows. The rebalancing loop keeps
    every transaction and every value point it started with, in place, and
    appends transactions and at most one value point per rebalance date,
    each dated with one of the rebalance dates. *)
Theorem x24_backtest_log_only_grows (historical_data : list Quote)
    (min_yield : Q) (rebalance_dates : list datetime) (st st' : State) :
  rebalance_loop historical_data min_yield rebalance_dates st = Ok st' ->
  (exists new,
     transactions st' = (transactions st ++ new)%list
     /\ Forall (fun t => In (tx_date t) rebalance_dates) new)
  /\ (exists points,
        portfolio_values st' = (portfolio_values st ++ points)%list
        /\ Forall (fun p => In (vp_date p) rebalance_dates) points
        /\ (List.length points <= List.length rebalance_dates)%nat).
Proof.
  revert st. induction rebalance_dates as [|d dates IH]; intros st H.
  - injection H as <-. split.
    + exists []. rewrite app_nil_r. split; [reflexivity|constructor].
    + exists []. rewrite app_nil_r. repeat split; [constructor|simpl; lia].
  - cbn [rebalance_loop] in H.
    destruct (rebalance historical_data min_yield d st) as [st1|] eqn:E;
      cbn [bind] in H; [|discriminate].
    destruct (rebalance_log _ _ _ _ _ E)
      as ((new1 & Ht1 & Hall1) & (pts1 & Hp1 & Hpall1 & Hlen1)).
    destruct (IH st1 H) as ((new2 & Ht2 & Hall2) & (pts2 & Hp2 & Hpall2 & Hlen2)).
    split.
    + exists (new1 ++ new2)%list. rewrite Ht2, Ht1, <- app_assoc.
      split; [reflexivity|]. apply Forall_app. split.
      * eapply Forall_impl; [|exact Hall1]. intros t ->. left. reflexivity.
      * eapply Forall_impl; [|exact Hall2]. intros t Ht. right. exact Ht.
    + exists (pts1 ++ pts2)%list. rewrite Hp2, Hp1, <- app_assoc.
      split; [reflexivity|]. split.
      * apply Forall_app. split.
        -- eapply Forall_impl; [|exact Hpall1]. intros p ->. left. reflexivity.
        -- eapply Forall_impl; [|exact Hpall2]. intros p Hp. right. exact Hp.
      * rewrite length_app. simpl. lia.
Qed.

Lemma x24_backtest_log_only_grows_witness :
  exists st',
    rebalance_loop two_dates 0.03 [1%Z; 2%Z] holding_itc = Ok st'
    /\ (exists new,
          transactions st' = (transactions holding_itc ++ new)%list
          /\ Forall (fun t => In (tx_date t) [1%Z; 2%Z]) new)
    /\ (exists points,
          portfolio_values st' = (portfolio_values holding_itc ++ points)%list
          /\ Forall (fun p => In (vp_date p) [1%Z; 2%Z]) points
          /\ (List.length points <= List.length [1%Z; 2%Z])%nat).
Proof.
  eexists. split; [vm_compute; reflexivity|].
  apply (x24_backtest_log_only_grows two_dates 0.03 [1%Z; 2%Z] holding_itc).
  vm_compute. reflexivity.
Defined.

(** X25: at positive prices a backtest that starts solvent stays solvent:
    in the state the rebalancing loop returns, cash is not overdrawn and
    no position is short. *)
Theorem x25_backtest_stays_solvent (historical_data : list Quote)
    (min_yield : Q) (rebalance_dates : list datetime) (st st' : State) :
  positive_prices historical_data ->
  solvent st ->
  rebalance_loop historical_data min_yield rebalance_dates st = Ok st' ->
  solvent st'.
Proof.
  intros Hprices. revert st.
  induction rebalance_dates as [|d dates IH]; intros st Hst H.
  - injection H as <-. exact Hst.
  - cbn [rebalance_loop] in H.
    destruct (rebalance_solvent historical_data min_yield d st Hprices Hst)
      as (st1 & Hr & Hst1).
    rewrite Hr in H. cbn [bind] in H. exact (IH st1 Hst1 H).
Qed.

Lemma two_dates_positive : positive_prices two_dates.
Proof. repeat constructor. Defined.

Lemma x25_backtest_stays_solvent_witness :
  exists st',
    (positive_prices two_dates
     /\ solvent (initial_state 1000)
     /\ rebalance_loop two_dates 0.01 [1%Z; 2%Z] (initial_state 1000) = Ok st')
    /\ solvent st'
    /\ portfolio st' = [("ITC", 2%Z); ("TCS", 130%Z)]
    /\ cash st' == 300.
Proof.
  assert (H : solvent (initial_state 1000))
    by (split; [vm_compute; discriminate|constructor]).
  eexists. split; [|split].
  - split; [exact two_dates_positive|]. split; [exact H|].
    vm_compute. reflexivity.
  - apply (x25_backtest_stays_solvent two_dates 0.01 [1%Z; 2%Z]
             (initial_state 1000) _ two_dates_positive H).
    vm_compute. reflexivity.
  - split; vm_compute; reflexivity.
Defined.

(** X26: the holdings after a rebalance are the purchases logged in it.
    After a rebalance with at least one qualified symbol, the portfolio
    holds, in buying order, exactly the symbol and the shares of every
    purchase the rebalance appended to the log; every such purchase is
    dated at the rebalance date and made at the price of the qualified
    row of its symbol, and no symbol is bought twice. *)
Theorem x26_holdings_are_the_logged_purchases (historical_data : list Quote)
    (min_yield : Q) (rebalance_date : datetime) (st st' : State) :
  rebalance historical_data min_yield rebalance_date st = Ok st' ->
  qualified_stocks (current_data historical_data rebalance_date) min_yield
    <> [] ->
  exists new,
    transactions st' = (transactions st ++ new)%list
    /\ portfolio st' = map position (filter is_buy new)
    /\ Forall
         (traded_at
            (qualified_stocks (current_data historical_data rebalance_date)
               min_yield) rebalance_date)
         (filter is_buy new)
    /\ NoDup (map tx_symbol (filter is_buy new)).
Proof.
  intros H Hne.
  destruct (rebalance_trades _ _ _ _ _ H)
    as (sold & bought & Hlog & Hsold & _ & Hbought & Hnodup & Hportfolio).
  assert (E : filter is_buy (sold ++ bought) = bought).
  { apply purchases_of_trades.
    - eapply Forall_impl; [|exact Hsold]. intros t Ht. apply Ht.
    - eapply Forall_impl; [|exact Hbought]. intros t Ht. apply Ht. }
  exists (sold ++ bought)%list. rewrite E.
  split; [exact Hlog|]. split; [exact (Hportfolio Hne)|]. split.
  - eapply Forall_impl; [|exact Hbought]. intros t Ht. apply Ht.
  - exact Hnodup.
Qed.

Lemma x26_holdings_are_the_logged_purchases_witness :
  exists st',
    (rebalance two_dates 0.01 2%Z holding_itc = Ok st'
     /\ qualified_stocks (current_data two_dates 2%Z) 0.01 <> [])
    /\ portfolio st' = [("ITC", 5%Z); ("TCS", 250%Z)]
    /\ exists new,
         transactions st' = (transactions holding_itc ++ new)%list
         /\ portfolio st' = map position (filter is_buy new)
         /\ Forall
              (traded_at (qualified_stocks (current_data two_dates 2%Z) 0.01)
                 2%Z)
              (filter is_buy new)
         /\ NoDup (map tx_symbol (filter is_buy new)).
Proof.
  assert (H2 : qualified_stocks (current_data two_dates 2%Z) 0.01 <> [])
    by (vm_compute; discriminate).
  eexists. split; [|split].
  - split; [vm_compute; reflexivity|exact H2].
  - reflexivity.
  - apply (x26_holdings_are_the_logged_purchases two_dates 0.01 2%Z
             holding_itc); [vm_compute; reflexivity|exact H2].
Defined.

(** X27: a rebalance sells whole positions, and only those of qualified
    symbols. The transactions it appends are first its sales, then its
    purchases. The sales are, in holding order, exactly the held positions
    whose symbol has a row among the qualified stocks, each for all its
    shares, dated at the rebalance date and made at the price of that row;
    a held position whose symbol did not qualify is not sold. *)
Theorem x27_sales_are_the_qualified_positions (historical_data : list Quote)
    (min_yield : Q) (rebalance_date : datetime) (st st' : State) :
  rebalance historical_data min_yield rebalance_date st = Ok st' ->
  exists sold bought,
    transactions st' = (transactions st ++ sold ++ bought)%list
    /\ Forall
         (fun t =>
            tx_action t = SELL
            /\ traded_at
                 (qualified_stocks (current_data historical_data rebalance_date)
                    min_yield) rebalance_date t)
         sold
    /\ Forall (fun t => tx_action t = BUY) bought
    /\ map position sold
       = filter
           (fun kv =>
              listed
                (qualified_stocks (current_data historical_data rebalance_date)
                   min_yield) (fst kv))
           (portfolio st).
Proof.
  intros H.
  destruct (rebalance_trades _ _ _ _ _ H)
    as (sold & bought & Hlog & Hsold & Hpos & Hbought & _ & _).
  exists sold, bought. split; [exact Hlog|]. split; [exact Hsold|].
  split; [|exact Hpos].
  eapply Forall_impl; [|exact Hbought]. intros t Ht. apply Ht.
Qed.

Lemma x27_sales_are_the_qualified_positions_witness :
  exists st',
    rebalance two_dates 0.01 2%Z holding_itc = Ok st'
    /\ exists sold bought,
         transactions st' = (transactions holding_itc ++ sold ++ bought)%list
         /\ Forall
              (fun t =>
                 tx_action t = SELL
                 /\ traded_at (qualified_stocks (current_data two_dates 2%Z) 0.01)
                      2%Z t)
              sold
         /\ Forall (fun t => tx_action t = BUY) bought
         /\ map position sold
            = filter
                (fun kv =>
                   listed (qualified_stocks (current_data two_dates 2%Z) 0.01)
                     (fst kv))
                (portfolio holding_itc).
Proof.
  eexists. split; [vm_compute; reflexivity|].
  apply (x27_sales_are_the_qualified_positions two_dates 0.01 2%Z holding_itc).
  vm_compute. reflexivity.
Defined.

(** X28: a backtest in which no symbol ever reaches [min_yield] does
    nothing at all: when at every rebalance date every latest yield is
    below [min_yield], the loop returns the state it started from, with no
    transaction and no value point added. *)
Theorem x28_backtest_without_qualifying_symbol_is_a_no_op
    (historical_data : list Quote) (min_yield : Q)
    (rebalance_dates : list datetime) (st : State) :
  (forall d q, In d rebalance_dates ->
               In q (current_data historical_data d) ->
               dividend_yield q < min_yield) ->
  rebalance_loop historical_data min_yield rebalance_dates st = Ok st.
Proof.
  induction rebalance_dates as [|d dates IH]; intros Hbelow.
  - reflexivity.
  - cbn [rebalance_loop].
    assert (Hd : rebalance historical_data min_yield d st = Ok st).
    { unfold rebalance, qualified_stocks.
      rewrite filter_nothing; [reflexivity|].
      intros q Hq. apply Qle_bool_false_iff.
      apply (Hbelow d q); [left; reflexivity|exact Hq]. }
    rewrite Hd. cbn [bind]. apply IH.
    intros d' q Hd' Hq. apply (Hbelow d' q); [right; exact Hd'|exact Hq].
Qed.

Lemma x28_backtest_without_qualifying_symbol_is_a_no_op_witness :
  (forall d q, In d [1%Z; 2%Z] -> In q (current_data two_dates d) ->
               dividend_yield q < 0.10)
  /\ rebalance_loop two_dates 0.10 [1%Z; 2%Z] holding_itc = Ok holding_itc.
Proof.
  assert (H : forall d q, In d [1%Z; 2%Z] -> In q (current_data two_dates d) ->
                          dividend_yield q < 0.10).
  { intros d q [<-|[<-|[]]] Hq; vm_compute in Hq;
      destruct Hq as [<-|[<-|[]]]; vm_compute; reflexivity. }
  split; [exact H|].
  exact (x28_backtest_without_qualifying_symbol_is_a_no_op two_dates 0.10
           [1%Z; 2%Z] holding_itc H).
Defined.

(** X29: after a rebalance with at least one qualified symbol, the
    portfolio holds qualified symbols only, each at most once: every
    holding belongs to a row of the rebalance date whose yield is at least
    [min_yield]. *)
Theorem x29_holdings_after_rebalance_all_qualify (historical_data : list Quote)
    (min_yield : Q) (rebalance_date : datetime) (st st' : State) :
  rebalance historical_data min_yield rebalance_date st = Ok st' ->
  qualified_stocks (current_data historical_data rebalance_date) min_yield
    <> [] ->
  NoDup (map fst (portfolio st'))
  /\ Forall
       (fun kv =>
          exists q,
            In q (current_data historical_data rebalance_date)
            /\ symbol q = fst kv
            /\ min_yield <= dividend_yield q)
       (portfolio st').
Proof.
  unfold rebalance. intros H Hne.
  set (qualified :=
         qualified_stocks (current_data historical_data rebalance_date)
           min_yield) in *.
  destruct (List.length qualified =? 0)%nat eqn:En.
  { apply Nat.eqb_eq in En. destruct qualified; [contradiction|discriminate]. }
  destruct (sell_holdings qualified rebalance_date (portfolio st) (cash st)
              (transactions st)) as [cash1 txs1].
  destruct (buy_holdings qualified rebalance_date _ [] cash1 txs1)
    as [[[portfolio2 cash2] txs2]|] eqn:Ebuy; cbn [bind] in H; [|discriminate].
  injection H as <-. cbn [portfolio].
  destruct (buy_holdings_keys rebalance_date _ qualified [] cash1 txs1
              portfolio2 cash2 txs2 (NoDup_nil _) Ebuy) as [Hnd Hkeys].
  split; [exact Hnd|].
  apply Forall_forall. intros kv Hkv.
  destruct (Hkeys kv Hkv) as [[]|(s & Hs & Hsym)].
  unfold qualified, qualified_stocks in Hs. apply filter_In in Hs.
  destruct Hs as [Hcur Hy]. exists s. repeat split; try assumption.
  apply Qle_bool_iff, Hy.
Qed.

Lemma x29_holdings_after_rebalance_all_qualify_witness :
  exists st',
    (rebalance two_dates 0.03 2%Z holding_itc = Ok st'
     /\ qualified_stocks (current_data two_dates 2%Z) 0.03 <> [])
    /\ NoDup (map fst (portfolio st'))
    /\ Forall
         (fun kv =>
            exists q,
              In q (current_data two_dates 2%Z)
              /\ symbol q = fst kv
              /\ 0.03 <= dividend_yield q)
         (portfolio st').
Proof.
  eexists.
  assert (H2 : qualified_stocks (current_data two_dates 2%Z) 0.03 <> [])
    by (vm_compute; discriminate).
  split.
  - split; [vm_compute; reflexivity|exact H2].
  - apply (x29_holdings_after_rebalance_all_qualify two_dates 0.03 2%Z
             holding_itc); [vm_compute; reflexivity|exact H2].
Defined.

End BacktestExtras.
